(** * TBBNB controller: sleep/wake policy, clock reconciliation and admin
    configuration of [TBBNB.ino], embedded in Rocq.

    The sketch is a single-threaded Arduino program over global variables.
    Globals become fields of one [Device] record that every function
    receives and returns; what the outside world answers (radio, NTP, the
    NFC chip, the serial line) is passed in as explicit environment
    records; library routines of the C runtime ([getLocalTime], [mktime],
    [sscanf]) are the fields of a [Platform]. *)

From Stdlib Require Import ZArith Lia Bool List String Ascii.
Import ListNotations.
Open Scope string_scope.
Open Scope Z_scope.

(** ** Machine integers *)

Module MachineInt.

Definition wrap_u (w x : Z) : Z := x mod 2 ^ w.
Definition wrap_s (w x : Z) : Z := (x + 2 ^ (w - 1)) mod 2 ^ w - 2 ^ (w - 1).

Definition u8 := wrap_u 8.
Definition u16 := wrap_u 16.
Definition u32 := wrap_u 32.
Definition u64 := wrap_u 64.
(** [long] is 32 bits on the ESP32 (ILP32). *)
Definition long := wrap_s 32.
Definition LONG_MIN : Z := - 2 ^ 31.
Definition LONG_MAX : Z := 2 ^ 31 - 1.
(** [time_t] is a signed 64-bit integer on the toolchain this sketch
    targets (ESP-IDF 5). *)
Definition time_t := wrap_s 64.

(** The Arduino [max] and [constrain] macros. *)
Definition constrain (x lo hi : Z) : Z :=
  if x <? lo then lo else if hi <? x then hi else x.

End MachineInt.
Import MachineInt.

(** ** Arduino [String] operations used by the sketch *)

Module AString.

Definition isspace (c : ascii) : bool :=
  let n := nat_of_ascii c in
  (Nat.eqb n 32 || (Nat.leb 9 n && Nat.leb n 13))%bool.

Definition lower (c : ascii) : ascii :=
  let n := nat_of_ascii c in
  if (Nat.leb 65 n && Nat.leb n 90)%bool then ascii_of_nat (n + 32) else c.

Definition upper (c : ascii) : ascii :=
  let n := nat_of_ascii c in
  if (Nat.leb 97 n && Nat.leb n 122)%bool then ascii_of_nat (n - 32) else c.

Fixpoint map_chars (f : ascii -> ascii) (s : string) : string :=
  match s with
  | EmptyString => EmptyString
  | String c r => String (f c) (map_chars f r)
  end.

Definition toLowerCase : string -> string := map_chars lower.
Definition toUpperCase : string -> string := map_chars upper.

Fixpoint ltrim (s : string) : string :=
  match s with
  | EmptyString => EmptyString
  | String c r => if isspace c then ltrim r else s
  end.

(** Drops trailing white space: a character survives when it is not a
    space or something that survives follows it. *)
Fixpoint rtrim (s : string) : string :=
  match s with
  | EmptyString => EmptyString
  | String c r =>
        match rtrim r with
        | EmptyString => if isspace c then EmptyString else String c EmptyString
        | r' => String c r'
        end
  end.

Definition trim (s : string) : string := rtrim (ltrim s).

(** [s.replace(find, repl)] for a one-character [find], the only form
    the sketch uses. *)
Fixpoint replace (find : ascii) (repl : string) (s : string) : string :=
  match s with
  | EmptyString => EmptyString
  | String c r =>
        if Ascii.eqb c find then repl ++ replace find repl r
        else String c (replace find repl r)
  end.

(** [s.indexOf(ch)]: [None] stands for the C++ result -1. *)
Fixpoint indexOf (ch : ascii) (s : string) : option nat :=
  match s with
  | EmptyString => None
  | String c r =>
        if Ascii.eqb c ch then Some O
        else match indexOf ch r with Some i => Some (S i) | None => None end
  end.

Fixpoint drop (n : nat) (s : string) : string :=
  match n, s with
  | O, _ => s
  | S _, EmptyString => EmptyString
  | S n', String _ r => drop n' r
  end.

Fixpoint take (n : nat) (s : string) : string :=
  match n, s with
  | O, _ => EmptyString
  | S _, EmptyString => EmptyString
  | S n', String c r => String c (take n' r)
  end.

(** [s.substring(from)] and [s.substring(from, to)] with [from <= to]. *)
Definition substring_from (from : nat) (s : string) : string := drop from s.
Definition substring (from to : nat) (s : string) : string :=
  take (to - from) (drop from s).

(** [s.indexOf(ch, from)]: the search starts at index [from]. *)
Definition indexOf_from (ch : ascii) (from : nat) (s : string) : option nat :=
  match indexOf ch (drop from s) with
  | Some i => Some (from + i)%nat
  | None => None
  end.

Fixpoint startsWith (p s : string) : bool :=
  match p, s with
  | EmptyString, _ => true
  | String _ _, EmptyString => false
  | String a p', String b s' => (Ascii.eqb a b && startsWith p' s')%bool
  end.

Definition len (s : string) : Z := Z.of_nat (String.length s).

(** What a C string function sees of the character buffer: the
    characters before the first NUL.  A [String] can hold a NUL: the
    NDEF reader appends the payload bytes one by one. *)
Fixpoint c_str (s : string) : string :=
  match s with
  | EmptyString => EmptyString
  | String c r => if Ascii.eqb c "000" then EmptyString else String c (c_str r)
  end.

Definition isdigit (c : ascii) : bool :=
  let n := nat_of_ascii c in (Nat.leb 48 n && Nat.leb n 57)%bool.
Definition digit (c : ascii) : Z := Z.of_nat (nat_of_ascii c) - 48.

(** Value of the leading run of decimal digits, and what follows it. *)
Fixpoint digits (acc : Z) (s : string) : Z * string :=
  match s with
  | String c r => if isdigit c then digits (10 * acc + digit c) r else (acc, s)
  | EmptyString => (acc, s)
  end.

(** [strtol(s, &end, 10)] without the final range clamp: white space,
    an optional sign, decimal digits.  [None] when no digit is found. *)
Definition scan_int (s : string) : option (Z * string) :=
  match ltrim s with
  | String c r =>
        if Ascii.eqb c "-" then
          match r with
          | String d _ => if isdigit d then let (v, k) := digits 0 r in Some (- v, k) else None
          | EmptyString => None
          end
        else if Ascii.eqb c "+" then
          match r with
          | String d _ => if isdigit d then Some (digits 0 r) else None
          | EmptyString => None
          end
        else if isdigit c then Some (digits 0 (String c r)) else None
  | EmptyString => None
  end.

Definition clamp_to (lo hi v : Z) : Z := Z.max lo (Z.min hi v).

(** [s.toInt()] is [atol] of the buffer: 0 when nothing parses, and the
    C library saturates at the ends of [long]. *)
Definition toInt (s : string) : Z :=
  match scan_int s with
  | Some (v, _) => clamp_to LONG_MIN LONG_MAX v
  | None => 0
  end.

(** [strtoll(s, nullptr, 10)]. *)
Definition strtoll (s : string) : Z :=
  match scan_int s with
  | Some (v, _) => clamp_to (- 2 ^ 63) (2 ^ 63 - 1) v
  | None => 0
  end.

End AString.
Import AString.

(** ** Civil time and the C runtime *)

(** [struct tm]. *)
Record tm := mk_tm {
  tm_sec : Z; tm_min : Z; tm_hour : Z;
  tm_mday : Z; tm_mon : Z; tm_year : Z;
  tm_wday : Z; tm_yday : Z; tm_isdst : Z }.

(** [next.tm_hour=H; next.tm_min=0; next.tm_sec=0] on a copy of [t]. *)
Definition tm_at_hour (t : tm) (H : Z) : tm :=
  mk_tm 0 0 H (tm_mday t) (tm_mon t) (tm_year t) (tm_wday t) (tm_yday t) (tm_isdst t).

(** What the sketch calls but does not define.  The first argument of the
    time functions is the value of the [TZ] environment variable, the
    second the system clock in seconds since the epoch.
    - [getLocalTime] is the Arduino core's: the broken-down local time, or
      nothing when the clock holds no plausible time;
    - [mktime] is the C library's;
    - [sscanf6 fmt s] is [sscanf] with a format of six [%d]: the six
      integers when all six were converted;
    - [rtc_gpio_is_valid_gpio] is the ESP-IDF's. *)
Record Platform := mkPlatform {
  getLocalTime : string -> Z -> option tm;
  mktime : string -> tm -> Z;
  sscanf6 : string -> string -> option (Z * Z * Z * Z * Z * Z);
  rtc_gpio_is_valid_gpio : Z -> bool }.

(** ** Pins and constants *)

Definition PN532_IRQ : Z := 33.
Definition PN532_RSTPDN : Z := 32.
Definition MAX_UIDS : Z := 16.
Definition ALLOW_WHEN_EMPTY : bool := true.
Definition LOW : bool := false.
Definition HIGH : bool := true.

(** ** Device state *)

Inductive Mode := MODE_SLEEP | MODE_SIGN | MODE_WELCOME | MODE_CODE | MODE_POOP.

Definition Mode_eqb (a b : Mode) : bool :=
  match a, b with
  | MODE_SLEEP, MODE_SLEEP | MODE_SIGN, MODE_SIGN | MODE_WELCOME, MODE_WELCOME
  | MODE_CODE, MODE_CODE | MODE_POOP, MODE_POOP => true
  | _, _ => false
  end.

(** An argument of a [printf]: a number, a string, a time printed through
    [strftime], or a value of the outside world that the model does not
    follow (an IP address, a pin level). *)
Inductive Arg := AInt (z : Z) | AStr (s : string) | ATime (t : tm) | AExt.

(** What the sketch does to the outside world, in the order it does it. *)
Inductive Event :=
| Print (s : string)
| Println (s : string)
| Printf (fmt : string) (args : list Arg)
| WifiPersistent (b : bool)
| WifiModeSta
| WifiModeOff
| WifiDisconnect
| WifiBegin
| DnsLookup (host : string)
| ConfigTime
| SetTimeOfDay (epoch : Z)
| OledCommand (on : bool)
| OledText (lines : list Arg)
| PinWrite (pin : Z) (level : bool)
| NfcBegin
| NfcSAMConfig
| NfcSetRetries (n : Z)
| NfcCommand (payload : list Z)
| NfcDrainAllReady (budget_ms : Z)
| NfcWaitNotReadyStable (quiet_ms timeout_ms : Z)
| I2cScan
| PrefsSave
| SleepDisableWake
| SleepEnableExt0 (pin : Z) (level : bool)
| SleepEnableTimer (us : Z)
| DeepSleepStart.

(** The persisted settings. [allowCount] is the length of [allowUids]. *)
Record Settings := mkSettings {
  SET_ACTIVE_MS : Z;
  SET_WELCOME_MS : Z;
  SET_REJECT_MS : Z;
  SET_MARQUEE_MS : Z;
  SET_CODE_DELAY_MS : Z;
  SET_SLEEP_MS : Z;
  SET_DAY_FALLBACK_MS : Z;
  UNLOCK_CODE : string;
  QUIET_EN : bool;
  QUIET_START_H : Z;
  QUIET_END_H : Z;
  SET_TZ : string;
  allowUids : list string }.

(** The globals of the user interface and the last-tag tracking. *)
Record Ui := mkUi {
  mode : Mode;
  displayAwake : bool;
  lastScanMs : Z;
  modeUntilMs : Z;
  codeShowAtMs : Z;
  recognizedLast : bool;
  lastUidHex : string;
  lastUidLen : Z;
  lastWasRecognized : bool;
  lastGrantedHex : string;
  lastPNTry : Z }.

(** The part of the outside world the sketch writes and reads back:
    - [sysClock]: the system clock, [time(nullptr)], set by [settimeofday]
      and by SNTP;
    - [envTZ]: the [TZ] environment variable;
    - [pinRSTPDN]: the level driven on the PN532 reset line;
    - [wifiUp]: the radio is in station mode;
    - [wakeExt0], [wakeTimer]: the wake sources armed for the next sleep;
    - [irqPullup]: the IRQ line is held by its RTC pull-up;
    - [nfcAutoPoll]: the PN532 acknowledged an InAutoPoll command since
      its reset line was last pulled low;
    - [prefs]: the settings store, empty until the first [saveAll];
    - [trace]: every [Event] so far, oldest first. *)
Record Hw := mkHw {
  sysClock : Z;
  envTZ : string;
  pinRSTPDN : bool;
  wifiUp : bool;
  wakeExt0 : bool;
  wakeTimer : option Z;
  irqPullup : bool;
  nfcAutoPoll : bool;
  prefs : option Settings;
  trace : list Event }.

(** [gPlannedWakeEpoch] and [gLastSyncEpoch] live in RTC memory and
    survive deep sleep; everything else in RAM is lost. *)
Record Device := mkDevice {
  cfg : Settings;
  ui : Ui;
  hw : Hw;
  timeValid : bool;
  gNfcUp : bool;
  gPlannedWakeEpoch : Z;
  gLastSyncEpoch : Z }.

(** *** Field updates *)

Definition set_SET_ACTIVE_MS (v : Z) (s : Settings) : Settings :=
  mkSettings v (SET_WELCOME_MS s) (SET_REJECT_MS s) (SET_MARQUEE_MS s)
    (SET_CODE_DELAY_MS s) (SET_SLEEP_MS s) (SET_DAY_FALLBACK_MS s) (UNLOCK_CODE s)
    (QUIET_EN s) (QUIET_START_H s) (QUIET_END_H s) (SET_TZ s) (allowUids s).
Definition set_SET_WELCOME_MS (v : Z) (s : Settings) : Settings :=
  mkSettings (SET_ACTIVE_MS s) v (SET_REJECT_MS s) (SET_MARQUEE_MS s) (SET_CODE_DELAY_MS
    s) (SET_SLEEP_MS s) (SET_DAY_FALLBACK_MS s) (UNLOCK_CODE s) (QUIET_EN s)
    (QUIET_START_H s) (QUIET_END_H s) (SET_TZ s) (allowUids s).
Definition set_SET_REJECT_MS (v : Z) (s : Settings) : Settings :=
  mkSettings (SET_ACTIVE_MS s) (SET_WELCOME_MS s) v (SET_MARQUEE_MS s)
    (SET_CODE_DELAY_MS s) (SET_SLEEP_MS s) (SET_DAY_FALLBACK_MS s) (UNLOCK_CODE s)
    (QUIET_EN s) (QUIET_START_H s) (QUIET_END_H s) (SET_TZ s) (allowUids s).
Definition set_SET_MARQUEE_MS (v : Z) (s : Settings) : Settings :=
  mkSettings (SET_ACTIVE_MS s) (SET_WELCOME_MS s) (SET_REJECT_MS s) v (SET_CODE_DELAY_MS
    s) (SET_SLEEP_MS s) (SET_DAY_FALLBACK_MS s) (UNLOCK_CODE s) (QUIET_EN s)
    (QUIET_START_H s) (QUIET_END_H s) (SET_TZ s) (allowUids s).
Definition set_SET_CODE_DELAY_MS (v : Z) (s : Settings) : Settings :=
  mkSettings (SET_ACTIVE_MS s) (SET_WELCOME_MS s) (SET_REJECT_MS s) (SET_MARQUEE_MS s) v
    (SET_SLEEP_MS s) (SET_DAY_FALLBACK_MS s) (UNLOCK_CODE s) (QUIET_EN s) (QUIET_START_H
    s) (QUIET_END_H s) (SET_TZ s) (allowUids s).
Definition set_SET_SLEEP_MS (v : Z) (s : Settings) : Settings :=
  mkSettings (SET_ACTIVE_MS s) (SET_WELCOME_MS s) (SET_REJECT_MS s) (SET_MARQUEE_MS s)
    (SET_CODE_DELAY_MS s) v (SET_DAY_FALLBACK_MS s) (UNLOCK_CODE s) (QUIET_EN s)
    (QUIET_START_H s) (QUIET_END_H s) (SET_TZ s) (allowUids s).
Definition set_SET_DAY_FALLBACK_MS (v : Z) (s : Settings) : Settings :=
  mkSettings (SET_ACTIVE_MS s) (SET_WELCOME_MS s) (SET_REJECT_MS s) (SET_MARQUEE_MS s)
    (SET_CODE_DELAY_MS s) (SET_SLEEP_MS s) v (UNLOCK_CODE s) (QUIET_EN s) (QUIET_START_H
    s) (QUIET_END_H s) (SET_TZ s) (allowUids s).
Definition set_UNLOCK_CODE (v : string) (s : Settings) : Settings :=
  mkSettings (SET_ACTIVE_MS s) (SET_WELCOME_MS s) (SET_REJECT_MS s) (SET_MARQUEE_MS s)
    (SET_CODE_DELAY_MS s) (SET_SLEEP_MS s) (SET_DAY_FALLBACK_MS s) v (QUIET_EN s)
    (QUIET_START_H s) (QUIET_END_H s) (SET_TZ s) (allowUids s).
Definition set_QUIET_EN (v : bool) (s : Settings) : Settings :=
  mkSettings (SET_ACTIVE_MS s) (SET_WELCOME_MS s) (SET_REJECT_MS s) (SET_MARQUEE_MS s)
    (SET_CODE_DELAY_MS s) (SET_SLEEP_MS s) (SET_DAY_FALLBACK_MS s) (UNLOCK_CODE s) v
    (QUIET_START_H s) (QUIET_END_H s) (SET_TZ s) (allowUids s).
Definition set_QUIET_START_H (v : Z) (s : Settings) : Settings :=
  mkSettings (SET_ACTIVE_MS s) (SET_WELCOME_MS s) (SET_REJECT_MS s) (SET_MARQUEE_MS s)
    (SET_CODE_DELAY_MS s) (SET_SLEEP_MS s) (SET_DAY_FALLBACK_MS s) (UNLOCK_CODE s)
    (QUIET_EN s) v (QUIET_END_H s) (SET_TZ s) (allowUids s).
Definition set_QUIET_END_H (v : Z) (s : Settings) : Settings :=
  mkSettings (SET_ACTIVE_MS s) (SET_WELCOME_MS s) (SET_REJECT_MS s) (SET_MARQUEE_MS s)
    (SET_CODE_DELAY_MS s) (SET_SLEEP_MS s) (SET_DAY_FALLBACK_MS s) (UNLOCK_CODE s)
    (QUIET_EN s) (QUIET_START_H s) v (SET_TZ s) (allowUids s).
Definition set_SET_TZ (v : string) (s : Settings) : Settings :=
  mkSettings (SET_ACTIVE_MS s) (SET_WELCOME_MS s) (SET_REJECT_MS s) (SET_MARQUEE_MS s)
    (SET_CODE_DELAY_MS s) (SET_SLEEP_MS s) (SET_DAY_FALLBACK_MS s) (UNLOCK_CODE s)
    (QUIET_EN s) (QUIET_START_H s) (QUIET_END_H s) v (allowUids s).
Definition set_allowUids (v : list string) (s : Settings) : Settings :=
  mkSettings (SET_ACTIVE_MS s) (SET_WELCOME_MS s) (SET_REJECT_MS s) (SET_MARQUEE_MS s)
    (SET_CODE_DELAY_MS s) (SET_SLEEP_MS s) (SET_DAY_FALLBACK_MS s) (UNLOCK_CODE s)
    (QUIET_EN s) (QUIET_START_H s) (QUIET_END_H s) (SET_TZ s) v.

Definition set_mode (v : Mode) (u : Ui) : Ui :=
  mkUi v (displayAwake u) (lastScanMs u) (modeUntilMs u) (codeShowAtMs u)
    (recognizedLast u) (lastUidHex u) (lastUidLen u) (lastWasRecognized u)
    (lastGrantedHex u) (lastPNTry u).
Definition set_displayAwake (v : bool) (u : Ui) : Ui :=
  mkUi (mode u) v (lastScanMs u) (modeUntilMs u) (codeShowAtMs u) (recognizedLast u)
    (lastUidHex u) (lastUidLen u) (lastWasRecognized u) (lastGrantedHex u) (lastPNTry
    u).
Definition set_lastScanMs (v : Z) (u : Ui) : Ui :=
  mkUi (mode u) (displayAwake u) v (modeUntilMs u) (codeShowAtMs u) (recognizedLast u)
    (lastUidHex u) (lastUidLen u) (lastWasRecognized u) (lastGrantedHex u) (lastPNTry
    u).
Definition set_modeUntilMs (v : Z) (u : Ui) : Ui :=
  mkUi (mode u) (displayAwake u) (lastScanMs u) v (codeShowAtMs u) (recognizedLast u)
    (lastUidHex u) (lastUidLen u) (lastWasRecognized u) (lastGrantedHex u) (lastPNTry
    u).
Definition set_codeShowAtMs (v : Z) (u : Ui) : Ui :=
  mkUi (mode u) (displayAwake u) (lastScanMs u) (modeUntilMs u) v (recognizedLast u)
    (lastUidHex u) (lastUidLen u) (lastWasRecognized u) (lastGrantedHex u) (lastPNTry
    u).
Definition set_recognizedLast (v : bool) (u : Ui) : Ui :=
  mkUi (mode u) (displayAwake u) (lastScanMs u) (modeUntilMs u) (codeShowAtMs u) v
    (lastUidHex u) (lastUidLen u) (lastWasRecognized u) (lastGrantedHex u) (lastPNTry
    u).
Definition set_lastUidHex (v : string) (u : Ui) : Ui :=
  mkUi (mode u) (displayAwake u) (lastScanMs u) (modeUntilMs u) (codeShowAtMs u)
    (recognizedLast u) v (lastUidLen u) (lastWasRecognized u) (lastGrantedHex u)
    (lastPNTry u).
Definition set_lastUidLen (v : Z) (u : Ui) : Ui :=
  mkUi (mode u) (displayAwake u) (lastScanMs u) (modeUntilMs u) (codeShowAtMs u)
    (recognizedLast u) (lastUidHex u) v (lastWasRecognized u) (lastGrantedHex u)
    (lastPNTry u).
Definition set_lastWasRecognized (v : bool) (u : Ui) : Ui :=
  mkUi (mode u) (displayAwake u) (lastScanMs u) (modeUntilMs u) (codeShowAtMs u)
    (recognizedLast u) (lastUidHex u) (lastUidLen u) v (lastGrantedHex u) (lastPNTry u).
Definition set_lastGrantedHex (v : string) (u : Ui) : Ui :=
  mkUi (mode u) (displayAwake u) (lastScanMs u) (modeUntilMs u) (codeShowAtMs u)
    (recognizedLast u) (lastUidHex u) (lastUidLen u) (lastWasRecognized u) v (lastPNTry
    u).
Definition set_lastPNTry (v : Z) (u : Ui) : Ui :=
  mkUi (mode u) (displayAwake u) (lastScanMs u) (modeUntilMs u) (codeShowAtMs u)
    (recognizedLast u) (lastUidHex u) (lastUidLen u) (lastWasRecognized u)
    (lastGrantedHex u) v.

Definition set_sysClock (v : Z) (h : Hw) : Hw :=
  mkHw v (envTZ h) (pinRSTPDN h) (wifiUp h) (wakeExt0 h) (wakeTimer h) (irqPullup h)
    (nfcAutoPoll h) (prefs h) (trace h).
Definition set_envTZ (v : string) (h : Hw) : Hw :=
  mkHw (sysClock h) v (pinRSTPDN h) (wifiUp h) (wakeExt0 h) (wakeTimer h) (irqPullup h)
    (nfcAutoPoll h) (prefs h) (trace h).
Definition set_pinRSTPDN (v : bool) (h : Hw) : Hw :=
  mkHw (sysClock h) (envTZ h) v (wifiUp h) (wakeExt0 h) (wakeTimer h) (irqPullup h)
    (nfcAutoPoll h) (prefs h) (trace h).
Definition set_wifiUp (v : bool) (h : Hw) : Hw :=
  mkHw (sysClock h) (envTZ h) (pinRSTPDN h) v (wakeExt0 h) (wakeTimer h) (irqPullup h)
    (nfcAutoPoll h) (prefs h) (trace h).
Definition set_wakeExt0 (v : bool) (h : Hw) : Hw :=
  mkHw (sysClock h) (envTZ h) (pinRSTPDN h) (wifiUp h) v (wakeTimer h) (irqPullup h)
    (nfcAutoPoll h) (prefs h) (trace h).
Definition set_wakeTimer (v : option Z) (h : Hw) : Hw :=
  mkHw (sysClock h) (envTZ h) (pinRSTPDN h) (wifiUp h) (wakeExt0 h) v (irqPullup h)
    (nfcAutoPoll h) (prefs h) (trace h).
Definition set_irqPullup (v : bool) (h : Hw) : Hw :=
  mkHw (sysClock h) (envTZ h) (pinRSTPDN h) (wifiUp h) (wakeExt0 h) (wakeTimer h) v
    (nfcAutoPoll h) (prefs h) (trace h).
Definition set_nfcAutoPoll (v : bool) (h : Hw) : Hw :=
  mkHw (sysClock h) (envTZ h) (pinRSTPDN h) (wifiUp h) (wakeExt0 h) (wakeTimer h)
    (irqPullup h) v (prefs h) (trace h).
Definition set_prefs (v : option Settings) (h : Hw) : Hw :=
  mkHw (sysClock h) (envTZ h) (pinRSTPDN h) (wifiUp h) (wakeExt0 h) (wakeTimer h)
    (irqPullup h) (nfcAutoPoll h) v (trace h).
Definition set_trace (v : list Event) (h : Hw) : Hw :=
  mkHw (sysClock h) (envTZ h) (pinRSTPDN h) (wifiUp h) (wakeExt0 h) (wakeTimer h)
    (irqPullup h) (nfcAutoPoll h) (prefs h) v.

Definition set_cfg (v : Settings) (d : Device) : Device :=
  mkDevice v (ui d) (hw d) (timeValid d) (gNfcUp d) (gPlannedWakeEpoch d)
    (gLastSyncEpoch d).
Definition set_ui (v : Ui) (d : Device) : Device :=
  mkDevice (cfg d) v (hw d) (timeValid d) (gNfcUp d) (gPlannedWakeEpoch d)
    (gLastSyncEpoch d).
Definition set_hw (v : Hw) (d : Device) : Device :=
  mkDevice (cfg d) (ui d) v (timeValid d) (gNfcUp d) (gPlannedWakeEpoch d)
    (gLastSyncEpoch d).
Definition set_timeValid (v : bool) (d : Device) : Device :=
  mkDevice (cfg d) (ui d) (hw d) v (gNfcUp d) (gPlannedWakeEpoch d) (gLastSyncEpoch d).
Definition set_gNfcUp (v : bool) (d : Device) : Device :=
  mkDevice (cfg d) (ui d) (hw d) (timeValid d) v (gPlannedWakeEpoch d) (gLastSyncEpoch d).
Definition set_gPlannedWakeEpoch (v : Z) (d : Device) : Device :=
  mkDevice (cfg d) (ui d) (hw d) (timeValid d) (gNfcUp d) v (gLastSyncEpoch d).
Definition set_gLastSyncEpoch (v : Z) (d : Device) : Device :=
  mkDevice (cfg d) (ui d) (hw d) (timeValid d) (gNfcUp d) (gPlannedWakeEpoch d) v.
Definition upd_cfg (f : Settings -> Settings) (d : Device) : Device := set_cfg (f (cfg d)) d.
Definition upd_ui (f : Ui -> Ui) (d : Device) : Device := set_ui (f (ui d)) d.
Definition upd_hw (f : Hw -> Hw) (d : Device) : Device := set_hw (f (hw d)) d.

(** Appends to the trace. *)
Definition emit (es : list Event) (d : Device) : Device :=
  upd_hw (fun h => set_trace (trace h ++ es) h) d.

(** [if (verbose) Serial.print...]. *)
Definition say (verbose : bool) (es : list Event) (d : Device) : Device :=
  if verbose then emit es d else d.

(** ** The outside world, one record per call that needs it *)

(** What the network answers during one call of [ensureTimeSync]: whether
    the access point is joined within [wifiMs], whether the name lookup
    succeeds, and, for each [getLocalTime] poll that fits in [ntpMs], the
    epoch SNTP has set the clock to since the previous poll, if any.  The
    wait makes at least one poll ([ntp_first]) whenever [ntpMs] is not 0. *)
Record NetEnv := mkNetEnv {
  wifi_connects : bool;
  dns_resolves : bool;
  ntp_first : option Z;
  ntp_rest : list (option Z) }.

Definition ntp_polls (ntpMs : Z) (net : NetEnv) : list (option Z) :=
  if 0 <? ntpMs then ntp_first net :: ntp_rest net else [].

(** How one command exchange with the PN532 over I2C ends. *)
Inductive I2cOutcome :=
| I2cAck
| I2cWriteErr (err : Z)
| I2cNoAckReady
| I2cShortAck
| I2cBadAck.

(** Why the chip left deep sleep, as far as the sketch tells causes
    apart. *)
Inductive WakeCause := WAKEUP_TIMER | WAKEUP_EXT0 | WAKEUP_UNDEFINED.

Definition is_timer (c : WakeCause) : bool :=
  match c with WAKEUP_TIMER => true | _ => false end.

(** What [setup] meets: the wake cause, whether the display answers, the
    firmware words the PN532 returns to the attempts of [pn532TryInit] and
    to the read that follows (0: no answer), the network during the two
    sync attempts, and the [millis()] reading at the end. *)
Record BootEnv := mkBootEnv {
  boot_cause : WakeCause;
  oled_ok : bool;
  fw_tryinit : list Z;
  fw_setup : Z;
  net_quiet : NetEnv;
  net_boot : NetEnv;
  boot_ms : Z }.

(** The places where [loop] reads [millis()]. *)
Inductive MillisAt :=
| AtPollCheck | AtPollMark | AtScan | AtModeUntil | AtCodeShow
| AtCodeCheck | AtCodeHold | AtBlank | AtExpire | AtIdle.

(** [struct NdefResult]; its [ok] is [nr_ok] here. *)
Record NdefResult := mkNdefResult {
  nr_ok : bool; nr_isText : bool; nr_isUri : bool; nr_text : string }.

(** What one iteration of [loop] meets: the line waiting on the serial
    port, if any; the wake cause; the network; the PN532 firmware word;
    the clock readings; the tag in the field, if any, as its UID bytes and
    what [readNdefUltralight] returns; the outcome of the InAutoPoll
    exchange. *)
Record LoopEnv := mkLoopEnv {
  serial_line : option string;
  wakeup_cause : WakeCause;
  net : NetEnv;
  fw_version : Z;
  millis : MillisAt -> Z;
  tag : option (list Z * NdefResult);
  autopoll_io : I2cOutcome }.

(** A function that may end in deep sleep either returns or suspends. *)
Inductive Outcome := Running (d : Device) | Suspended (d : Device).

Section Sketch.

(** The C runtime the sketch is linked against. *)
Variable P : Platform.

(** ** Hardware wrappers *)

Definition digitalWrite_RSTPDN (level : bool) (d : Device) : Device :=
  emit [PinWrite PN532_RSTPDN level]
    (upd_hw (fun h => set_nfcAutoPoll (nfcAutoPoll h && level) (set_pinRSTPDN level h)) d).

(** [WiFi.disconnect(true, true)]: drop the link and switch the radio off. *)
Definition WiFi_disconnect (d : Device) : Device :=
  emit [WifiDisconnect] (upd_hw (set_wifiUp false) d).

(** [WiFi.mode(WIFI_OFF)]. *)
Definition WiFi_off (d : Device) : Device :=
  emit [WifiModeOff] (upd_hw (set_wifiUp false) d).

(** [WiFi.mode(WIFI_STA)]. *)
Definition WiFi_sta (d : Device) : Device :=
  emit [WifiModeSta] (upd_hw (set_wifiUp true) d).

(** [WiFi.begin(WIFI_SSID, WIFI_PASSWORD)]. *)
Definition WiFi_begin (d : Device) : Device :=
  emit [WifiBegin] (upd_hw (set_wifiUp true) d).

(** [settimeofday(&tv, nullptr)] with [tv = {epoch, 0}]. *)
Definition settimeofday (epoch : Z) (d : Device) : Device :=
  emit [SetTimeOfDay epoch] (upd_hw (set_sysClock epoch) d).

(** [setenv("TZ", SET_TZ.c_str(), 1); tzset();]. *)
Definition setenv_TZ (d : Device) : Device :=
  upd_hw (set_envTZ (SET_TZ (cfg d))) d.

(** [getLocalTime(&now)] on the current clock and time zone. *)
Definition localNow (d : Device) : option tm :=
  getLocalTime P (envTZ (hw d)) (sysClock (hw d)).

Definition displayWake (d : Device) : Device :=
  if displayAwake (ui d) then d
  else upd_ui (set_displayAwake true) (emit [OledCommand true] d).

Definition displaySleep (d : Device) : Device :=
  if displayAwake (ui d)
  then upd_ui (set_displayAwake false) (emit [OledCommand false] d)
  else d.

(** ** PN532 power control *)

Definition pn532PowerDown (d : Device) : Device :=
  set_gNfcUp false (digitalWrite_RSTPDN LOW d).

Definition pn532PowerUp (d : Device) : Device :=
  set_gNfcUp false (digitalWrite_RSTPDN HIGH d).

Definition pn532HardReset (d : Device) : Device :=
  digitalWrite_RSTPDN HIGH (digitalWrite_RSTPDN LOW d).

Definition pn532SendCommandI2C (data : list Z) (io : I2cOutcome) (d : Device)
  : bool * Device :=
  let d := emit [NfcCommand data] d in
  match io with
  | I2cWriteErr err => (false, emit [Printf "[PN532] I2C write err=%u\n" [AInt err]] d)
  | I2cNoAckReady => (false, emit [Printf "[PN532] no ACK ready\n" []] d)
  | I2cShortAck => (false, emit [Printf "[PN532] short ACK read\n" []] d)
  | I2cBadAck =>
      (false, emit [Printf "[PN532] bad ACK %02X %02X %02X %02X %02X %02X (lead=%02X)\n"
                      [AExt; AExt; AExt; AExt; AExt; AExt; AExt]] d)
  | I2cAck => (true, d)
  end.

(** InAutoPoll: PollNr=0xFF, Period=0x01, TypeA(106)=0x00. *)
Definition pn532StartAutoPoll106A (io : I2cOutcome) (d : Device) : bool * Device :=
  let (ok, d) := pn532SendCommandI2C [0x60; 0xFF; 0x01; 0x00] io d in
  let d := if ok then upd_hw (set_nfcAutoPoll true) d else d in
  (ok, emit [Printf "[PN532] InAutoPoll start %s\n" [AStr (if ok then "OK" else "FAIL")]] d).

Definition rtcHoldLevel (pin : Z) (level : Z) (pullup : bool) (d : Device) : Device :=
  if negb (rtc_gpio_is_valid_gpio P pin) then d
  else upd_hw (set_irqPullup pullup) d.

Definition disableAllWakesExceptTimer (d : Device) : Device :=
  emit [SleepDisableWake] (upd_hw (set_wakeExt0 false) d).

(** ** Clock *)

Definition setSystemTimeFromEpoch (epoch : Z) (tag : string) (d : Device) : Device :=
  if epoch <=? 0 then d
  else
    let d := settimeofday epoch d in
    let d := setenv_TZ d in
    let d := set_timeValid true d in
    match localNow d with
    | Some tmp =>
        emit [Print "[TIME] set from "; Print tag; Print ": ";
              Printf "%s\n" [ATime tmp]] d
    | None => emit [Println "[TIME] set from fallback epoch (no local time yet)"] d
    end.

(** The body of [while (millis()-t1 < ntpMs)]: one iteration per poll. *)
Fixpoint ntp_wait (polls : list (option Z)) (verbose : bool) (d : Device) : Device :=
  match polls with
  | [] => d
  | p :: rest =>
      let d := match p with
               | Some e => upd_hw (set_sysClock e) d
               | None => d
               end in
      match localNow d with
      | Some tmp =>
          let d := set_timeValid true d in
          let d := set_gLastSyncEpoch (u32 (sysClock (hw d))) d in
          say verbose [Print "[NTP] synced "; Printf "%s\n" [ATime tmp]] d
      | None => ntp_wait rest verbose d
      end
  end.

Definition ensureTimeSync (wifiMs ntpMs : Z) (force verbose : bool)
    (net : NetEnv) (d : Device) : bool * Device :=
  if negb force && negb (QUIET_EN (cfg d)) then
    (false, say verbose [Println "[NTP] skipped (quiet disabled)"] d)
  else
    let d := say verbose [Println "[NTP] start"] d in
    let d := emit [WifiPersistent false] d in
    let d := WiFi_sta d in
    let d := WiFi_disconnect d in
    let d := WiFi_begin d in
    if negb (wifi_connects net) then
      let d := say verbose [Println "[NTP] WiFi connect failed"] d in
      (false, WiFi_off d)
    else
      let d := say verbose [Print "[NTP] WiFi OK, IP="; Printf "%s\n" [AExt];
                            Print "[NTP] RSSI="; Printf "%d\n" [AExt];
                            Println "[NTP] DNS test..."] d in
      let d := emit [DnsLookup "pool.ntp.org"] d in
      if negb (dns_resolves net) then
        let d := say verbose [Println "[NTP] DNS lookup failed"] d in
        (false, WiFi_off (WiFi_disconnect d))
      else
        let d := say verbose [Print "[NTP] pool.ntp.org -> "; Printf "%s\n" [AExt]] d in
        let d := emit [ConfigTime] d in
        let d := setenv_TZ d in
        let d := set_timeValid false d in
        let d := ntp_wait (ntp_polls ntpMs net) verbose d in
        let d := WiFi_off (WiFi_disconnect d) in
        let d := say (negb (timeValid d) && verbose) [Println "[NTP] timed out"] d in
        (timeValid d, d).

(** Set RTC from UNIX epoch seconds. *)
Definition setClockFromEpoch (epoch : Z) (d : Device) : bool * Device :=
  if epoch <=? 0 then (false, d)
  else
    let d := settimeofday epoch d in
    let d := setenv_TZ d in
    (true, set_timeValid true d).

(** Parse "YYYY-MM-DD HH:MM:SS" or "YYYY-MM-DDTHH:MM:SS". *)
Definition setClockFromString (s : string) (d : Device) : bool * Device :=
  let parsed :=
    match sscanf6 P "%d-%d-%d %d:%d:%d" s with
    | Some r => Some r
    | None => sscanf6 P "%d-%d-%dT%d:%d:%d" s
    end in
  match parsed with
  | None => (false, d)
  | Some (Y, M, D, h, m, sec) =>
      let t := mk_tm sec m h D (wrap_s 32 (M - 1)) (wrap_s 32 (Y - 1900)) 0 0 0 in
      let d := setenv_TZ d in
      let epoch := mktime P (envTZ (hw d)) t in
      if epoch <=? 0 then (false, d) else setClockFromEpoch epoch d
  end.

(** Current local time for printing; [None] prints as "unknown". *)
Definition nowString (d : Device) : option tm := localNow d.

(** ** Quiet hours *)

Definition inQuietHours (d : Device) : bool :=
  if negb (QUIET_EN (cfg d)) then false
  else
    match localNow d with
    | None => false
    | Some now =>
        let h := u8 (tm_hour now) in
        let s := QUIET_START_H (cfg d) in
        let e := QUIET_END_H (cfg d) in
        if s =? e then true
        else if s <? e then (s <=? h) && (h <? e)
        else (s <=? h) || (h <? e)
    end.

Definition quietNow (d : Device) : bool :=
  QUIET_EN (cfg d) && timeValid d && inQuietHours d.

Definition microsUntilHour (H : Z) (d : Device) : Z :=
  match localNow d with
  | None => 0
  | Some now =>
      let tz := envTZ (hw d) in
      let tnow := mktime P tz now in
      let next := tm_at_hour now H in
      let tnext := mktime P tz next in
      let tnext := if tnext <=? tnow then time_t (tnext + 24 * 3600) else tnext in
      u64 (u64 (time_t (tnext - tnow)) * 1000000)
  end.

(** ** Deep-sleep entries.  Neither returns: the result is the state in
    which the chip is suspended. *)

Definition ONE_MIN : Z := 60 * 1000000.
Definition THIRTY_MIN : Z := 30 * 60 * 1000000.

(** [enterDeepSleep_NightTimer] up to and including the best-effort time
    sync: display and PN532 off, radio off, wake sources cleared. *)
Definition night_shutdown (net : NetEnv) (d : Device) : Device :=
  let d := displaySleep d in
  let d := pn532PowerDown d in
  let d := WiFi_off (WiFi_disconnect d) in
  let d := disableAllWakesExceptTimer d in
  let d := rtcHoldLevel PN532_IRQ 1 true d in
  if negb (timeValid d) then snd (ensureTimeSync 4000 2500 true true net d) else d.

(** The timer duration [us] that [enterDeepSleep_NightTimer] computes in
    the state [d] reached after [night_shutdown]. *)
Definition night_duration (d : Device) : Z :=
  if timeValid d then
    let toEnd := microsUntilHour (QUIET_END_H (cfg d)) d in
    if toEnd <? ONE_MIN then ONE_MIN else toEnd
  else THIRTY_MIN.

Definition enterDeepSleep_NightTimer (net : NetEnv) (d : Device) : Device :=
  let d := night_shutdown net d in
  let nowEpoch := sysClock (hw d) in
  let us := night_duration d in
  let d :=
    if timeValid d
    then set_gPlannedWakeEpoch (time_t (nowEpoch + time_t (us / 1000000))) d
    else set_gPlannedWakeEpoch 0 d in
  let d := emit [Printf "[SLEEP] Night: timer set (%llu us). plannedWake=%ld\n"
                   [AInt us; AInt (long (gPlannedWakeEpoch d))]] d in
  let d := emit [SleepEnableTimer us] (upd_hw (set_wakeTimer (Some us)) d) in
  emit [DeepSleepStart] d.

(** When the InAutoPoll exchange succeeds the sketch drains the frames the
    PN532 still has ready and waits for the ready flag to stay clear:
    [pn532DrainAllReady(400); pn532WaitNotReadyStable(150,2000);].  Both
    only read the bus; they are recorded as events. *)
Definition enterDeepSleep_DayIRQ (io : I2cOutcome) (d : Device) : Device :=
  let d := displaySleep d in
  let d := pn532PowerUp d in
  let (autoOK, d) := pn532StartAutoPoll106A io d in
  let d :=
    if autoOK then emit [NfcDrainAllReady 400; NfcWaitNotReadyStable 150 2000] d
    else d in
  let d :=
    if rtc_gpio_is_valid_gpio P PN532_IRQ
    then emit [SleepEnableExt0 PN532_IRQ LOW] (upd_hw (set_wakeExt0 true) d)
    else d in
  let d :=
    if 0 <? SET_DAY_FALLBACK_MS (cfg d)
    then let us := u64 (SET_DAY_FALLBACK_MS (cfg d) * 1000) in
         emit [SleepEnableTimer us] (upd_hw (set_wakeTimer (Some us)) d)
    else d in
  let d := WiFi_off (WiFi_disconnect d) in
  emit [DeepSleepStart] d.

(** ** UID formatting and the allowlist *)

Definition hexdigit (n : Z) : ascii :=
  match String.get (Z.to_nat n) "0123456789ABCDEF" with
  | Some c => c
  | None => "0"%char
  end.

Fixpoint uidHexNoSep (uid : list Z) : string :=
  match uid with
  | [] => EmptyString
  | b :: r =>
      String (hexdigit (Z.land (Z.shiftr b 4) 15))
        (String (hexdigit (Z.land b 15)) (uidHexNoSep r))
  end.

(** [s.replace(" ",""); s.toUpperCase();]. *)
Definition normUid (h : string) : string := toUpperCase (replace " " "" h).

Definition allowCount (d : Device) : Z := Z.of_nat (List.length (allowUids (cfg d))).

Definition inAllowlist (h : string) (d : Device) : bool :=
  existsb (String.eqb (normUid h)) (allowUids (cfg d)).

Definition addAllow (hex : string) (d : Device) : bool * Device :=
  if MAX_UIDS <=? allowCount d then (false, d)
  else
    let h := normUid hex in
    if inAllowlist h d then (true, d)
    else (true, upd_cfg (fun c => set_allowUids (allowUids c ++ [h]) c) d).

(** Removes the first entry equal to [h], shifting the rest down. *)
Fixpoint remove_first (h : string) (l : list string) : option (list string) :=
  match l with
  | [] => None
  | x :: r =>
      if String.eqb x h then Some r
      else match remove_first h r with
           | Some r' => Some (x :: r')
           | None => None
           end
  end.

Definition removeAllow (hex : string) (d : Device) : bool * Device :=
  match remove_first (normUid hex) (allowUids (cfg d)) with
  | Some l => (true, upd_cfg (set_allowUids l) d)
  | None => (false, d)
  end.

Definition clearAllow (d : Device) : Device := upd_cfg (set_allowUids []) d.

(** ** Persistence *)

(** [saveAll] writes every setting under its key. *)
Definition saveAll (d : Device) : Device :=
  emit [PrefsSave] (upd_hw (set_prefs (Some (cfg d))) d).

(** [loadAll]: a key that is absent keeps the current value, except the
    time zone, whose default is spelled differently here, and the
    allowlist count, whose default is 0. *)
Definition loadAll (d : Device) : Device :=
  let c :=
    match prefs (hw d) with
    | Some s =>
        set_allowUids (map toUpperCase (List.firstn (Z.to_nat MAX_UIDS) (allowUids s)))
          (set_SET_MARQUEE_MS (u16 (SET_MARQUEE_MS s)) s)
    | None =>
        set_allowUids [] (set_SET_TZ "EST5EDT,M3,2.0/2,M11.1.0/2" (cfg d))
    end in
  setenv_TZ (set_cfg c d).

(** ** Admin configuration text *)

Record AdminResult := mkAdminResult { ok : bool; msg : string }.

Definition set_msg (m : string) (ar : AdminResult) : AdminResult :=
  mkAdminResult (ok ar) m.

(** [ar.ok=false; ar.msg=m;]. *)
Definition fail_msg (m : string) (ar : AdminResult) : AdminResult :=
  mkAdminResult false m.

Definition showAdminFeedback (ar : AdminResult) (d : Device) : Device :=
  let d := displayWake d in
  emit [OledText [AStr (if ok ar then "ADMIN OK" else "ADMIN ERR");
                  AStr (if 0 <? len (msg ar) then msg ar
                        else if ok ar then "saved" else "parse")]] d.

(** Apply one key=value pair. *)
Definition applyKV (k v : string) (d : Device) (ar : AdminResult)
  : Device * AdminResult :=
  let k := toLowerCase k in
  let v := trim v in
  if String.eqb k "active_ms" then
    (upd_cfg (set_SET_ACTIVE_MS (u32 (Z.max 10000 (toInt v)))) d, set_msg "active_ms" ar)
  else if String.eqb k "welcome_ms" then
    (upd_cfg (set_SET_WELCOME_MS (u32 (Z.max 200 (toInt v)))) d, set_msg "welcome_ms" ar)
  else if String.eqb k "reject_ms" then
    (upd_cfg (set_SET_REJECT_MS (u32 (Z.max 200 (toInt v)))) d, set_msg "reject_ms" ar)
  else if String.eqb k "marquee_ms" then
    let x := toInt v in
    let x := if x <? 10 then 10 else x in
    let x := if 65535 <? x then 65535 else x in
    (upd_cfg (set_SET_MARQUEE_MS (u16 x)) d, set_msg "marquee_ms" ar)
  else if String.eqb k "code_delay_ms" then
    let x := toInt v in
    let x := if x <? 0 then 0 else x in
    (upd_cfg (set_SET_CODE_DELAY_MS (u32 x)) d, set_msg "code_delay_ms" ar)
  else if String.eqb k "code" then
    if len v =? 4 then (upd_cfg (set_UNLOCK_CODE v) d, set_msg "code" ar)
    else (d, fail_msg "code len" ar)
  else if String.eqb k "quiet" then
    let v := toLowerCase v in
    let en := String.eqb v "1" || String.eqb v "on" || String.eqb v "true" in
    (upd_cfg (set_QUIET_EN en) d, set_msg (if en then "quiet:on" else "quiet:off") ar)
  else if String.eqb k "qstart" then
    (upd_cfg (set_QUIET_START_H (u8 (constrain (toInt v) 0 23))) d, set_msg "qstart" ar)
  else if String.eqb k "qend" then
    (upd_cfg (set_QUIET_END_H (u8 (constrain (toInt v) 0 23))) d, set_msg "qend" ar)
  else if String.eqb k "add" then
    let (r, d) := addAllow v d in
    if r then (d, set_msg "add ok" ar) else (d, fail_msg "add fail" ar)
  else if String.eqb k "remove" then
    let (r, d) := removeAllow v d in
    if r then (d, set_msg "remove ok" ar) else (d, fail_msg "remove nf" ar)
  else if String.eqb k "clear" then
    if String.eqb v "1" || String.eqb v "true"
    then (clearAllow d, set_msg "cleared" ar)
    else (d, fail_msg "clear?" ar)
  else if String.eqb k "sleep_ms" then
    let x := toInt v in
    let x := if x <? 30000 then 30000 else x in
    (upd_cfg (set_SET_SLEEP_MS (u32 x)) d, set_msg "sleep_ms" ar)
  else if String.eqb k "day_fallback_ms" then
    let x := toInt v in
    let x := if x <? 0 then 0 else x in
    (upd_cfg (set_SET_DAY_FALLBACK_MS (u32 x)) d, set_msg "day_fallback_ms" ar)
  else if String.eqb k "datetime" then
    let (r, d) := setClockFromString v d in
    if r then (d, set_msg "datetime" ar) else (d, fail_msg "datetime parse" ar)
  else if String.eqb k "epoch" then
    let e := strtoll v in
    let (r, d) := setClockFromEpoch (time_t e) d in
    if r then (d, set_msg "epoch" ar) else (d, fail_msg "epoch bad" ar)
  else if String.eqb k "tz" then
    if 2 <? len v
    then (setenv_TZ (upd_cfg (set_SET_TZ v) d), set_msg "tz" ar)
    else (d, fail_msg "tz invalid" ar)
  else (d, fail_msg ("unk key: " ++ k) ar).

(** One iteration of the loop on the piece [line]. *)
Definition applyConfigLine (st : Device * AdminResult) (line : string)
  : Device * AdminResult :=
  let (d, ar) := st in
  let line := trim line in
  if len line =? 0 then (d, ar)
  else
    match indexOf "=" line with
    | None => (d, fail_msg "no '='" ar)
    | Some eq =>
        let k := substring 0 eq line in
        let v := substring_from (S eq) line in
        applyKV (trim k) (trim v) d ar
    end.

(** [txt.replace("\r",""); txt.replace(";", "\n"); txt.replace(",", "\n");]. *)
Definition split_separators (txt : string) : string :=
  let nl := String "010" EmptyString in
  replace "," nl (replace ";" nl (replace "013" EmptyString txt)).

(** The loop [while (start < (int)txt.length())], with [fuel] iterations
    left.  Every iteration moves [start] forward, so the length of [txt]
    is fuel enough. *)
Fixpoint applyConfigText_loop (fuel : nat) (txt : string) (start : nat)
    (st : Device * AdminResult) : Device * AdminResult :=
  match fuel with
  | O => st
  | S fuel' =>
      if (start <? String.length txt)%nat then
        let nl := indexOf_from "010" start txt in
        let line := match nl with
                    | Some i => substring start i txt
                    | None => substring_from start txt
                    end in
        let start := match nl with
                     | Some i => S i
                     | None => String.length txt
                     end in
        applyConfigText_loop fuel' txt start (applyConfigLine st line)
      else st
  end.

Definition applyConfigText (txt : string) (d : Device) : AdminResult * Device :=
  let txt := split_separators txt in
  let (d, ar) :=
    applyConfigText_loop (String.length txt) txt 0 (d, mkAdminResult true "saved") in
  (ar, saveAll d).

(** ** Serial commands *)

(** Small OLED toast line. *)
Definition oledToast (line1 : string) (line2 : option Arg) (d : Device) : Device :=
  let d := displayWake d in
  emit [OledText (AStr line1 :: match line2 with Some a => [a] | None => [] end)] d.

Definition b2z (b : bool) : Z := if b then 1 else 0.

Definition printShow (d : Device) : Device :=
  let c := cfg d in
  emit [Printf "active_ms=%u welcome_ms=%u reject_ms=%u marquee_ms=%u code_delay_ms=%u code=%s\n"
          [AInt (SET_ACTIVE_MS c); AInt (SET_WELCOME_MS c); AInt (SET_REJECT_MS c);
           AInt (SET_MARQUEE_MS c); AInt (SET_CODE_DELAY_MS c); AStr (UNLOCK_CODE c)];
        Printf "quiet:%s %u->%u time:%s allowCount=%u\n"
          [AStr (if QUIET_EN c then "on" else "off"); AInt (QUIET_START_H c);
           AInt (QUIET_END_H c); AStr (if timeValid d then "ok" else "unknown");
           AInt (allowCount d)]] d.

Definition pnInfo (v : Z) (d : Device) : Device :=
  if v =? 0 then emit [Println "PN532 not responding"] d
  else emit [Printf "PN532 OK IC=0x%02X FW=%u.%u\n"
               [AInt (Z.land (Z.shiftr v 24) 255); AInt (Z.land (Z.shiftr v 16) 255);
                AInt (Z.land (Z.shiftr v 8) 255)]] d.

Definition help_text : string :=
  "Commands:\n  show\n  list | add <UIDHEX> | remove <UIDHEX> | clear\n  active_ms <ms> | welcome_ms <ms> | reject_ms <ms> | marquee_ms <ms> | code_delay_ms <ms>\n  sleep_ms <ms> | day_fallback_ms <ms>\n  unlock <4digits>\n  quiet on|off [start end]\n  time | date | ntp\n  settime YYYY-MM-DD HH:MM:SS | setepoch <unix> | settz <POSIX_TZ> | tz | checknow\n  last | lastgranted | addlast\n  i2cscan | pnreset | pninfo\n  sleepdiag | irq | sleepnow".

(** [unsigned long v = s.toInt(); if (v < floor) v = floor;]. *)
Definition floor_ul (floor : Z) (s : string) : Z :=
  let v := u32 (toInt s) in if v <? floor then floor else v.

(** The [quiet ...] command after its verb. *)
Definition serial_quiet (rest : string) (d : Device) : Device :=
  let usage := emit [Println "usage: quiet on|off [start end]"] d in
  if String.eqb rest "on" then
    emit [Println "quiet on"] (saveAll (upd_cfg (set_QUIET_EN true) d))
  else if String.eqb rest "off" then
    emit [Println "quiet off"] (saveAll (upd_cfg (set_QUIET_EN false) d))
  else
    match indexOf " " rest with
    | Some (S sp') =>
        let sp := S sp' in
        let onoff := trim (substring 0 sp rest) in
        let times := trim (substring_from (S sp) rest) in
        match indexOf " " times with
        | Some (S sp2') =>
            let sp2 := S sp2' in
            if String.eqb onoff "on" then
              let d := upd_cfg (set_QUIET_EN true) d in
              let d := upd_cfg (set_QUIET_START_H (u8 (toInt (substring 0 sp2 times)))) d in
              let d := upd_cfg (set_QUIET_END_H (u8 (toInt (substring_from (S sp2) times)))) d in
              emit [Println "quiet updated"] (saveAll d)
            else usage
        | _ => usage
        end
    | _ => usage
    end.

Definition handleSerial (env : LoopEnv) (d : Device) : Outcome :=
  match serial_line env with
  | None => Running d
  | Some raw =>
  let line := trim raw in
  let cmd := String.eqb line in
  let starts p := startsWith p line in
  let arg n := substring_from n line in
  if len line =? 0 then Running d
  else if cmd "help" then Running (emit [Println help_text] d)
  else if cmd "show" then Running (printShow d)
  else if cmd "list" then Running (emit (map Println (allowUids (cfg d))) d)
  else if starts "add " then
    let h := replace " " "" (toUpperCase (trim (arg 4%nat))) in
    let (r, d) := addAllow h d in
    Running (saveAll (emit [Println (if r then "ok" else "fail/full")] d))
  else if starts "remove " then
    let h := replace " " "" (toUpperCase (trim (arg 7%nat))) in
    let (r, d) := removeAllow h d in
    Running (saveAll (emit [Println (if r then "ok" else "notfound")] d))
  else if cmd "clear" then Running (emit [Println "cleared"] (saveAll (clearAllow d)))
  else if cmd "checknow" then
    let (synced, d) := ensureTimeSync 10000 10000 true true (net env) d in
    let d :=
      if negb synced && is_timer (wakeup_cause env) && (0 <? gPlannedWakeEpoch d)
      then setSystemTimeFromEpoch (gPlannedWakeEpoch d) "planned-wake(manual)" d
      else d in
    Running (emit [Println (if timeValid d then "time:ok" else "time:unknown")] d)
  else if starts "active_ms " then
    Running (printShow (saveAll (upd_cfg (set_SET_ACTIVE_MS (floor_ul 10000 (arg 10%nat))) d)))
  else if starts "welcome_ms " then
    Running (printShow (saveAll (upd_cfg (set_SET_WELCOME_MS (floor_ul 200 (arg 11%nat))) d)))
  else if starts "reject_ms " then
    Running (printShow (saveAll (upd_cfg (set_SET_REJECT_MS (floor_ul 200 (arg 10%nat))) d)))
  else if starts "marquee_ms " then
    let v := toInt (arg 11%nat) in
    let v := if v <? 10 then 10 else v in
    let v := if 65535 <? v then 65535 else v in
    Running (printShow (saveAll (upd_cfg (set_SET_MARQUEE_MS (u16 v)) d)))
  else if starts "code_delay_ms " then
    let v := toInt (arg 14%nat) in
    let v := if v <? 0 then 0 else v in
    Running (printShow (saveAll (upd_cfg (set_SET_CODE_DELAY_MS (u32 v)) d)))
  else if starts "unlock " then
    let c := trim (arg 7%nat) in
    if len c =? 4
    then Running (emit [Println "ok"] (saveAll (upd_cfg (set_UNLOCK_CODE c) d)))
    else Running (emit [Println "need 4 digits"] d)
  else if starts "quiet " then Running (serial_quiet (trim (arg 6%nat)) d)
  else if cmd "time" then
    match localNow d with
    | Some now => Running (emit [Print "now "; Printf "%s\n" [ATime now]] d)
    | None => Running (emit [Println "time unknown"] d)
    end
  else if cmd "time" || cmd "date" then
    Running (emit [Print "now ";
                   match nowString d with
                   | Some now => Printf "%s\n" [ATime now]
                   | None => Println "unknown"
                   end] d)
  else if starts "settime " then
    let (r, d) := setClockFromString (trim (arg 8%nat)) d in
    if r then
      let s := match nowString d with Some t => ATime t | None => AStr "unknown" end in
      let d := emit [Printf "time set: %s (tz=%s)\n" [s; AStr (SET_TZ (cfg d))]] d in
      Running (oledToast "TIME SET" (Some s) d)
    else
      let d := emit [Println "time parse fail (use: settime 2025-11-11 21:03:00)"] d in
      Running (oledToast "TIME PARSE FAIL" None d)
  else if starts "setepoch " then
    let v := strtoll (arg 9%nat) in
    let (r, d) := setClockFromEpoch (time_t v) d in
    if r then
      let s := match nowString d with Some t => ATime t | None => AStr "unknown" end in
      let d := emit [Printf "epoch set: %lld -> %s (tz=%s)\n"
                       [AInt v; s; AStr (SET_TZ (cfg d))]] d in
      Running (oledToast "EPOCH SET" (Some s) d)
    else
      let d := emit [Println "epoch set fail"] d in
      Running (oledToast "EPOCH SET FAIL" None d)
  else if starts "settz " then
    let tz := trim (arg 6%nat) in
    if len tz =? 0 then
      Running (emit [Println "usage: settz EST5EDT,M3.2.0/2,M11.1.0/2"] d)
    else
      let d := saveAll (upd_cfg (set_SET_TZ tz) d) in
      let d := setenv_TZ d in
      let s := nowString d in
      let d := emit [Printf "tz set: %s\n" [AStr (SET_TZ (cfg d))]] d in
      let d := oledToast "TZ SET" (Some (AStr (SET_TZ (cfg d)))) d in
      match s with
      | Some t => Running (emit [Printf "now %s\n" [ATime t]] d)
      | None => Running d
      end
  else if cmd "tz" then Running (emit [Printf "tz=%s\n" [AStr (SET_TZ (cfg d))]] d)
  else if cmd "ntp" then
    let (r, d) := ensureTimeSync 10000 10000 false true (net env) d in
    Running (emit [Println (if r then "synced" else "fail")] d)
  else if cmd "sleepdiag" then
    Running (emit [Printf "[DIAG] irq_rtccap=%d dig=%d quiet=%d time=%d NFCup=%d\n"
                     [AInt (b2z (rtc_gpio_is_valid_gpio P PN532_IRQ)); AExt;
                      AInt (b2z (QUIET_EN (cfg d) && timeValid d && inQuietHours d));
                      AInt (b2z (timeValid d)); AInt (b2z (gNfcUp d))]] d)
  else if cmd "irq" then
    Running (emit [Printf "[IRQ] pin=%d level=%d\n" [AInt PN532_IRQ; AExt]] d)
  else if cmd "sleepnow" then Suspended (enterDeepSleep_NightTimer (net env) d)
  else if cmd "i2cscan" then Running (emit [Println "I2C scan:"; I2cScan] d)
  else if cmd "pnreset" then Running (pnInfo (fw_version env) (pn532HardReset d))
  else if cmd "pninfo" then Running (pnInfo (fw_version env) d)
  else if cmd "last" then
    if 0 <? lastUidLen (ui d) then
      Running (emit [Printf "last=%s recognized=%s\n"
                       [AStr (lastUidHex (ui d));
                        AStr (if lastWasRecognized (ui d) then "yes" else "no")]] d)
    else Running (emit [Println "last=none"] d)
  else if cmd "lastgranted" then
    if 0 <? len (lastGrantedHex (ui d)) then
      Running (emit [Printf "lastgranted=%s\n" [AStr (lastGrantedHex (ui d))]] d)
    else Running (emit [Println "lastgranted=none"] d)
  else if cmd "addlast" then
    if 0 <? lastUidLen (ui d) then
      let (r, d) := addAllow (lastUidHex (ui d)) d in
      if r then Running (emit [Printf "added %s\n" [AStr (lastUidHex (ui d))]] (saveAll d))
      else Running (emit [Println "add fail/full or already present"] d)
    else Running (emit [Println "no last tag"] d)
  else Running (emit [Println "unknown; type 'help'"] d)
  end.

(** ** Setup *)

Definition fw_args (v : Z) : list Arg :=
  [AInt (Z.land (Z.shiftr v 24) 255); AInt (Z.land (Z.shiftr v 16) 255);
   AInt (Z.land (Z.shiftr v 8) 255)].

(** [nfc.SAMConfig(); nfc.setPassiveActivationRetries(0x20);]. *)
Definition nfc_configure (d : Device) : Device :=
  emit [NfcSAMConfig; NfcSetRetries 0x20] d.

(** The [for] loop of [pn532TryInit] with [n] attempts left; [fw] holds
    the firmware words still to come. *)
Fixpoint pn532TryInit_from (n : nat) (fw : list Z) (d : Device) : bool * Device :=
  match n with
  | O => (false, d)
  | S n' =>
      let d := pn532HardReset d in
      let d := emit [NfcBegin] d in
      let v := hd 0 fw in
      if v =? 0 then pn532TryInit_from n' (tl fw) d
      else (true, nfc_configure (emit [Printf "[PN532] IC=0x%02X FW=%u.%u\n" (fw_args v)] d))
  end.

Definition pn532TryInit : list Z -> Device -> bool * Device := pn532TryInit_from 5.

(** [setup] down to the PN532 bring-up. *)
Definition setup_peripherals (env : BootEnv) (d : Device) : Device :=
  let d := emit [Printf "\nboot\n" []] d in
  let d := WiFi_off (WiFi_disconnect d) in
  let d := digitalWrite_RSTPDN HIGH d in
  let d :=
    if negb (oled_ok env) then emit [Printf "[OLED] init failed\n" []] d
    else upd_ui (set_displayAwake false) (emit [OledCommand false] d) in
  let d := loadAll d in
  let (r, d) := pn532TryInit (fw_tryinit env) d in
  let d := set_gNfcUp r d in
  let d := if negb r then emit [Printf "[PN532] not found (after retries)\n" []] d else d in
  let d := emit [NfcBegin] d in
  let v := fw_setup env in
  if v =? 0 then set_gNfcUp false (emit [Printf "[PN532] not found\n" []] d)
  else
    set_gNfcUp true
      (nfc_configure (emit [Printf "[PN532] IC=0x%02X FW=%u.%u\n" (fw_args v)] d)).

(** The boot-time time policy of [setup], in three steps.  First the sync
    made when quiet hours are enabled, and the wake cause. *)
Definition setup_quiet_sync (env : BootEnv) (d : Device) : Device :=
  let d := if QUIET_EN (cfg d)
           then snd (ensureTimeSync 6000 6000 false true (net_quiet env) d)
           else d in
  emit [Println (if is_timer (boot_cause env) then "[WAKE] TIMER" else "[WAKE] COLD")] d.

(** Then the forced sync and, when it fails after a timer wake, the
    planned wake epoch. *)
Definition setup_forced_sync (env : BootEnv) (d : Device) : Device :=
  let cause := boot_cause env in
  let (synced, d) := ensureTimeSync 10000 10000 true true (net_boot env) d in
  if negb synced && is_timer cause && (0 <? gPlannedWakeEpoch d)
  then setSystemTimeFromEpoch (gPlannedWakeEpoch d) "planned-wake" d
  else d.

(** Last, the epoch of the last successful sync when the clock is still
    not valid. *)
Definition setup_last_sync (d : Device) : Device :=
  if negb (timeValid d) && (0 <? gLastSyncEpoch d)
  then let approx := gLastSyncEpoch d in
       setSystemTimeFromEpoch approx "last-sync-epoch" d
  else d.

Definition setup_time (env : BootEnv) (d : Device) : Device :=
  setup_last_sync (setup_forced_sync env (setup_quiet_sync env d)).

Definition setup (env : BootEnv) (d : Device) : Device :=
  let d := setup_peripherals env d in
  let d := setup_time env d in
  let d := displayWake d in
  let d := upd_ui (set_mode MODE_SIGN) d in
  upd_ui (set_lastScanMs (boot_ms env)) d.

(** ** Loop *)

(** [nr.text.indexOf('=') >= 0].  [String::indexOf(char)] is [strchr] on
    the character buffer, so the search ends at the first NUL of the
    text. *)
Definition has_eq (s : string) : bool :=
  match indexOf "=" (c_str s) with Some _ => true | None => false end.

(** The body of [if (nfc.readPassiveTargetID(...))]: a tag with UID [uid]
    answered and [readNdefUltralight] returned [nr]. *)
Definition onTagRead (env : LoopEnv) (uid : list Z) (nr : NdefResult) (d : Device)
  : Device :=
  let ms := millis env in
  let n := Z.of_nat (List.length uid) in
  let d := upd_ui (set_lastScanMs (ms AtScan)) d in
  let d := displayWake d in
  let d := upd_ui (set_lastUidLen n) d in
  let d := upd_ui (set_lastUidHex (if 0 <? n then uidHexNoSep uid else "")) d in
  if nr_ok nr && nr_isText nr && has_eq (nr_text nr) then
    let (ar, d) := applyConfigText (nr_text nr) d in
    showAdminFeedback ar d
  else if 4 <=? n then
    let hex := uidHexNoSep uid in
    let r := if 0 <? allowCount d then inAllowlist hex d else ALLOW_WHEN_EMPTY in
    let d := upd_ui (set_recognizedLast r) d in
    let d := upd_ui (set_lastWasRecognized r) d in
    if r then
      let d := upd_ui (set_lastGrantedHex hex) d in
      let d := upd_ui (set_mode MODE_WELCOME) d in
      let d := upd_ui (set_modeUntilMs (u32 (ms AtModeUntil + SET_WELCOME_MS (cfg d)))) d in
      upd_ui (set_codeShowAtMs
                (u32 (ms AtCodeShow + SET_WELCOME_MS (cfg d) + SET_CODE_DELAY_MS (cfg d)))) d
    else
      let d := upd_ui (set_mode MODE_POOP) d in
      upd_ui (set_modeUntilMs (u32 (ms AtModeUntil + SET_REJECT_MS (cfg d)))) d
  else
    let d := upd_ui (set_recognizedLast false) d in
    let d := upd_ui (set_mode MODE_POOP) d in
    upd_ui (set_modeUntilMs (u32 (ms AtModeUntil + SET_REJECT_MS (cfg d)))) d.

(** The throttled tag poll of [loop]. *)
Definition loop_poll (env : LoopEnv) (d : Device) : Device :=
  let ms := millis env in
  if gNfcUp d && Bool.eqb (pinRSTPDN (hw d)) HIGH then
    if 120 <=? u32 (ms AtPollCheck - lastPNTry (ui d)) then
      let d := upd_ui (set_lastPNTry (ms AtPollMark)) d in
      match tag env with
      | Some (uid, nr) => onTagRead env uid nr d
      | None => d
      end
    else d
  else d.

(** The timers of [loop]: welcome to code, idle blanking, back to the sign. *)
Definition loop_timers (env : LoopEnv) (d : Device) : Device :=
  let ms := millis env in
  let d :=
    if Mode_eqb (mode (ui d)) MODE_WELCOME && recognizedLast (ui d) then
      if codeShowAtMs (ui d) <=? ms AtCodeCheck then
        let d := upd_ui (set_mode MODE_CODE) d in
        let holdMs := if 1500 <? SET_WELCOME_MS (cfg d) then SET_WELCOME_MS (cfg d) else 1500 in
        upd_ui (set_modeUntilMs (u32 (ms AtCodeHold + holdMs))) d
      else d
    else d in
  let d :=
    if negb (Mode_eqb (mode (ui d)) MODE_SLEEP)
       && (SET_ACTIVE_MS (cfg d) <? u32 (ms AtBlank - lastScanMs (ui d)))
    then displaySleep (upd_ui (set_mode MODE_SLEEP) d)
    else d in
  if (Mode_eqb (mode (ui d)) MODE_CODE || Mode_eqb (mode (ui d)) MODE_POOP
      || (Mode_eqb (mode (ui d)) MODE_WELCOME && negb (recognizedLast (ui d))))
     && (modeUntilMs (ui d) <? ms AtExpire)
  then upd_ui (set_mode MODE_SIGN) d
  else d.

(** One iteration of [loop]; drawing the frame of the current mode is
    left out. *)
Definition loop (env : LoopEnv) (d : Device) : Outcome :=
  match handleSerial env d with
  | Suspended d => Suspended d
  | Running d =>
      if quietNow d then Suspended (enterDeepSleep_NightTimer (net env) d)
      else
        let d := loop_poll env d in
        let d := loop_timers env d in
        if negb (quietNow d)
           && (SET_SLEEP_MS (cfg d) <? u32 (millis env AtIdle - lastScanMs (ui d)))
        then Suspended (enterDeepSleep_DayIRQ (autopoll_io env) d)
        else Running d
  end.

End Sketch.

(** ** Power-on state *)

Definition default_settings : Settings :=
  mkSettings 120000 3000 3000 35 1500 180000 0 "3510" true 22 7
    "EST5EDT,M3.2.0/2,M11.1.0/2" [].

Definition initial_ui : Ui :=
  mkUi MODE_SIGN false 0 0 0 false "" 0 false "" 0.

(** The state in which [setup] starts: every global at its initialiser,
    except the two RTC-retained epochs; the clock and the settings store
    are whatever the previous run left. *)
Definition power_on (planned lastSync clock : Z) (store : option Settings) : Device :=
  mkDevice default_settings initial_ui
    (mkHw clock "" LOW false false None false false store [])
    false false planned lastSync.

(** ** A concrete platform

    An ESP32 whose time zone rules are those of UTC, whatever [TZ] holds:
    the proleptic Gregorian calendar, [getLocalTime] as the Arduino core
    has it (no time before 2017 is taken for a real one), and an [sscanf]
    that understands [%d], white space and literal characters. *)

Module Esp32Utc.

Definition days_from_civil (y m d : Z) : Z :=
  let y := if m <=? 2 then y - 1 else y in
  let era := y / 400 in
  let yoe := y - era * 400 in
  let doy := (153 * (if 2 <? m then m - 3 else m + 9) + 2) / 5 + d - 1 in
  let doe := yoe * 365 + yoe / 4 - yoe / 100 + doy in
  era * 146097 + doe - 719468.

Definition civil_from_days (z : Z) : Z * Z * Z :=
  let z := z + 719468 in
  let era := z / 146097 in
  let doe := z - era * 146097 in
  let yoe := (doe - doe / 1460 + doe / 36524 - doe / 146096) / 365 in
  let y := yoe + era * 400 in
  let doy := doe - (365 * yoe + yoe / 4 - yoe / 100) in
  let mp := (5 * doy + 2) / 153 in
  let d := doy - (153 * mp + 2) / 5 + 1 in
  let m := if mp <? 10 then mp + 3 else mp - 9 in
  (if m <=? 2 then y + 1 else y, m, d).

Definition localtime (clock : Z) : tm :=
  let days := clock / 86400 in
  let secs := clock mod 86400 in
  let '(y, m, d) := civil_from_days days in
  mk_tm (secs mod 60) (secs / 60 mod 60) (secs / 3600) d (m - 1) (y - 1900)
    ((days + 4) mod 7) (days - days_from_civil y 1 1) 0.

Definition getLocalTime (tz : string) (clock : Z) : option tm :=
  let t := localtime clock in
  if 2016 - 1900 <? tm_year t then Some t else None.

Definition mktime (tz : string) (t : tm) : Z :=
  let y := tm_year t + 1900 + tm_mon t / 12 in
  let m := tm_mon t mod 12 + 1 in
  (days_from_civil y m 1 + (tm_mday t - 1)) * 86400
  + tm_hour t * 3600 + tm_min t * 60 + tm_sec t.

(** The integers [sscanf] converts for [fmt] on [s], in order, up to the
    first mismatch. *)
Fixpoint scanf_ints (fmt s : string) : list Z :=
  match fmt with
  | EmptyString => []
  | String "%" (String "d" fmt') =>
      match scan_int s with
      | Some (v, rest) => wrap_s 32 v :: scanf_ints fmt' rest
      | None => []
      end
  | String c fmt' =>
      if isspace c then scanf_ints fmt' (ltrim s)
      else match s with
           | String c' s' => if Ascii.eqb c c' then scanf_ints fmt' s' else []
           | EmptyString => []
           end
  end.

Definition sscanf6 (fmt s : string) : option (Z * Z * Z * Z * Z * Z) :=
  match scanf_ints fmt s with
  | [a; b; c; d; e; f] => Some (a, b, c, d, e, f)
  | _ => None
  end.

(** The RTC-capable pads of the ESP32. *)
Definition rtc_gpio_is_valid_gpio (pin : Z) : bool :=
  existsb (Z.eqb pin) [0; 2; 4; 12; 13; 14; 15; 25; 26; 27; 32; 33; 34; 35; 36; 37; 38; 39].

Definition platform : Platform :=
  mkPlatform getLocalTime mktime sscanf6 rtc_gpio_is_valid_gpio.

End Esp32Utc.

(** ** Sample inputs *)

Module Sample.

(** 2025-11-11 23:10:00 and 2025-11-12 07:00:00, UTC. *)
Definition late_evening : Z := 1762902600.
Definition seven_sharp : Z := 1762930800.

(** A running device with factory settings whose clock reads [clock];
    [valid] is its validity flag. *)
Definition running (clock : Z) (valid : bool) : Device :=
  mkDevice default_settings initial_ui
    (mkHw clock "UTC0" HIGH false false None false false None [])
    valid true 0 0.

(** The same with quiet hours switched off. *)
Definition running_quiet_off (clock : Z) (valid : bool) : Device :=
  upd_cfg (set_QUIET_EN false) (running clock valid).

(** No access point in reach. *)
Definition net_down : NetEnv := mkNetEnv false false None [].

(** The link comes up and names resolve, but no NTP answer arrives during
    three polls. *)
Definition net_no_ntp : NetEnv := mkNetEnv true true None [None; None].

(** SNTP sets the clock to [e] before the first poll. *)
Definition net_ntp (e : Z) : NetEnv := mkNetEnv true true (Some e) [].

Definition boot_env (cause : WakeCause) (n : NetEnv) : BootEnv :=
  mkBootEnv cause true [0x32010607] 0x32010607 n n 250.

Definition loop_env (line : option string) (n : NetEnv) : LoopEnv :=
  mkLoopEnv line WAKEUP_UNDEFINED n 0x32010607 (fun _ => 1000) None I2cAck.

End Sample.

(** ** Vocabulary of the statements *)

(** The parts of the state a sync never writes. *)
Definition sync_frame (d d' : Device) : Prop :=
  cfg d' = cfg d /\ ui d' = ui d /\ gNfcUp d' = gNfcUp d
  /\ gPlannedWakeEpoch d' = gPlannedWakeEpoch d
  /\ pinRSTPDN (hw d') = pinRSTPDN (hw d)
  /\ nfcAutoPoll (hw d') = nfcAutoPoll (hw d)
  /\ wakeExt0 (hw d') = wakeExt0 (hw d)
  /\ wakeTimer (hw d') = wakeTimer (hw d)
  /\ prefs (hw d') = prefs (hw d).



(** The pieces of [txt] between line feeds, in order: a line feed ends a
    piece; what follows the last line feed is a piece when it is not
    empty. *)
Fixpoint segments (txt : string) : list string :=
  match txt with
  | EmptyString => []
  | String c r =>
      if Ascii.eqb c "010" then EmptyString :: segments r
      else match segments r with
           | [] => [String c EmptyString]
           | l :: ls => String c l :: ls
           end
  end.

(** The items of a payload: its pieces once the separators are line
    feeds. *)
Definition config_lines (txt : string) : list string :=
  segments (split_separators txt).

(** The items of the payload [txt] applied in order from the state and
    result [st]. *)
Definition run_config (P : Platform) (txt : string) (st : Device * AdminResult)
  : Device * AdminResult :=
  fold_left (applyConfigLine P) (config_lines txt) st.


(** The state an [Outcome] carries. *)
Definition dev (o : Outcome) : Device :=
  match o with Running d => d | Suspended d => d end.

(** A call of [ensureTimeSync] gets as far as waiting for NTP time: it is
    not skipped, the access point is joined and the name resolves. *)
Definition reaches_ntp_wait (force : bool) (net : NetEnv) (d : Device) : bool :=
  (force || QUIET_EN (cfg d)) && wifi_connects net && dns_resolves net.


(** The forced sync of [setup], run from power-on state [d0], returns
    false. *)
Definition boot_forced_sync_fails (P : Platform) (env : BootEnv) (d0 : Device) : Prop :=
  fst (ensureTimeSync P 10000 10000 true true (net_boot env)
         (setup_quiet_sync P env (setup_peripherals env d0))) = false.

(** The sync [setup] makes first when quiet hours are enabled, if it is
    made, returns false. *)
Definition boot_quiet_sync_fails (P : Platform) (env : BootEnv) (d0 : Device) : Prop :=
  QUIET_EN (cfg (setup_peripherals env d0)) = true ->
  fst (ensureTimeSync P 6000 6000 false true (net_quiet env)
         (setup_peripherals env d0)) = false.

(** The state of [setup] once the planned-wake fallback has had its turn,
    before the last-sync fallback. *)
Definition setup_before_last_sync (P : Platform) (env : BootEnv) (d0 : Device) : Device :=
  setup_forced_sync P env (setup_quiet_sync P env (setup_peripherals env d0)).

(** The planned-wake fallback applies: a timer wake with a planned epoch. *)
Definition planned_wake_known (env : BootEnv) (planned : Z) : Prop :=
  boot_cause env = WAKEUP_TIMER /\ 0 < planned.

(** What the peripheral bring-up of [setup] leaves alone. *)
Definition boot_frame (d d' : Device) : Prop :=
  timeValid d' = timeValid d
  /\ gPlannedWakeEpoch d' = gPlannedWakeEpoch d
  /\ gLastSyncEpoch d' = gLastSyncEpoch d
  /\ sysClock (hw d') = sysClock (hw d).

(** *** Vocabulary of the further properties *)

(** An allowlist as the sketch keeps it: within capacity, without
    duplicates, every entry in the form [normUid] gives. *)
Definition allow_ok (l : list string) : Prop :=
  (List.length l <= Z.to_nat MAX_UIDS)%nat
  /\ NoDup l
  /\ Forall (fun x => normUid x = x) l.

(** Bytes, as a tag UID holds them. *)
Definition bytes_ok (uid : list Z) : Prop := Forall (fun b => 0 <= b < 256) uid.

(** The test of the tag handling for an admin payload: a text record
    with '=' before any NUL. *)
Definition is_admin (nr : NdefResult) : bool :=
  nr_ok nr && nr_isText nr && has_eq (nr_text nr).

(** The allowlist test of the tag handling: with an empty list every
    tag counts as known. *)
Definition tag_known (uid : list Z) (d : Device) : bool :=
  if 0 <? allowCount d then inAllowlist (uidHexNoSep uid) d else ALLOW_WHEN_EMPTY.

(** Settings as every setter leaves them: each duration at or above its
    floor and within 32 bits, the marquee period within 10..65535, the
    unlock code four characters long, the quiet hours within a byte, the
    allowlist well formed. *)
Definition settings_ok (c : Settings) : Prop :=
  10000 <= SET_ACTIVE_MS c < 2 ^ 32
  /\ 200 <= SET_WELCOME_MS c < 2 ^ 32
  /\ 200 <= SET_REJECT_MS c < 2 ^ 32
  /\ 10 <= SET_MARQUEE_MS c <= 65535
  /\ 0 <= SET_CODE_DELAY_MS c < 2 ^ 32
  /\ 30000 <= SET_SLEEP_MS c < 2 ^ 32
  /\ 0 <= SET_DAY_FALLBACK_MS c < 2 ^ 32
  /\ len (UNLOCK_CODE c) = 4
  /\ 0 <= QUIET_START_H c < 256
  /\ 0 <= QUIET_END_H c < 256
  /\ allow_ok (allowUids c).

(** The settings in use and the settings in the store are both as the
    setters leave them. *)
Definition device_ok (d : Device) : Prop :=
  settings_ok (cfg d)
  /\ match prefs (hw d) with Some s => settings_ok s | None => True end.

(** [d'] has the settings and the store of [d]. *)
Definition same_store (d d' : Device) : Prop :=
  cfg d' = cfg d /\ prefs (hw d') = prefs (hw d).


(** The [TZ] environment variable holds the configured time zone, so
    local time is read in that zone. *)
Definition tz_applied (d : Device) : Prop := envTZ (hw d) = SET_TZ (cfg d).

(** ** Reading the NDEF message of a tag

    [readNdefUltralight] reads pages 4 to 19 of the tag into a buffer of
    64 bytes and scans it for an NDEF TLV holding one short text or URI
    record.  [i] and [j] are [uint16_t] there: an increment is written
    plainly where the test before it keeps the value small, and with
    [u16] where it can wrap. *)

(** The [NdefResult] a default construction gives. *)
Definition no_ndef : NdefResult := mkNdefResult false false false "".

(** [buf[i]].  [pad] is the byte that lies behind [buf]: the record
    header is read at [j], [j+1] and [j+2] after a test for [j+2 <= idx]
    only. *)
Definition buf_at (pad : Z) (buf : list Z) (i : Z) : Z := nth (Z.to_nat i) buf pad.

(** Bytes as the characters of a [String]. *)
Definition as_chars (bs : list Z) : string :=
  string_of_list_ascii (map (fun b => ascii_of_nat (Z.to_nat b)) bs).

(** [n] bytes of [buf] from index [from] on, as characters. *)
Definition chars_of (buf : list Z) (from n : Z) : string :=
  as_chars (List.firstn (Z.to_nat n) (List.skipn (Z.to_nat from) buf)).

(** The record of an NDEF TLV whose value starts at [i] and is [nlen]
    bytes long: from [uint16_t j = i;] to the [break] that ends the
    loop body.  The record header [buf[j]] is read and not looked at. *)
Definition ndef_record (pad : Z) (buf : list Z) (idx i nlen : Z) : NdefResult :=
  let j := i in
  if idx <? j + 2 then no_ndef
  else
    let tlen := buf_at pad buf (j + 1) in
    let plen := buf_at pad buf (j + 2) in
    let j := j + 3 in
    if i + nlen <? j + tlen + plen then no_ndef
    else
      let pay := j + tlen in
      if (tlen =? 1) && (buf_at pad buf j =? 84) && (1 <=? plen) then
        let status := buf_at pad buf pay in
        let langlen := Z.land status 0x3F in
        if 1 + langlen <=? plen then
          let tlen2 := u8 (plen - 1 - langlen) in
          mkNdefResult true true false (chars_of buf (pay + 1 + langlen) tlen2)
        else no_ndef
      else if (tlen =? 1) && (buf_at pad buf j =? 85) && (1 <=? plen) then
        mkNdefResult true false true (chars_of buf (pay + 1) (plen - 1))
      else no_ndef.

(** One pass of the [while] ends the scan or goes on at another index. *)
Inductive ScanStep := Again (i : Z) | Stop (r : NdefResult).

(** A length byte at [i], or [0xFF] and two bytes more: the length and
    the index behind it; [None] where the source breaks. *)
Definition tlv_length (pad : Z) (buf : list Z) (idx i : Z) : option (Z * Z) :=
  if idx <=? i then None
  else
    let len := buf_at pad buf i in
    let i := i + 1 in
    if len =? 0xFF then
      if idx <? i + 2 then None
      else Some (Z.lor (Z.shiftl (buf_at pad buf i) 8) (buf_at pad buf (i + 1)), i + 2)
    else Some (len, i).

(** The body of [while (i+1 < idx)]. *)
Definition tlv_step (pad : Z) (buf : list Z) (idx i : Z) : ScanStep :=
  let tlv := buf_at pad buf i in
  let i := i + 1 in
  if tlv =? 0x00 then Again i
  else if tlv =? 0xFE then Stop no_ndef
  else if negb (tlv =? 0x03) then
    match tlv_length pad buf idx i with
    | None => Stop no_ndef
    | Some (len, i) => Again (u16 (i + len))
    end
  else
    match tlv_length pad buf idx i with
    | None => Stop no_ndef
    | Some (nlen, i) =>
        if idx <? i + nlen then Stop no_ndef
        else Stop (ndef_record pad buf idx i nlen)
    end.

(** The TLV scan from index [i], with [fuel] passes of the loop left;
    [None] when they do not suffice. *)
Fixpoint tlv_scan (fuel : nat) (pad : Z) (buf : list Z) (idx i : Z)
  : option NdefResult :=
  match fuel with
  | O => None
  | S fuel' =>
      if i + 1 <? idx then
        match tlv_step pad buf idx i with
        | Again i' => tlv_scan fuel' pad buf idx i'
        | Stop r => Some r
        end
      else Some no_ndef
  end.

(** The four bytes [mifareultralight_ReadPage] delivers. *)
Definition Page : Type := Z * Z * Z * Z.

Definition page_bytes (p : Page) : list Z := let '(a, b, c, d) := p in [a; b; c; d].

(** The [for] loop over the pages, [n] of them left from page [p] on;
    [read p] is what reading page [p] gives, [None] when it fails. *)
Fixpoint read_pages (n : nat) (p : Z) (read : Z -> option Page) (buf : list Z)
  : option (list Z) :=
  match n with
  | O => Some buf
  | S n' =>
      match read p with
      | None => None
      | Some pg =>
          read_pages n' (p + 1) read
            (if Z.of_nat (List.length buf) + 4 <=? 64 then (buf ++ page_bytes pg)%list
             else buf)
      end
  end.

Definition readNdefUltralight (fuel : nat) (pad : Z) (read : Z -> option Page)
  : option NdefResult :=
  match read_pages 16 4 read [] with
  | None => Some no_ndef
  | Some buf => tlv_scan fuel pad buf (Z.of_nat (List.length buf)) 0
  end.

(** A tag whose pages 4.. hold the bytes [bs], zeros behind them. *)
Definition tag_pages (bs : list Z) (p : Z) : option Page :=
  let byte k := nth (Z.to_nat (4 * (p - 4) + k)) bs 0 in
  Some (byte 0, byte 1, byte 2, byte 3).

(** ** PN532 frames on the I2C bus *)

(** [(uint8_t)(~x + 1)]. *)
Definition csum8 (x : Z) : Z := u8 (Z.lnot x + 1).

(** [uint8_t sum = TFI; for (...) sum += data[i];]. *)
Definition frame_sum (tfi : Z) (data : list Z) : Z :=
  fold_left (fun s b => u8 (s + b)) data tfi.

(** The bytes [pn532SendCommandI2C] writes for the command [data]. *)
Definition pn532_frame (data : list Z) : list Z :=
  let len := u8 (Z.of_nat (List.length data)) in
  let LEN := u8 (len + 1) in
  let LCS := csum8 LEN in
  let TFI := 0xD4 in
  let DCS := csum8 (frame_sum TFI data) in
  ([0x00; 0x00; 0xFF; LEN; LCS; TFI] ++ data ++ [DCS; 0x00])%list.

(** [readHeader7] when the bus delivers the bytes [avail]: the six header
    bytes and [lead], or [None] for its result 0. *)
Definition readHeader7 (avail : list Z) : option (list Z * Z) :=
  let raw := List.firstn 7 avail in
  let n := List.length raw in
  if (n <? 6)%nat then None
  else
    let lead := if (n =? 7)%nat then nth 0 raw 0 else 0xFF in
    let p := if (n =? 7)%nat && (nth 0 raw 0 =? 0x01) then List.skipn 1 raw else raw in
    Some (List.firstn 6 p, lead).

(** The header of an ACK frame. *)
Definition is_ack (hdr : list Z) : bool :=
  (nth 0 hdr 0 =? 0x00) && (nth 1 hdr 0 =? 0x00) && (nth 2 hdr 0 =? 0xFF)
  && (nth 3 hdr 0 =? 0x00) && (nth 4 hdr 0 =? 0xFF) && (nth 5 hdr 0 =? 0x00).

(** [pn532DrainOneFrame]: 0 for nothing or junk, 1 for an ACK, 2 for a
    frame with a good length checksum.  [ready] is what
    [pn532IsReadyI2C] answers. *)
Definition pn532DrainOneFrame (ready : bool) (avail : list Z) : Z :=
  if negb ready then 0
  else
    match readHeader7 avail with
    | None => 0
    | Some (hdr, _) =>
        if is_ack hdr then 1
        else if negb ((nth 0 hdr 0 =? 0x00) && (nth 1 hdr 0 =? 0x00)
                      && (nth 2 hdr 0 =? 0xFF)) then 0
        else
          let LEN := nth 3 hdr 0 in
          let LCS := nth 4 hdr 0 in
          if negb (u8 (LEN + LCS) =? 0x00) then 0 else 2
    end.

(** [d'] shows the screen of [d] and runs its timers: the mode, its
    expiry and code-reveal instants, the instant of the last scan and
    what is remembered of that scan are the same. *)
Definition same_screen (d d' : Device) : Prop :=
  mode (ui d') = mode (ui d)
  /\ modeUntilMs (ui d') = modeUntilMs (ui d)
  /\ codeShowAtMs (ui d') = codeShowAtMs (ui d)
  /\ lastScanMs (ui d') = lastScanMs (ui d)
  /\ recognizedLast (ui d') = recognizedLast (ui d)
  /\ lastUidHex (ui d') = lastUidHex (ui d)
  /\ lastUidLen (ui d') = lastUidLen (ui d).






(** * Properties *)

(** ** Machine integers *)

Lemma wrap_u_range w x : 0 <= w -> 0 <= wrap_u w x < 2 ^ w.
Proof.
  intros Hw. unfold wrap_u. apply Z.mod_pos_bound. apply Z.pow_pos_nonneg; lia.
Qed.

Lemma wrap_u_small w x : 0 <= x < 2 ^ w -> wrap_u w x = x.
Proof. intros H. unfold wrap_u. apply Z.mod_small; assumption. Qed.

Lemma wrap_s_small w x :
  0 < w -> - 2 ^ (w - 1) <= x < 2 ^ (w - 1) -> wrap_s w x = x.
Proof.
  intros Hw H. unfold wrap_s.
  replace (2 ^ w) with (2 * 2 ^ (w - 1)).
  - rewrite Z.mod_small; lia.
  - rewrite <- Z.pow_succ_r by lia. f_equal. lia.
Qed.

(** A signed wrap does not change the residue. *)
Lemma u64_time_t x : u64 (time_t x) = u64 x.
Proof.
  unfold u64, time_t, wrap_u, wrap_s.
  change (2 ^ (64 - 1)) with 9223372036854775808.
  change (2 ^ 64) with 18446744073709551616.
  rewrite Zminus_mod, Zmod_mod, <- Zminus_mod. f_equal. lia.
Qed.

Lemma u64_time_t_sub a b : u64 (time_t (time_t a - b)) = u64 (a - b).
Proof.
  rewrite u64_time_t. unfold u64, wrap_u.
  rewrite Zminus_mod. fold (wrap_u 64 (time_t a)). fold (u64 (time_t a)).
  rewrite u64_time_t. unfold u64, wrap_u. rewrite <- Zminus_mod. reflexivity.
Qed.

Example toInt_22 : toInt " 22" = 22.
Proof. reflexivity. Qed.
Example toInt_neg : toInt "-5x" = -5.
Proof. reflexivity. Qed.
Example toInt_junk : toInt "abc" = 0.
Proof. reflexivity. Qed.
Example trim_ex : trim "  qend = 7 " = "qend = 7".
Proof. reflexivity. Qed.
Example config_lines_ex :
  config_lines "qstart=22;qend=7,code=9999" = ["qstart=22"; "qend=7"; "code=9999"].
Proof. reflexivity. Qed.
Example late_evening_ex :
  Esp32Utc.getLocalTime "UTC0" Sample.late_evening
  = Some (mk_tm 0 10 23 11 10 125 2 314 0).
Proof. reflexivity. Qed.

(** ** Quiet hours *)

Lemma quietNow_invalid (P : Platform) (d : Device) :
  timeValid d = false -> quietNow P d = false.
Proof.
  intros H. unfold quietNow. rewrite H.
  destruct (QUIET_EN (cfg d)); reflexivity.
Qed.

(** C5.  Whenever the validity flag is false, [quietNow] answers false,
    whatever the quiet window and the clock hold: without valid time the
    device is treated as not quiet. *)
Theorem C5_quietNow_needs_valid_time (P : Platform) (d : Device) :
  timeValid d = false -> quietNow P d = false.
Proof.
  intros H. unfold quietNow.
  destruct (QUIET_EN (cfg d)); [|reflexivity].
  rewrite H. reflexivity.
Qed.

Lemma C5_quietNow_needs_valid_time_witness :
  quietNow Esp32Utc.platform (Sample.running Sample.late_evening false) = false.
Proof.
  apply (C5_quietNow_needs_valid_time Esp32Utc.platform
           (Sample.running Sample.late_evening false)).
  reflexivity.
Defined.

(** C4.  With the local time readable and its hour [h] in 0..23,
    [inQuietHours] is false when the window is disabled, true when start
    and end are equal, [start <= h < end] when start is below end, and
    [h >= start] or [h < end] when start is above end. *)
Theorem C4_inQuietHours_cases (P : Platform) (d : Device) (now : tm) (h : Z) :
  localNow P d = Some now -> tm_hour now = h -> 0 <= h <= 23 ->
  let s := QUIET_START_H (cfg d) in
  let e := QUIET_END_H (cfg d) in
  (QUIET_EN (cfg d) = false -> inQuietHours P d = false)
  /\ (QUIET_EN (cfg d) = true -> s = e -> inQuietHours P d = true)
  /\ (QUIET_EN (cfg d) = true -> s < e ->
      (inQuietHours P d = true <-> s <= h < e))
  /\ (QUIET_EN (cfg d) = true -> s > e ->
      (inQuietHours P d = true <-> h >= s \/ h < e)).
Proof.
  intros Hnow Hh Hrange s e.
  assert (Hu : u8 (tm_hour now) = h).
  { rewrite Hh. apply wrap_u_small. change (2 ^ 8) with 256. lia. }
  unfold inQuietHours. rewrite Hnow, Hu. fold s e.
  split; [|split; [|split]].
  - intros ->. reflexivity.
  - intros -> Hse. cbn. apply Z.eqb_eq in Hse. rewrite Hse. reflexivity.
  - intros -> Hse. cbn.
    destruct (Z.eqb_spec s e); [lia|].
    destruct (Z.ltb_spec s e); [|lia].
    rewrite andb_true_iff, Z.leb_le, Z.ltb_lt. tauto.
  - intros -> Hse. cbn.
    destruct (Z.eqb_spec s e); [lia|].
    destruct (Z.ltb_spec s e); [lia|].
    rewrite orb_true_iff, Z.leb_le, Z.ltb_lt. lia.
Qed.

Lemma C4_inQuietHours_cases_witness :
  inQuietHours Esp32Utc.platform (Sample.running Sample.late_evening true) = true
  <-> (23 >= 22 \/ 23 < 7).
Proof.
  pose proof (C4_inQuietHours_cases Esp32Utc.platform
                (Sample.running Sample.late_evening true)
                (mk_tm 0 10 23 11 10 125 2 314 0) 23) as H.
  cbv zeta in H.
  destruct H as (_ & _ & _ & H).
  - reflexivity.
  - reflexivity.
  - lia.
  - apply H; reflexivity.
Defined.

(** ** Skipped time sync *)

(** C10.  With [force] false and quiet hours disabled, [ensureTimeSync]
    returns false at once: the only effect is the "skipped" line when
    verbose, the radio is not touched and no sync is tried.  So the serial
    command "ntp", which calls it with the default arguments, prints
    "fail" without trying a sync. *)
Theorem C10_sync_skipped_when_quiet_disabled (P : Platform) (d : Device) :
  QUIET_EN (cfg d) = false ->
  (forall wifiMs ntpMs verbose net,
      ensureTimeSync P wifiMs ntpMs false verbose net d
      = (false, say verbose [Println "[NTP] skipped (quiet disabled)"] d))
  /\ (forall env raw,
         serial_line env = Some raw -> trim raw = "ntp" ->
         handleSerial P env d
         = Running (emit [Println "fail"]
                      (emit [Println "[NTP] skipped (quiet disabled)"] d))).
Proof.
  intros Hq. split.
  - intros. unfold ensureTimeSync. rewrite Hq. reflexivity.
  - intros env raw Hline Htrim.
    unfold handleSerial. rewrite Hline, Htrim.
    cbv beta zeta.
    unfold ensureTimeSync. rewrite Hq. reflexivity.
Qed.

Lemma C10_sync_skipped_when_quiet_disabled_witness :
  handleSerial Esp32Utc.platform
    (Sample.loop_env (Some "ntp") (Sample.net_ntp Sample.late_evening))
    (Sample.running_quiet_off 5 false)
  = Running (emit [Println "fail"]
               (emit [Println "[NTP] skipped (quiet disabled)"]
                  (Sample.running_quiet_off 5 false))).
Proof.
  apply (C10_sync_skipped_when_quiet_disabled Esp32Utc.platform
           (Sample.running_quiet_off 5 false) eq_refl) with (raw := "ntp");
    reflexivity.
Defined.

(** ** What a time sync leaves alone *)

Section SyncFrame.

Variable P : Platform.

Lemma sync_frame_refl d : sync_frame d d.
Proof. repeat split. Qed.

Lemma sync_frame_trans a b c : sync_frame a b -> sync_frame b c -> sync_frame a c.
Proof.
  unfold sync_frame. intros H1 H2.
  decompose [and] H1. decompose [and] H2.
  repeat split; congruence.
Qed.

Lemma ntp_wait_frame polls verbose d : sync_frame d (ntp_wait P polls verbose d).
Proof.
  revert d. induction polls as [|p rest IH]; intros d; cbn [ntp_wait].
  - apply sync_frame_refl.
  - destruct (localNow P _) eqn:E.
    + destruct p, verbose; repeat split.
    + eapply sync_frame_trans; [|apply IH]. destruct p; repeat split.
Qed.

Lemma ensureTimeSync_frame wifiMs ntpMs force verbose net d :
  sync_frame d (snd (ensureTimeSync P wifiMs ntpMs force verbose net d)).
Proof.
  unfold ensureTimeSync.
  destruct (negb force && negb (QUIET_EN (cfg d))).
  { destruct verbose; repeat split. }
  destruct (wifi_connects net); cbn [negb].
  2:{ destruct verbose; repeat split. }
  destruct (dns_resolves net); cbn [negb snd].
  2:{ destruct verbose; repeat split. }
  match goal with
  | |- context [ntp_wait P ?l ?v ?x] =>
      pose proof (ntp_wait_frame l v x) as H; set (w := ntp_wait P l v x) in *
  end.
  eapply sync_frame_trans with (b := w).
  - eapply sync_frame_trans; [|exact H]. destruct verbose; repeat split.
  - destruct (negb (timeValid _) && verbose); repeat split.
Qed.

End SyncFrame.

(** ** Night-timer and daytime sleep *)

Section Sleep.

Variable P : Platform.

Lemma microsUntilHour_range H d : 0 <= microsUntilHour P H d < 2 ^ 64.
Proof.
  unfold microsUntilHour. destruct (localNow P d).
  - apply wrap_u_range. lia.
  - change (2 ^ 64) with 18446744073709551616. lia.
Qed.

Lemma night_duration_range d : 0 < night_duration P d < 2 ^ 64.
Proof.
  unfold night_duration, ONE_MIN, THIRTY_MIN.
  pose proof (microsUntilHour_range (QUIET_END_H (cfg d)) d) as H.
  change (2 ^ 64) with 18446744073709551616 in *.
  destruct (timeValid d); [|lia].
  destruct (Z.ltb_spec (microsUntilHour P (QUIET_END_H (cfg d)) d) (60 * 1000000)); lia.
Qed.

Lemma night_seconds_fit d :
  time_t (night_duration P d / 1000000) = night_duration P d / 1000000.
Proof.
  pose proof (night_duration_range d) as H.
  change (2 ^ 64) with 18446744073709551616 in H.
  apply wrap_s_small; [lia|].
  change (2 ^ (64 - 1)) with 9223372036854775808.
  assert (0 <= night_duration P d / 1000000 <= 18446744073709551616 / 1000000).
  { split; [apply Z.div_pos; lia | apply Z.div_le_mono; lia]. }
  change (18446744073709551616 / 1000000) with 18446744073709 in *. lia.
Qed.

Lemma night_shutdown_valid net d :
  timeValid d = true -> timeValid (night_shutdown P net d) = true.
Proof.
  intros H. unfold night_shutdown.
  match goal with |- context [negb (timeValid ?x)] => assert (E : timeValid x = true) end.
  { unfold rtcHoldLevel, displaySleep.
    destruct (negb _), (displayAwake (ui d)); exact H. }
  rewrite E. exact E.
Qed.

End Sleep.

(** C6.  On every night-sleep entry, with [d1] the state after the
    shutdown sequence and its best-effort sync: the timer is armed for the
    computed duration; if time is valid in [d1] the duration is the time
    to the end hour, at least one minute, and [gPlannedWakeEpoch] is the
    current epoch plus that duration in seconds; if time is not valid the
    duration is the thirty-minute nap and [gPlannedWakeEpoch] is 0. *)
Theorem C6_night_sleep_planned_wake (P : Platform) (net : NetEnv) (d : Device) :
  let d1 := night_shutdown P net d in
  let d' := enterDeepSleep_NightTimer P net d in
  let us := night_duration P d1 in
  wakeTimer (hw d') = Some us
  /\ (timeValid d = true -> timeValid d1 = true)
  /\ (timeValid d1 = true ->
      us = Z.max (microsUntilHour P (QUIET_END_H (cfg d1)) d1) ONE_MIN
      /\ gPlannedWakeEpoch d' = time_t (sysClock (hw d1) + us / 1000000)
      /\ (- 2 ^ 62 <= sysClock (hw d1) <= 2 ^ 62 ->
          gPlannedWakeEpoch d' = sysClock (hw d1) + us / 1000000))
  /\ (timeValid d1 = false -> us = THIRTY_MIN /\ gPlannedWakeEpoch d' = 0).
Proof.
  intros d1 d' us.
  assert (Hplanned : gPlannedWakeEpoch d'
                     = if timeValid d1
                       then time_t (sysClock (hw d1) + time_t (us / 1000000))
                       else 0).
  { unfold d', enterDeepSleep_NightTimer. fold d1. fold us.
    destruct (timeValid d1); reflexivity. }
  split; [|split; [|split]].
  - unfold d', enterDeepSleep_NightTimer. fold d1. fold us. reflexivity.
  - apply night_shutdown_valid.
  - intros Hv. rewrite Hv in Hplanned.
    unfold us in Hplanned. rewrite night_seconds_fit in Hplanned. fold us in Hplanned.
    split; [|split].
    + unfold us, night_duration. rewrite Hv.
      destruct (Z.ltb_spec (microsUntilHour P (QUIET_END_H (cfg d1)) d1) ONE_MIN); lia.
    + exact Hplanned.
    + intros Hclock. rewrite Hplanned. apply wrap_s_small; [lia|].
      pose proof (night_duration_range P d1) as Hr. fold us in Hr.
      change (2 ^ 64) with 18446744073709551616 in Hr.
      change (2 ^ (64 - 1)) with 9223372036854775808.
      change (2 ^ 62) with 4611686018427387904 in Hclock.
      assert (0 <= us / 1000000 <= 18446744073709551616 / 1000000).
      { split; [apply Z.div_pos; lia | apply Z.div_le_mono; lia]. }
      change (18446744073709551616 / 1000000) with 18446744073709 in *. lia.
  - intros Hv. rewrite Hv in Hplanned. split; [|exact Hplanned].
    unfold us, night_duration. rewrite Hv. reflexivity.
Qed.

Lemma C6_night_sleep_planned_wake_witness :
  gPlannedWakeEpoch
    (enterDeepSleep_NightTimer Esp32Utc.platform Sample.net_down
       (Sample.running Sample.late_evening true))
  = Sample.late_evening + 28200
  /\ gPlannedWakeEpoch
       (enterDeepSleep_NightTimer Esp32Utc.platform Sample.net_down
          (Sample.running 5 false))
     = 0.
Proof.
  split.
  - pose proof (C6_night_sleep_planned_wake Esp32Utc.platform Sample.net_down
                  (Sample.running Sample.late_evening true)) as H.
    cbv zeta in H. destruct H as (_ & _ & H & _).
    destruct (H eq_refl) as (_ & _ & Hsum).
    rewrite Hsum.
    + reflexivity.
    + vm_compute. split; discriminate.
  - pose proof (C6_night_sleep_planned_wake Esp32Utc.platform Sample.net_down
                  (Sample.running 5 false)) as H.
    cbv zeta in H. destruct H as (_ & _ & _ & H).
    apply (H eq_refl).
Defined.

Section NfcPower.

Variable P : Platform.



(** What the daytime entry appends to the trace holds no write of LOW to
    the reset line. *)
Lemma day_trace io d :
  exists es,
    trace (hw (enterDeepSleep_DayIRQ P io d)) = (trace (hw d) ++ es)%list
    /\ ~ In (PinWrite PN532_RSTPDN LOW) es
    /\ In (PinWrite PN532_RSTPDN HIGH) es
    /\ In DeepSleepStart es.
Proof.
  unfold enterDeepSleep_DayIRQ, pn532StartAutoPoll106A, pn532SendCommandI2C, displaySleep.
  destruct (displayAwake (ui d)), io, (rtc_gpio_is_valid_gpio P PN532_IRQ);
    cbn -[Z.mul u64];
    destruct (0 <? SET_DAY_FALLBACK_MS (cfg d));
    cbn -[Z.mul u64];
    repeat rewrite <- app_assoc;
    (eexists; split; [reflexivity|]);
    cbn; (split; [|split]); try tauto;
    intros H; repeat (destruct H as [H|H]; [discriminate H|]); exact H.
Qed.

End NfcPower.




(** ** The loop of [applyConfigText] visits the items in order *)

Section ConfigLoop.

Variable P : Platform.

Lemma drop_all n (s : string) : (String.length s <= n)%nat -> drop n s = EmptyString.
Proof.
  revert s. induction n as [|n IH]; intros [|c r] H; cbn in *; try reflexivity.
  - inversion H.
  - apply IH. apply le_S_n. exact H.
Qed.

Lemma drop_some n (s : string) : (n < String.length s)%nat -> drop n s <> EmptyString.
Proof.
  revert s. induction n as [|n IH]; intros [|c r] H; cbn in *; try discriminate.
  - inversion H.
  - inversion H.
  - apply IH. apply Nat.succ_lt_mono. exact H.
Qed.

Lemma drop_drop n m (s : string) : drop n (drop m s) = drop (m + n) s.
Proof.
  revert s. induction m as [|m IH]; intros s; [reflexivity|].
  destruct s as [|c r]; cbn [drop Nat.add].
  - destruct n; reflexivity.
  - apply IH.
Qed.

(** The first line feed cuts off the first piece. *)
Lemma segments_cut s i :
  indexOf "010" s = Some i -> segments s = take i s :: segments (drop (S i) s).
Proof.
  revert i. induction s as [|c r IH]; intros i; cbn [indexOf segments]; [discriminate|].
  destruct (Ascii.eqb c "010").
  - intros E. injection E as <-. reflexivity.
  - destruct (indexOf "010" r) as [j|]; [|discriminate].
    intros E. injection E as <-. rewrite (IH j eq_refl). reflexivity.
Qed.

(** Without a line feed, what is left is one piece. *)
Lemma segments_whole s :
  indexOf "010" s = None -> s <> EmptyString -> segments s = [s].
Proof.
  induction s as [|c r IH]; cbn [indexOf segments]; [intros _ H; contradiction H; reflexivity|].
  destruct (Ascii.eqb c "010"); [discriminate|].
  destruct (indexOf "010" r) as [j|]; [discriminate|].
  intros _ _. destruct r as [|c' r'].
  - reflexivity.
  - rewrite IH; [reflexivity | reflexivity | discriminate].
Qed.

(** With fuel for what is left of [txt], the loop applies the pieces of
    the rest of [txt] in order. *)
Lemma applyConfigText_loop_segments fuel txt start st :
  (String.length txt - start <= fuel)%nat ->
  applyConfigText_loop P fuel txt start st
  = fold_left (applyConfigLine P) (segments (drop start txt)) st.
Proof.
  revert start st. induction fuel as [|fuel IH]; intros start st Hfuel;
    cbn [applyConfigText_loop].
  - rewrite drop_all by lia. reflexivity.
  - destruct (Nat.ltb_spec start (String.length txt)) as [Hlt|Hge].
    2:{ rewrite drop_all by lia. reflexivity. }
    cbv zeta. unfold indexOf_from, substring, substring_from.
    destruct (indexOf "010" (drop start txt)) as [i|] eqn:Hnl.
    + rewrite IH by lia.
      rewrite (segments_cut _ _ Hnl). cbn [fold_left].
      rewrite drop_drop.
      replace (start + i - start)%nat with i by lia.
      replace (S (start + i)) with (start + S i)%nat by lia.
      reflexivity.
    + rewrite IH by lia.
      rewrite (drop_all (String.length txt) txt) by lia.
      rewrite (segments_whole _ Hnl (drop_some _ _ Hlt)). reflexivity.
Qed.

(** [applyConfigText] applies the items of the payload in order and
    saves. *)
Lemma applyConfigText_run txt d :
  applyConfigText P txt d
  = (snd (run_config P txt (d, mkAdminResult true "saved")),
     saveAll (fst (run_config P txt (d, mkAdminResult true "saved")))).
Proof.
  unfold applyConfigText, run_config, config_lines. cbv zeta.
  rewrite applyConfigText_loop_segments by lia. cbn [drop].
  destruct (fold_left _ _ _) as [d1 ar]. reflexivity.
Qed.

End ConfigLoop.

(** ** Admin configuration text *)

Section Admin.

Variable P : Platform.

(** Splits every [if] and [match] the goal is stuck on. *)
Ltac split_tests :=
  repeat match goal with
         | |- context [if ?c then _ else _] => destruct c eqn:?
         | |- context [match ?x with _ => _ end] => destruct x eqn:?
         end.

Lemma setClockFromEpoch_ui e d : ui (snd (setClockFromEpoch e d)) = ui d.
Proof. unfold setClockFromEpoch. destruct (e <=? 0); reflexivity. Qed.

Lemma setClockFromString_ui s d : ui (snd (setClockFromString P s d)) = ui d.
Proof.
  unfold setClockFromString.
  destruct (match sscanf6 P _ s with Some r => Some r | None => _ end)
    as [[[[[[Y M] D] h] m] sec]|]; [|reflexivity].
  destruct (_ <=? 0); [reflexivity|].
  rewrite setClockFromEpoch_ui. reflexivity.
Qed.

Lemma addAllow_ui h d : ui (snd (addAllow h d)) = ui d.
Proof. unfold addAllow. split_tests; reflexivity. Qed.

Lemma removeAllow_ui h d : ui (snd (removeAllow h d)) = ui d.
Proof. unfold removeAllow. split_tests; reflexivity. Qed.

(** No key of the admin protocol writes a global of the user interface. *)
Lemma applyKV_ui k v d ar : ui (fst (applyKV P k v d ar)) = ui d.
Proof.
  unfold applyKV.
  repeat match goal with
         | |- context [if String.eqb ?a ?b then _ else _] => destruct (String.eqb a b)
         end;
    try reflexivity.
  - destruct (len _ =? 4); reflexivity.
  - pose proof (addAllow_ui (trim v) d) as H.
    destruct (addAllow (trim v) d) as [[] d1]; exact H.
  - pose proof (removeAllow_ui (trim v) d) as H.
    destruct (removeAllow (trim v) d) as [[] d1]; exact H.
  - destruct (_ || _); reflexivity.
  - pose proof (setClockFromString_ui (trim v) d) as H.
    destruct (setClockFromString P (trim v) d) as [[] d1]; exact H.
  - pose proof (setClockFromEpoch_ui (time_t (strtoll (trim v))) d) as H.
    destruct (setClockFromEpoch _ d) as [[] d1]; exact H.
  - destruct (2 <? len _); reflexivity.
Qed.

Lemma applyConfigLine_ui st line : ui (fst (applyConfigLine P st line)) = ui (fst st).
Proof.
  destruct st as [d ar]. unfold applyConfigLine.
  destruct (len (trim line) =? 0); [reflexivity|].
  destruct (indexOf "=" (trim line)); [|reflexivity].
  apply applyKV_ui.
Qed.

Lemma fold_config_ui lines st :
  ui (fst (fold_left (applyConfigLine P) lines st)) = ui (fst st).
Proof.
  revert st. induction lines as [|l ls IH]; intros st; cbn [fold_left].
  - reflexivity.
  - rewrite IH. apply applyConfigLine_ui.
Qed.

Lemma applyConfigText_ui txt d : ui (snd (applyConfigText P txt d)) = ui d.
Proof.
  rewrite applyConfigText_run. cbn [snd]. unfold run_config.
  apply (fold_config_ui (config_lines txt) (d, mkAdminResult true "saved")).
Qed.

End Admin.




Section AdminPayload.

Variable P : Platform.



Lemma segments_nil txt : segments txt = [] -> txt = EmptyString.
Proof.
  destruct txt as [|c r]; [reflexivity|]. cbn.
  destruct (Ascii.eqb c "010"); [discriminate|].
  destruct (segments r); discriminate.
Qed.






















End AdminPayload.




(** ** Validity of the clock within a boot session *)

Section Validity.

Variable P : Platform.






Lemma setSystemTimeFromEpoch_sets e tag d :
  0 < e ->
  timeValid (setSystemTimeFromEpoch P e tag d) = true
  /\ sysClock (hw (setSystemTimeFromEpoch P e tag d)) = e.
Proof.
  intros H. unfold setSystemTimeFromEpoch.
  destruct (Z.leb_spec e 0); [lia|]. cbv zeta. destruct (localNow P _); split; reflexivity.
Qed.













End Validity.

Section LoopValidity.

Variable P : Platform.






End LoopValidity.




(** ** Boot reconciliation *)

Section Boot.

Variable P : Platform.

Lemma pn532TryInit_from_frame n fw d : boot_frame d (snd (pn532TryInit_from n fw d)).
Proof.
  revert fw d. induction n as [|n IH]; intros fw d; cbn [pn532TryInit_from].
  - repeat split.
  - cbv zeta. destruct (hd 0 fw =? 0).
    + destruct (IH (tl fw) (emit [NfcBegin] (pn532HardReset d))) as (A & B & C & D).
      repeat split; assumption.
    + repeat split.
Qed.

Lemma setup_peripherals_frame env d : boot_frame d (setup_peripherals env d).
Proof.
  unfold setup_peripherals. cbv zeta.
  match goal with
  | |- context [pn532TryInit ?fw ?x] =>
      pose proof (pn532TryInit_from_frame 5 fw x) as F;
      assert (Fx : boot_frame d x)
  end.
  { destruct (negb (oled_ok env)); repeat split. }
  unfold pn532TryInit.
  destruct (pn532TryInit_from 5 _ _) as [r d1]. cbn [snd] in F.
  destruct F as (A & B & C & D), Fx as (A' & B' & C' & D').
  destruct r, (fw_setup env =? 0); unfold boot_frame; cbn; repeat split; congruence.
Qed.

Lemma ntp_wait_failed polls verbose d :
  timeValid d = false ->
  timeValid (ntp_wait P polls verbose d) = false ->
  gLastSyncEpoch (ntp_wait P polls verbose d) = gLastSyncEpoch d.
Proof.
  revert d. induction polls as [|p rest IH]; intros d Hd; cbn [ntp_wait]; [reflexivity|].
  destruct p as [e|];
    (destruct (localNow P _);
     [destruct verbose; cbn; discriminate
     |intros H; apply IH in H; [rewrite H; reflexivity | exact Hd]]).
Qed.

(** A sync that returns false has not recorded a sync epoch, and has not
    made an invalid clock valid. *)
Lemma ensureTimeSync_failed wifiMs ntpMs force verbose net d :
  fst (ensureTimeSync P wifiMs ntpMs force verbose net d) = false ->
  gLastSyncEpoch (snd (ensureTimeSync P wifiMs ntpMs force verbose net d))
  = gLastSyncEpoch d
  /\ (timeValid d = false ->
      timeValid (snd (ensureTimeSync P wifiMs ntpMs force verbose net d)) = false).
Proof.
  unfold ensureTimeSync.
  destruct (negb force && negb (QUIET_EN (cfg d))).
  { destruct verbose; intros _; (split; [reflexivity | intros H; exact H]). }
  destruct (wifi_connects net); cbn [negb].
  2:{ destruct verbose; intros _; (split; [reflexivity | intros H; exact H]). }
  destruct (dns_resolves net); cbn [negb].
  2:{ destruct verbose; intros _; (split; [reflexivity | intros H; exact H]). }
  cbv zeta. cbn [fst snd].
  match goal with |- context [ntp_wait P ?l ?v ?x] =>
    pose proof (ntp_wait_failed l v x) as W; set (w := ntp_wait P l v x) in * end.
  intros Hf.
  assert (Hw : timeValid w = false).
  { destruct (negb (timeValid (WiFi_off (WiFi_disconnect w))) && verbose); exact Hf. }
  split.
  - assert (E : gLastSyncEpoch w = gLastSyncEpoch d).
    { rewrite W; [destruct verbose; reflexivity | reflexivity | exact Hw]. }
    destruct (negb (timeValid (WiFi_off (WiFi_disconnect w))) && verbose); exact E.
  - intros _.
    destruct (negb (timeValid (WiFi_off (WiFi_disconnect w))) && verbose); exact Hw.
Qed.

Lemma ensureTimeSync_planned wifiMs ntpMs force verbose net d :
  gPlannedWakeEpoch (snd (ensureTimeSync P wifiMs ntpMs force verbose net d))
  = gPlannedWakeEpoch d.
Proof.
  pose proof (ensureTimeSync_frame P wifiMs ntpMs force verbose net d) as F.
  unfold sync_frame in F. tauto.
Qed.

Lemma setup_quiet_sync_planned env d :
  gPlannedWakeEpoch (setup_quiet_sync P env d) = gPlannedWakeEpoch d.
Proof.
  unfold setup_quiet_sync. destruct (QUIET_EN (cfg d)); [|reflexivity].
  cbn. apply ensureTimeSync_planned.
Qed.

(** The last steps of [setup] touch neither the flag nor the clock. *)
Lemma setup_tail env d0 :
  timeValid (setup P env d0) = timeValid (setup_last_sync P (setup_before_last_sync P env d0))
  /\ sysClock (hw (setup P env d0))
     = sysClock (hw (setup_last_sync P (setup_before_last_sync P env d0)))
  /\ quietNow P (setup P env d0)
     = quietNow P (setup_last_sync P (setup_before_last_sync P env d0)).
Proof.
  unfold setup, setup_time, setup_before_last_sync, displayWake. cbv zeta.
  destruct (displayAwake _); repeat split.
Qed.

(** First rung: the forced sync fails after a timer wake with a planned
    epoch. *)
Lemma boot_planned_rung env d0 :
  boot_forced_sync_fails P env d0 ->
  planned_wake_known env (gPlannedWakeEpoch d0) ->
  timeValid (setup_before_last_sync P env d0) = true
  /\ sysClock (hw (setup_before_last_sync P env d0)) = gPlannedWakeEpoch d0.
Proof.
  unfold boot_forced_sync_fails, planned_wake_known, setup_before_last_sync,
    setup_forced_sync.
  intros Hf [Hc Hp].
  set (dq := setup_quiet_sync P env (setup_peripherals env d0)) in *.
  assert (Hpl : gPlannedWakeEpoch
                  (snd (ensureTimeSync P 10000 10000 true true (net_boot env) dq))
                = gPlannedWakeEpoch d0).
  { rewrite ensureTimeSync_planned. unfold dq. rewrite setup_quiet_sync_planned.
    apply (setup_peripherals_frame env d0). }
  destruct (ensureTimeSync P 10000 10000 true true (net_boot env) dq) as [synced d2].
  cbn [fst snd] in *. subst synced. rewrite Hc, Hpl. cbn [negb is_timer andb].
  destruct (Z.ltb_spec 0 (gPlannedWakeEpoch d0)); [|lia].
  apply setSystemTimeFromEpoch_sets. exact Hp.
Qed.

(** Second rung, from the state the first rung left. *)
Lemma boot_last_sync_rung d :
  timeValid d = false -> 0 < gLastSyncEpoch d ->
  timeValid (setup_last_sync P d) = true
  /\ sysClock (hw (setup_last_sync P d)) = gLastSyncEpoch d.
Proof.
  intros Hv Hl. unfold setup_last_sync. rewrite Hv. cbn [negb andb].
  destruct (Z.ltb_spec 0 (gLastSyncEpoch d)); [|lia].
  cbv zeta. apply setSystemTimeFromEpoch_sets. exact Hl.
Qed.

(** When no sync succeeds and the first rung does not apply, the state
    before the last rung is the power-on one as to validity and to the
    retained sync epoch. *)
Lemma boot_nothing_yet env d0 :
  timeValid d0 = false ->
  boot_quiet_sync_fails P env d0 -> boot_forced_sync_fails P env d0 ->
  ~ planned_wake_known env (gPlannedWakeEpoch d0) ->
  timeValid (setup_before_last_sync P env d0) = false
  /\ gLastSyncEpoch (setup_before_last_sync P env d0) = gLastSyncEpoch d0.
Proof.
  unfold boot_quiet_sync_fails, boot_forced_sync_fails, planned_wake_known,
    setup_before_last_sync, setup_forced_sync.
  intros Hv Hq Hf Hno.
  destruct (setup_peripherals_frame env d0) as (Fv & Fp & Fl & _).
  set (dp := setup_peripherals env d0) in *.
  assert (Q : timeValid (setup_quiet_sync P env dp) = false
              /\ gLastSyncEpoch (setup_quiet_sync P env dp) = gLastSyncEpoch d0
              /\ gPlannedWakeEpoch (setup_quiet_sync P env dp) = gPlannedWakeEpoch d0).
  { split; [|split]; [| |rewrite setup_quiet_sync_planned; exact Fp].
    - unfold setup_quiet_sync. destruct (QUIET_EN (cfg dp)); cbn; [|congruence].
      apply ensureTimeSync_failed; [apply Hq; reflexivity | congruence].
    - unfold setup_quiet_sync. destruct (QUIET_EN (cfg dp)); cbn; [|congruence].
      rewrite <- Fl. apply ensureTimeSync_failed. apply Hq. reflexivity. }
  set (dq := setup_quiet_sync P env dp) in *.
  destruct Q as (Qv & Ql & Qp).
  destruct (ensureTimeSync_failed 10000 10000 true true (net_boot env) dq Hf) as [El Ev].
  pose proof (ensureTimeSync_planned 10000 10000 true true (net_boot env) dq) as Ep.
  destruct (ensureTimeSync P 10000 10000 true true (net_boot env) dq) as [synced d2].
  cbn [fst snd] in *. subst synced. cbn [negb andb].
  assert (Hskip : is_timer (boot_cause env) && (0 <? gPlannedWakeEpoch d2) = false).
  { rewrite Ep, Qp. destruct (boot_cause env) eqn:Hc; try reflexivity.
    cbn. destruct (Z.ltb_spec 0 (gPlannedWakeEpoch d0)); [|reflexivity].
    exfalso. apply Hno. split; [reflexivity | assumption]. }
  rewrite Hskip. split; [apply Ev; exact Qv | congruence].
Qed.

End Boot.

(** C2.  The boot fallback ladder, from the power-on state.  If the
    forced boot sync fails after a timer wake with a planned epoch, the
    clock is set from the planned epoch and becomes valid.  If the clock
    is still invalid after that step and a last-sync epoch exists, the
    clock is set from it and becomes valid; in particular so when no sync
    succeeds, the planned-wake fallback does not apply and the retained
    last-sync epoch is positive.  If no sync succeeds and neither
    fallback has a source, the clock stays invalid and [quietNow] is
    false. *)
Theorem C2_boot_fallback_ladder (P : Platform) (env : BootEnv)
    (planned lastSync clock : Z) (store : option Settings) :
  let d0 := power_on planned lastSync clock store in
  let d := setup P env d0 in
  let mid := setup_before_last_sync P env d0 in
  (boot_forced_sync_fails P env d0 -> planned_wake_known env planned ->
   timeValid d = true /\ sysClock (hw d) = planned)
  /\ (timeValid mid = false -> 0 < gLastSyncEpoch mid ->
      timeValid d = true /\ sysClock (hw d) = gLastSyncEpoch mid)
  /\ (boot_quiet_sync_fails P env d0 -> boot_forced_sync_fails P env d0 ->
      ~ planned_wake_known env planned -> 0 < lastSync ->
      timeValid d = true /\ sysClock (hw d) = lastSync)
  /\ (boot_quiet_sync_fails P env d0 -> boot_forced_sync_fails P env d0 ->
      ~ planned_wake_known env planned -> lastSync <= 0 ->
      timeValid d = false /\ quietNow P d = false).
Proof.
  intros d0 d mid.
  destruct (setup_tail P env d0) as (Tv & Tc & Tq). fold d in Tv, Tc, Tq. fold mid in Tv, Tc, Tq.
  split; [|split; [|split]].
  - intros Hf Hp.
    destruct (boot_planned_rung P env d0 Hf Hp) as [Hv Hc]. fold mid in Hv, Hc.
    rewrite Tv, Tc. unfold setup_last_sync. rewrite Hv. cbn [negb andb].
    split; [exact Hv | exact Hc].
  - intros Hv Hl. rewrite Tv, Tc. apply boot_last_sync_rung; assumption.
  - intros Hq Hf Hno Hl.
    destruct (boot_nothing_yet P env d0 eq_refl Hq Hf Hno) as [Hv Hs]. fold mid in Hv, Hs.
    rewrite Tv, Tc. change (gLastSyncEpoch d0) with lastSync in Hs. rewrite <- Hs.
    apply boot_last_sync_rung; [exact Hv | rewrite Hs; exact Hl].
  - intros Hq Hf Hno Hl.
    destruct (boot_nothing_yet P env d0 eq_refl Hq Hf Hno) as [Hv Hs]. fold mid in Hv, Hs.
    change (gLastSyncEpoch d0) with lastSync in Hs.
    assert (E : timeValid d = false).
    { rewrite Tv. unfold setup_last_sync. rewrite Hv, Hs. cbn [negb andb].
      destruct (Z.ltb_spec 0 lastSync); [lia | exact Hv]. }
    split; [exact E|]. apply quietNow_invalid. exact E.
Qed.

Lemma C2_boot_fallback_ladder_witness :
  (let d := setup Esp32Utc.platform (Sample.boot_env WAKEUP_TIMER Sample.net_down)
              (power_on Sample.seven_sharp 0 5 None) in
   timeValid d = true /\ sysClock (hw d) = Sample.seven_sharp)
  /\ (let d := setup Esp32Utc.platform (Sample.boot_env WAKEUP_UNDEFINED Sample.net_down)
                 (power_on 0 Sample.late_evening 5 None) in
      timeValid d = true /\ sysClock (hw d) = Sample.late_evening)
  /\ (let d := setup Esp32Utc.platform (Sample.boot_env WAKEUP_UNDEFINED Sample.net_no_ntp)
                 (power_on 0 0 5 None) in
      timeValid d = false /\ quietNow Esp32Utc.platform d = false).
Proof.
  cbv zeta. split; [|split].
  - destruct (C2_boot_fallback_ladder Esp32Utc.platform
                (Sample.boot_env WAKEUP_TIMER Sample.net_down)
                Sample.seven_sharp 0 5 None) as (H & _).
    apply H.
    + vm_compute. reflexivity.
    + split; [reflexivity | vm_compute; reflexivity].
  - destruct (C2_boot_fallback_ladder Esp32Utc.platform
                (Sample.boot_env WAKEUP_UNDEFINED Sample.net_down)
                0 Sample.late_evening 5 None) as (_ & _ & H & _).
    apply H.
    + intros _. vm_compute. reflexivity.
    + vm_compute. reflexivity.
    + intros [Hc _]. discriminate Hc.
    + vm_compute. reflexivity.
  - destruct (C2_boot_fallback_ladder Esp32Utc.platform
                (Sample.boot_env WAKEUP_UNDEFINED Sample.net_no_ntp)
                0 0 5 None) as (_ & _ & _ & H).
    apply H.
    + intros _. vm_compute. reflexivity.
    + vm_compute. reflexivity.
    + intros [Hc _]. discriminate Hc.
    + vm_compute. discriminate.
Defined.

(** ** Night-sleep duration *)

Section NightDelay.

Variable P : Platform.

(** [microsUntilHour] when the target hour, as [mktime] places it on the
    day of [now], is not after [now]: the wait runs to the next day. *)
Lemma microsUntilHour_next_day H d now back :
  localNow P d = Some now ->
  mktime P (envTZ (hw d)) (tm_at_hour now H) = mktime P (envTZ (hw d)) now - back ->
  0 <= back < 24 * 3600 ->
  microsUntilHour P H d = (24 * 3600 - back) * 1000000.
Proof.
  intros Hnow Hmk Hb. unfold microsUntilHour. rewrite Hnow. cbv zeta. rewrite Hmk.
  destruct (Z.leb_spec (mktime P (envTZ (hw d)) now - back) (mktime P (envTZ (hw d)) now));
    [|lia].
  rewrite u64_time_t_sub.
  replace (mktime P (envTZ (hw d)) now - back + 24 * 3600 - mktime P (envTZ (hw d)) now)
    with (24 * 3600 - back) by lia.
  unfold u64. rewrite (wrap_u_small 64 (24 * 3600 - back)).
  - apply wrap_u_small. change (2 ^ 64) with 18446744073709551616. lia.
  - change (2 ^ 64) with 18446744073709551616. lia.
Qed.

(** [microsUntilHour] when the target hour is still ahead on the day of
    [now]. *)
Lemma microsUntilHour_same_day H d now ahead :
  localNow P d = Some now ->
  mktime P (envTZ (hw d)) (tm_at_hour now H) = mktime P (envTZ (hw d)) now + ahead ->
  0 < ahead <= 24 * 3600 ->
  microsUntilHour P H d = ahead * 1000000.
Proof.
  intros Hnow Hmk Hb. unfold microsUntilHour. rewrite Hnow. cbv zeta. rewrite Hmk.
  destruct (Z.leb_spec (mktime P (envTZ (hw d)) now + ahead) (mktime P (envTZ (hw d)) now));
    [lia|].
  rewrite u64_time_t.
  replace (mktime P (envTZ (hw d)) now + ahead - mktime P (envTZ (hw d)) now)
    with ahead by lia.
  unfold u64. rewrite (wrap_u_small 64 ahead).
  - apply wrap_u_small. change (2 ^ 64) with 18446744073709551616. lia.
  - change (2 ^ 64) with 18446744073709551616. lia.
Qed.

Lemma tm_at_own_hour now :
  tm_min now = 0 -> tm_sec now = 0 -> tm_at_hour now (tm_hour now) = now.
Proof. destruct now. cbn. intros -> ->. reflexivity. Qed.

Lemma night_duration_floor d :
  timeValid d = true ->
  ONE_MIN <= night_duration P d
  /\ (microsUntilHour P (QUIET_END_H (cfg d)) d < ONE_MIN -> night_duration P d = ONE_MIN)
  /\ (ONE_MIN <= microsUntilHour P (QUIET_END_H (cfg d)) d ->
      night_duration P d = microsUntilHour P (QUIET_END_H (cfg d)) d).
Proof.
  intros Hv. unfold night_duration. rewrite Hv. cbv zeta.
  destruct (Z.ltb_spec (microsUntilHour P (QUIET_END_H (cfg d)) d) ONE_MIN); lia.
Qed.

End NightDelay.

(** C3 as amended.  With valid time and the local time [now] readable:
    at 23:10 and [s] seconds with end hour 7, when [mktime] places 07:00
    of that day 16 h 10 min [s] s before [now] (no clock change in
    between), the wake delay is 7 h 50 min less [s] seconds, so within a
    minute of 7 h 50 min; exactly at the end hour the delay is 24 hours,
    neither zero nor the one-minute floor; in the last minute before the
    end hour the delay is the one-minute floor; and the delay is never
    below that floor. *)
Theorem C3_night_delay (P : Platform) (d : Device) (now : tm) :
  timeValid d = true ->
  localNow P d = Some now ->
  let tz := envTZ (hw d) in
  let H := QUIET_END_H (cfg d) in
  let s := tm_sec now in
  (H = 7 -> tm_hour now = 23 -> tm_min now = 10 -> 0 <= s < 60 ->
   mktime P tz (tm_at_hour now 7) = mktime P tz now - (16 * 3600 + 10 * 60 + s) ->
   night_duration P d = (7 * 3600 + 50 * 60 - s) * 1000000
   /\ (7 * 3600 + 50 * 60) * 1000000 - ONE_MIN < night_duration P d
      <= (7 * 3600 + 50 * 60) * 1000000)
  /\ (tm_hour now = H -> tm_min now = 0 -> s = 0 ->
      night_duration P d = 24 * 3600 * 1000000)
  /\ (tm_min now = 59 -> 0 < s < 60 ->
      mktime P tz (tm_at_hour now H) = mktime P tz now + (60 - s) ->
      night_duration P d = ONE_MIN)
  /\ ONE_MIN <= night_duration P d.
Proof.
  intros Hv Hnow tz H s.
  destruct (night_duration_floor P d Hv) as (Hfloor & Hlow & Hhigh).
  fold H in Hlow, Hhigh.
  split; [|split; [|split; [|exact Hfloor]]].
  - intros HH Hh Hm Hs Hmk.
    assert (E : microsUntilHour P H d = (24 * 3600 - (16 * 3600 + 10 * 60 + s)) * 1000000).
    { rewrite HH. apply (microsUntilHour_next_day P 7 d now); [exact Hnow | exact Hmk | lia]. }
    rewrite Hhigh; rewrite E; unfold ONE_MIN; lia.
  - intros Hh Hm Hs.
    assert (E : microsUntilHour P H d = (24 * 3600 - 0) * 1000000).
    { apply (microsUntilHour_next_day P H d now); [exact Hnow | | lia].
      rewrite <- Hh, tm_at_own_hour; [lia | exact Hm | exact Hs]. }
    rewrite Hhigh; rewrite E; unfold ONE_MIN; lia.
  - intros Hm Hs Hmk.
    assert (E : microsUntilHour P H d = (60 - s) * 1000000).
    { apply (microsUntilHour_same_day P H d now); [exact Hnow | exact Hmk | lia]. }
    apply Hlow. rewrite E. unfold ONE_MIN. lia.
Qed.

Lemma C3_night_delay_witness :
  night_duration Esp32Utc.platform (Sample.running Sample.late_evening true)
  = (7 * 3600 + 50 * 60) * 1000000
  /\ night_duration Esp32Utc.platform (Sample.running (Sample.seven_sharp - 20) true)
     = ONE_MIN.
Proof.
  split.
  - destruct (C3_night_delay Esp32Utc.platform
                (Sample.running Sample.late_evening true)
                (mk_tm 0 10 23 11 10 125 2 314 0) eq_refl eq_refl) as (H & _).
    specialize (H eq_refl eq_refl eq_refl).
    destruct H as [H _]; [cbn; lia | vm_compute; reflexivity | exact H].
  - destruct (C3_night_delay Esp32Utc.platform
                (Sample.running (Sample.seven_sharp - 20) true)
                (mk_tm 40 59 6 12 10 125 3 315 0) eq_refl eq_refl) as (_ & _ & H & _).
    apply H; [reflexivity | cbn; lia | vm_compute; reflexivity].
Defined.

(** C3 as stated fails: at 07:00:00 sharp with end hour 7 the timer is
    armed for 24 hours, not for the one-minute floor. *)
Lemma C3_counterexample :
  let d := Sample.running Sample.seven_sharp true in
  localNow Esp32Utc.platform d = Some (mk_tm 0 0 7 12 10 125 3 315 0)
  /\ QUIET_END_H (cfg d) = 7
  /\ night_duration Esp32Utc.platform d = 86400000000
  /\ wakeTimer (hw (enterDeepSleep_NightTimer Esp32Utc.platform Sample.net_down d))
     = Some 86400000000
  /\ 86400000000 <> ONE_MIN.
Proof.
  cbv zeta.
  split; [vm_compute; reflexivity|].
  split; [vm_compute; reflexivity|].
  split; [vm_compute; reflexivity|].
  split; [vm_compute; reflexivity|].
  vm_compute. discriminate.
Qed.

(** * Further properties of the sketch *)

(** ** The allowlist *)

Section Allowlist.

Lemma upper_idem c : upper (upper c) = upper c.
Proof. destruct c as [[] [] [] [] [] [] [] []]; reflexivity. Qed.

Lemma upper_space c : Ascii.eqb (upper c) " " = Ascii.eqb c " ".
Proof. destruct c as [[] [] [] [] [] [] [] []]; reflexivity. Qed.

Lemma toUpperCase_idem s : toUpperCase (toUpperCase s) = toUpperCase s.
Proof.
  induction s as [|c r IH]; [reflexivity|].
  cbn. rewrite upper_idem. f_equal. exact IH.
Qed.

Lemma strip_spaces_upper s :
  replace " " "" (toUpperCase (replace " " "" s)) = toUpperCase (replace " " "" s).
Proof.
  induction s as [|c r IH]; [reflexivity|].
  cbn [replace]. destruct (Ascii.eqb c " ") eqn:E.
  - cbn [append]. exact IH.
  - cbn. rewrite upper_space, E. f_equal. exact IH.
Qed.

Lemma normUid_idem h : normUid (normUid h) = normUid h.
Proof. unfold normUid. rewrite strip_spaces_upper. apply toUpperCase_idem. Qed.

Lemma existsb_eqb_In h l : existsb (String.eqb h) l = true <-> In h l.
Proof.
  rewrite existsb_exists. split.
  - intros (x & Hin & E). apply String.eqb_eq in E. subst. exact Hin.
  - intros H. exists h. split; [exact H | apply String.eqb_refl].
Qed.

Lemma inAllowlist_In h d : inAllowlist h d = true <-> In (normUid h) (allowUids (cfg d)).
Proof. apply existsb_eqb_In. Qed.

Lemma remove_first_In h l :
  In h l -> exists l', remove_first h l = Some l'.
Proof.
  induction l as [|x r IH]; intros H; [contradiction|]. cbn.
  destruct (String.eqb_spec x h); [eexists; reflexivity|].
  destruct H as [H|H]; [contradiction|].
  destruct (IH H) as (l' & ->). eexists; reflexivity.
Qed.

Lemma remove_first_not_In h l : ~ In h l -> remove_first h l = None.
Proof.
  induction l as [|x r IH]; intros H; [reflexivity|]. cbn.
  destruct (String.eqb_spec x h); [subst; exfalso; apply H; left; reflexivity|].
  rewrite IH; [reflexivity|]. intros Hin. apply H. right. exact Hin.
Qed.

Lemma remove_first_sub h l l' x : remove_first h l = Some l' -> In x l' -> In x l.
Proof.
  revert l'. induction l as [|y r IH]; intros l'; cbn; [discriminate|].
  destruct (String.eqb y h).
  - intros E. injection E as <-. intros H. right. exact H.
  - destruct (remove_first h r) as [r'|]; [|discriminate].
    intros E. injection E as <-. intros [H|H]; [left; exact H | right; apply (IH r' eq_refl H)].
Qed.


Lemma remove_first_NoDup h l l' :
  NoDup l -> remove_first h l = Some l' -> NoDup l' /\ ~ In h l'.
Proof.
  revert l'. induction l as [|y r IH]; intros l' Hnd; cbn; [discriminate|].
  inversion Hnd as [|? ? Hy Hr]; subst.
  destruct (String.eqb_spec y h).
  - intros E. injection E as <-. subst. split; assumption.
  - destruct (remove_first h r) as [r'|] eqn:Er; [|discriminate].
    intros E. injection E as <-.
    destruct (IH r' Hr eq_refl) as [Hnd' Hnot]. split.
    + constructor; [|exact Hnd']. intros Hin. apply Hy. apply (remove_first_sub h r r' y Er Hin).
    + intros [Hin|Hin]; [contradiction | apply Hnot; exact Hin].
Qed.


Lemma remove_first_last h l : ~ In h l -> remove_first h (l ++ [h]) = Some l.
Proof.
  induction l as [|y r IH]; intros H; cbn.
  - rewrite String.eqb_refl. reflexivity.
  - destruct (String.eqb_spec y h); [subst; exfalso; apply H; left; reflexivity|].
    rewrite IH; [reflexivity|]. intros Hin. apply H. right. exact Hin.
Qed.

End Allowlist.






(** X2.  Membership follows the edits, whatever the case and spacing of
    the UID given: a successful [addAllow] makes [inAllowlist] true;
    [removeAllow] succeeds exactly when the UID is listed and then
    [inAllowlist] is false; and removing a UID just added to a list with
    room that did not hold it gives the list back. *)
Theorem X2_allowlist_membership (d : Device) (hex : string) :
  allow_ok (allowUids (cfg d)) ->
  (fst (addAllow hex d) = true -> inAllowlist hex (snd (addAllow hex d)) = true)
  /\ fst (removeAllow hex d) = inAllowlist hex d
  /\ inAllowlist hex (snd (removeAllow hex d)) = false
  /\ (inAllowlist hex d = false -> allowCount d < MAX_UIDS ->
      fst (addAllow hex d) = true
      /\ allowUids (cfg (snd (removeAllow hex (snd (addAllow hex d)))))
         = allowUids (cfg d)).
Proof.
  intros (Hlen & Hnd & Hnorm). split; [|split; [|split]].
  - unfold addAllow. destruct (MAX_UIDS <=? allowCount d); [discriminate|].
    destruct (inAllowlist (normUid hex) d) eqn:Hin; intros _; cbn [snd].
    + apply inAllowlist_In. apply inAllowlist_In in Hin.
      rewrite normUid_idem in Hin. exact Hin.
    + apply inAllowlist_In. cbn. apply in_or_app. right. left. reflexivity.
  - unfold removeAllow. destruct (inAllowlist hex d) eqn:Hin.
    + apply inAllowlist_In in Hin.
      destruct (remove_first_In _ _ Hin) as (l' & ->). reflexivity.
    + rewrite remove_first_not_In; [reflexivity|].
      intros H. apply inAllowlist_In in H. congruence.
  - unfold removeAllow.
    destruct (remove_first (normUid hex) (allowUids (cfg d))) as [l|] eqn:E; cbn [snd].
    + destruct (remove_first_NoDup _ _ _ Hnd E) as [_ Hnot].
      destruct (inAllowlist hex _) eqn:Hin; [|reflexivity].
      apply inAllowlist_In in Hin. cbn in Hin. contradiction.
    + destruct (inAllowlist hex d) eqn:Hin; [|reflexivity].
      apply inAllowlist_In in Hin.
      destruct (remove_first_In _ _ Hin) as (l' & E'). congruence.
  - intros Hout Hroom. unfold addAllow.
    destruct (Z.leb_spec MAX_UIDS (allowCount d)); [lia|].
    assert (Hout' : inAllowlist (normUid hex) d = false).
    { destruct (inAllowlist (normUid hex) d) eqn:Hin; [|reflexivity].
      apply inAllowlist_In in Hin. rewrite normUid_idem in Hin.
      apply inAllowlist_In in Hin. congruence. }
    rewrite Hout'. split; [reflexivity|]. cbn [snd].
    unfold removeAllow. cbn.
    rewrite remove_first_last; [reflexivity|].
    intros Hin. apply inAllowlist_In in Hin. congruence.
Qed.

Lemma X2_allowlist_membership_witness :
  inAllowlist "04AABBCC" (snd (addAllow "04 aa bb cc" (Sample.running 5 true))) = true.
Proof.
  destruct (X2_allowlist_membership (Sample.running 5 true) "04 aa bb cc") as (H & _).
  - split; [cbn; lia|]. split; constructor.
  - apply H. vm_compute. reflexivity.
Defined.

(** ** UID formatting and tag recognition *)

Section Recognition.

Variable P : Platform.

Lemma nibble_range x : 0 <= Z.land x 15 < 16.
Proof.
  change 15 with (Z.ones 4). rewrite Z.land_ones by lia.
  change (2 ^ 4) with 16. apply Z.mod_pos_bound. lia.
Qed.

Lemma hexdigit_cases n :
  0 <= n < 16 ->
  In n [0; 1; 2; 3; 4; 5; 6; 7; 8; 9; 10; 11; 12; 13; 14; 15].
Proof. intros H. cbn [In]. lia. Qed.

(** Case analysis on a nibble. *)
Ltac nibble_cases n H :=
  let C := fresh "C" in
  pose proof (hexdigit_cases n H) as C; cbn [In] in C;
  repeat (destruct C as [C | C]; [subst n|]); [.. | contradiction].

Lemma hexdigit_norm n :
  0 <= n < 16 ->
  upper (hexdigit n) = hexdigit n /\ Ascii.eqb (hexdigit n) " " = false.
Proof.
  intros H. nibble_cases n H; split; reflexivity.
Qed.

Lemma hexdigit_inj n m :
  0 <= n < 16 -> 0 <= m < 16 -> hexdigit n = hexdigit m -> n = m.
Proof.
  intros Hn Hm.
  nibble_cases n Hn; nibble_cases m Hm;
    intros E; try reflexivity; vm_compute in E; discriminate E.
Qed.

Lemma uidHexNoSep_norm uid : normUid (uidHexNoSep uid) = uidHexNoSep uid.
Proof.
  unfold normUid. induction uid as [|b r IH]; [reflexivity|].
  cbn [uidHexNoSep replace].
  destruct (hexdigit_norm _ (nibble_range (Z.shiftr b 4))) as [U1 S1].
  destruct (hexdigit_norm _ (nibble_range b)) as [U2 S2].
  rewrite S1, S2. cbn [toUpperCase map_chars].
  fold (toUpperCase (replace " " "" (uidHexNoSep r))).
  rewrite U1, U2, IH. reflexivity.
Qed.

Lemma uidHexNoSep_length uid :
  String.length (uidHexNoSep uid) = (2 * List.length uid)%nat.
Proof. induction uid as [|b r IH]; cbn; [reflexivity | rewrite IH; lia]. Qed.

Lemma byte_of_nibbles b :
  0 <= b < 256 -> b = 16 * Z.land (Z.shiftr b 4) 15 + Z.land b 15.
Proof.
  intros H. change 15 with (Z.ones 4). rewrite !Z.land_ones by lia.
  rewrite Z.shiftr_div_pow2 by lia. change (2 ^ 4) with 16.
  rewrite (Z.mod_small (b / 16) 16).
  - apply Z.div_mod. lia.
  - split; [apply Z.div_pos; lia | apply Z.div_lt_upper_bound; lia].
Qed.

Lemma uidHexNoSep_inj u1 u2 :
  bytes_ok u1 -> bytes_ok u2 -> uidHexNoSep u1 = uidHexNoSep u2 -> u1 = u2.
Proof.
  unfold bytes_ok. revert u2. induction u1 as [|a r1 IH]; intros [|b r2] H1 H2 E;
    cbn [uidHexNoSep] in E; try discriminate E; [reflexivity|].
  inversion H1 as [|? ? Ha Hr1]; subst. inversion H2 as [|? ? Hb Hr2]; subst.
  injection E as Ehi Elo Er.
  apply hexdigit_inj in Ehi; try apply nibble_range.
  apply hexdigit_inj in Elo; try apply nibble_range.
  f_equal.
  - pose proof (byte_of_nibbles a Ha). pose proof (byte_of_nibbles b Hb). lia.
  - apply IH; assumption.
Qed.

End Recognition.

(** X3.  [uidHexNoSep] writes two hex digits per byte, already in the
    form the allowlist stores (upper case, no spaces), and two different
    UIDs never give the same text. *)
Theorem X3_uid_hex (u1 u2 : list Z) :
  bytes_ok u1 -> bytes_ok u2 ->
  String.length (uidHexNoSep u1) = (2 * List.length u1)%nat
  /\ normUid (uidHexNoSep u1) = uidHexNoSep u1
  /\ (uidHexNoSep u1 = uidHexNoSep u2 <-> u1 = u2).
Proof.
  intros H1 H2. split; [apply uidHexNoSep_length|]. split; [apply uidHexNoSep_norm|].
  split; [apply uidHexNoSep_inj; assumption | intros ->; reflexivity].
Qed.

Lemma X3_uid_hex_witness :
  String.length (uidHexNoSep [4; 170; 187; 204]) = 8%nat
  /\ (uidHexNoSep [4; 170; 187; 204] = uidHexNoSep [4; 170; 187; 205]
      <-> [4; 170; 187; 204] = [4; 170; 187; 205]).
Proof.
  destruct (X3_uid_hex [4; 170; 187; 204] [4; 170; 187; 205]) as (Hl & _ & Hi).
  - repeat constructor; lia.
  - repeat constructor; lia.
  - split; [exact Hl | exact Hi].
Defined.

Section Scan.

Variable P : Platform.

Lemma onTagRead_plain env uid nr d :
  is_admin nr = false ->
  onTagRead P env uid nr d
  = let ms := millis env in
    let n := Z.of_nat (List.length uid) in
    let d := upd_ui (set_lastScanMs (ms AtScan)) d in
    let d := displayWake d in
    let d := upd_ui (set_lastUidLen n) d in
    let d := upd_ui (set_lastUidHex (if 0 <? n then uidHexNoSep uid else "")) d in
    if 4 <=? n then
      let hex := uidHexNoSep uid in
      let r := tag_known uid d in
      let d := upd_ui (set_recognizedLast r) d in
      let d := upd_ui (set_lastWasRecognized r) d in
      if r then
        let d := upd_ui (set_lastGrantedHex hex) d in
        let d := upd_ui (set_mode MODE_WELCOME) d in
        let d := upd_ui (set_modeUntilMs (u32 (ms AtModeUntil + SET_WELCOME_MS (cfg d)))) d in
        upd_ui (set_codeShowAtMs
                  (u32 (ms AtCodeShow + SET_WELCOME_MS (cfg d) + SET_CODE_DELAY_MS (cfg d)))) d
      else
        let d := upd_ui (set_mode MODE_POOP) d in
        upd_ui (set_modeUntilMs (u32 (ms AtModeUntil + SET_REJECT_MS (cfg d)))) d
    else
      let d := upd_ui (set_recognizedLast false) d in
      let d := upd_ui (set_mode MODE_POOP) d in
      upd_ui (set_modeUntilMs (u32 (ms AtModeUntil + SET_REJECT_MS (cfg d)))) d.
Proof.
  unfold is_admin. intros H. unfold onTagRead. cbv zeta. rewrite H. reflexivity.
Qed.



End Scan.



Section Enrol.

Variable P : Platform.




End Enrol.



(** ** The mode timers *)

Section Timers.

Variable P : Platform.

Lemma loop_timers_asleep env d :
  mode (ui d) = MODE_SLEEP -> loop_timers env d = d.
Proof.
  intros H. unfold loop_timers. cbv zeta.
  repeat (rewrite H; cbn [Mode_eqb negb andb orb]). reflexivity.
Qed.

Lemma onTagRead_admin_ui env uid nr d :
  is_admin nr = true ->
  mode (ui (onTagRead P env uid nr d)) = mode (ui d)
  /\ displayAwake (ui (onTagRead P env uid nr d)) = true.
Proof.
  unfold is_admin. intros Hadm. unfold onTagRead. cbv zeta. rewrite Hadm.
  match goal with
  | |- context [applyConfigText P ?t ?x] =>
      pose proof (applyConfigText_ui P t x) as H;
      destruct (applyConfigText P t x) as [ar d1]
  end.
  cbn [snd] in H. unfold showAdminFeedback, displayWake in *. cbv zeta.
  destruct (displayAwake (ui d1)) eqn:E1; cbn; rewrite ?H, ?E1;
    destruct (displayAwake (ui d)); cbn; split; try reflexivity.
  all: rewrite H in E1; cbn in E1; try discriminate E1.
  all: destruct (displayAwake (ui d)); cbn in *; congruence.
Qed.

End Timers.

(** X6.  The timers of [loop] and idle blanking.  A blanked device
    ([MODE_SLEEP]) is left exactly as it is; once the last scan is more
    than [SET_ACTIVE_MS] old the mode becomes [MODE_SLEEP] whatever it
    was, and the display is switched off if the device was not already
    blanked; the timers never enter [MODE_WELCOME] or [MODE_POOP], and
    never change the settings or the scan time. *)
Theorem X6_timers_and_blanking (env : LoopEnv) (d : Device) :
  let d' := loop_timers env d in
  (mode (ui d) = MODE_SLEEP -> d' = d)
  /\ (SET_ACTIVE_MS (cfg d) < u32 (millis env AtBlank - lastScanMs (ui d)) ->
      mode (ui d') = MODE_SLEEP
      /\ (mode (ui d) <> MODE_SLEEP -> displayAwake (ui d') = false))
  /\ (mode (ui d') = MODE_WELCOME -> mode (ui d) = MODE_WELCOME)
  /\ (mode (ui d') = MODE_POOP -> mode (ui d) = MODE_POOP)
  /\ cfg d' = cfg d /\ lastScanMs (ui d') = lastScanMs (ui d).
Proof.
  intros d'. split; [apply loop_timers_asleep|]. unfold d'. clear d'.
  destruct d as [c u h tv nf pw ls]. destruct u as [m da lsm mu cs rl luh lul lwr lgh lpt].
  unfold loop_timers, displaySleep. cbn -[u32 Z.sub Z.add].
  split; [|split; [|split]].
  - intros Hidle. apply Z.ltb_lt in Hidle.
    destruct m, rl; cbn -[u32 Z.sub Z.add];
      repeat match goal with
             | |- context [if ?x <=? ?y then _ else _] =>
                 destruct (x <=? y); cbn -[u32 Z.sub Z.add]
             end;
      rewrite ?Hidle; cbn -[u32 Z.sub Z.add];
      destruct da; cbn -[u32 Z.sub Z.add];
      (split; [reflexivity | intros Hm; try reflexivity; try (exfalso; apply Hm; reflexivity)]).
  - destruct m, rl; cbn -[u32 Z.sub Z.add];
      repeat match goal with
             | |- context [if ?x then _ else _] =>
                 destruct x; cbn -[u32 Z.sub Z.add]
             end;
      intros Hm; try reflexivity; discriminate Hm.
  - destruct m, rl; cbn -[u32 Z.sub Z.add];
      repeat match goal with
             | |- context [if ?x then _ else _] =>
                 destruct x; cbn -[u32 Z.sub Z.add]
             end;
      intros Hm; try reflexivity; discriminate Hm.
  - destruct m, rl; cbn -[u32 Z.sub Z.add];
      repeat match goal with
             | |- context [if ?x then _ else _] =>
                 destruct x; cbn -[u32 Z.sub Z.add]
             end;
      split; reflexivity.
Qed.

Lemma X6_timers_and_blanking_witness :
  mode (ui (loop_timers (Sample.loop_env None Sample.net_down)
              (upd_cfg (set_SET_ACTIVE_MS 500)
                 (upd_ui (set_mode MODE_CODE) (Sample.running 5 true)))))
  = MODE_SLEEP.
Proof.
  destruct (X6_timers_and_blanking (Sample.loop_env None Sample.net_down)
              (upd_cfg (set_SET_ACTIVE_MS 500)
                 (upd_ui (set_mode MODE_CODE) (Sample.running 5 true))))
    as (_ & H & _).
  apply H. vm_compute. reflexivity.
Defined.

(** X7.  While the device is not due for blanking: a welcome for a
    recognised tag lasts until the code-reveal instant, whatever
    [modeUntilMs] says; at that instant the mode becomes [MODE_CODE] and
    is held for [SET_WELCOME_MS] but at least 1500 ms; a code or reject
    screen returns to [MODE_SIGN] once its expiry instant has passed and
    not before. *)
Theorem X7_welcome_code_sign (env : LoopEnv) (d : Device) :
  u32 (millis env AtBlank - lastScanMs (ui d)) <= SET_ACTIVE_MS (cfg d) ->
  let d' := loop_timers env d in
  let hold := Z.max (SET_WELCOME_MS (cfg d)) 1500 in
  (mode (ui d) = MODE_WELCOME -> recognizedLast (ui d) = true ->
   millis env AtCodeCheck < codeShowAtMs (ui d) -> d' = d)
  /\ (mode (ui d) = MODE_WELCOME -> recognizedLast (ui d) = true ->
      codeShowAtMs (ui d) <= millis env AtCodeCheck ->
      millis env AtExpire <= u32 (millis env AtCodeHold + hold) ->
      mode (ui d') = MODE_CODE
      /\ modeUntilMs (ui d') = u32 (millis env AtCodeHold + hold))
  /\ (mode (ui d) = MODE_CODE \/ mode (ui d) = MODE_POOP ->
      (modeUntilMs (ui d) < millis env AtExpire -> mode (ui d') = MODE_SIGN)
      /\ (millis env AtExpire <= modeUntilMs (ui d) -> d' = d)).
Proof.
  intros Hidle d' hold. unfold d', hold. clear d' hold.
  destruct d as [c u h tv nf pw ls]. destruct u as [m da lsm mu cs rl luh lul lwr lgh lpt].
  unfold loop_timers, displaySleep. cbn -[u32 Z.sub Z.add Z.max] in *.
  assert (Hb : (SET_ACTIVE_MS c <? u32 (millis env AtBlank - lsm)) = false)
    by (apply Z.ltb_ge; exact Hidle).
  split; [|split].
  - intros -> -> Hcs. cbn -[u32 Z.sub Z.add Z.max].
    destruct (Z.leb_spec cs (millis env AtCodeCheck)); [lia|].
    cbn -[u32 Z.sub Z.add Z.max]. rewrite Hb. reflexivity.
  - intros -> -> Hcs Hex. cbn -[u32 Z.sub Z.add Z.max].
    destruct (Z.leb_spec cs (millis env AtCodeCheck)); [|lia].
    cbn -[u32 Z.sub Z.add Z.max]. rewrite Hb. cbn -[u32 Z.sub Z.add Z.max].
    assert (Hh : (if 1500 <? SET_WELCOME_MS c then SET_WELCOME_MS c else 1500)
                 = Z.max (SET_WELCOME_MS c) 1500).
    { destruct (Z.ltb_spec 1500 (SET_WELCOME_MS c)); lia. }
    rewrite Hh.
    destruct (Z.ltb_spec (u32 (millis env AtCodeHold + Z.max (SET_WELCOME_MS c) 1500))
                (millis env AtExpire)); [lia|].
    split; reflexivity.
  - intros [-> | ->]; cbn -[u32 Z.sub Z.add Z.max]; rewrite Hb;
      cbn -[u32 Z.sub Z.add Z.max];
      (split; intros Hx;
       destruct (Z.ltb_spec mu (millis env AtExpire)); try lia; reflexivity).
Qed.

Lemma X7_welcome_code_sign_witness :
  let d := upd_ui (set_codeShowAtMs 900)
             (upd_ui (set_recognizedLast true)
                (upd_ui (set_mode MODE_WELCOME) (Sample.running 5 true))) in
  mode (ui (loop_timers (Sample.loop_env None Sample.net_down) d)) = MODE_CODE
  /\ modeUntilMs (ui (loop_timers (Sample.loop_env None Sample.net_down) d)) = 4000.
Proof.
  cbv zeta.
  destruct (X7_welcome_code_sign (Sample.loop_env None Sample.net_down)
              (upd_ui (set_codeShowAtMs 900)
                 (upd_ui (set_recognizedLast true)
                    (upd_ui (set_mode MODE_WELCOME) (Sample.running 5 true)))))
    as (_ & H & _).
  - vm_compute. discriminate.
  - apply H; [reflexivity | reflexivity | vm_compute; discriminate | vm_compute; discriminate].
Defined.

(** X8.  An admin tag (a text record holding '=' before any NUL) scanned
    while the device is blanked wakes the
    display for its feedback and leaves the mode at [MODE_SLEEP]; the
    timers then never switch the display off again, so it stays on until
    another scan or a deep sleep. *)
Theorem X8_admin_tag_while_blanked
    (P : Platform) (env env' : LoopEnv) (uid : list Z) (nr : NdefResult) (d : Device) :
  mode (ui d) = MODE_SLEEP -> is_admin nr = true ->
  let d1 := loop_timers env (onTagRead P env uid nr d) in
  mode (ui d1) = MODE_SLEEP
  /\ displayAwake (ui d1) = true
  /\ loop_timers env' d1 = d1.
Proof.
  intros Hm Hadm d1.
  destruct (onTagRead_admin_ui P env uid nr d Hadm) as [Hmode Hawake].
  rewrite Hm in Hmode.
  assert (E : d1 = onTagRead P env uid nr d) by (apply loop_timers_asleep; exact Hmode).
  rewrite E. split; [exact Hmode|]. split; [exact Hawake|].
  apply loop_timers_asleep. exact Hmode.
Qed.

Lemma X8_admin_tag_while_blanked_witness :
  displayAwake
    (ui (loop_timers (Sample.loop_env None Sample.net_down)
           (onTagRead Esp32Utc.platform (Sample.loop_env None Sample.net_down)
              [4; 170; 187; 204] (mkNdefResult true true false "qend=8")
              (upd_ui (set_mode MODE_SLEEP) (Sample.running 5 true)))))
  = true.
Proof.
  destruct (X8_admin_tag_while_blanked Esp32Utc.platform
              (Sample.loop_env None Sample.net_down) (Sample.loop_env None Sample.net_down)
              [4; 170; 187; 204] (mkNdefResult true true false "qend=8")
              (upd_ui (set_mode MODE_SLEEP) (Sample.running 5 true))
              eq_refl eq_refl) as (_ & H & _).
  exact H.
Defined.

(** ** Suspending *)

Section Suspend.

Variable P : Platform.

Lemma ntp_wait_wifi polls verbose d :
  wifiUp (hw (ntp_wait P polls verbose d)) = wifiUp (hw d).
Proof.
  revert d. induction polls as [|p rest IH]; intros d; cbn [ntp_wait]; [reflexivity|].
  destruct (localNow P _).
  - destruct p, verbose; reflexivity.
  - rewrite IH. destruct p; reflexivity.
Qed.

(** A sync that is not skipped ends with the radio off. *)
Lemma ensureTimeSync_radio_off wifiMs ntpMs force verbose net d :
  force || QUIET_EN (cfg d) = true ->
  wifiUp (hw (snd (ensureTimeSync P wifiMs ntpMs force verbose net d))) = false.
Proof.
  intros H. unfold ensureTimeSync.
  replace (negb force && negb (QUIET_EN (cfg d))) with (negb (force || QUIET_EN (cfg d)))
    by apply negb_orb.
  rewrite H. cbn [negb].
  destruct (wifi_connects net); cbn [negb]; [|destruct verbose; reflexivity].
  destruct (dns_resolves net); cbn [negb]; [|destruct verbose; reflexivity].
  cbv zeta. cbn [snd].
  destruct (negb _ && verbose); reflexivity.
Qed.

Lemma night_suspend net d :
  let d' := enterDeepSleep_NightTimer P net d in
  wifiUp (hw d') = false
  /\ wakeExt0 (hw d') = false
  /\ (exists us, wakeTimer (hw d') = Some us /\ ONE_MIN <= us < 2 ^ 64)
  /\ (exists t, trace (hw d') = (t ++ [DeepSleepStart])%list).
Proof.
  intros d'.
  assert (S : wifiUp (hw (night_shutdown P net d)) = false
              /\ wakeExt0 (hw (night_shutdown P net d)) = false).
  { unfold night_shutdown.
    match goal with
    | |- context [negb (timeValid ?x)] =>
        assert (E : wifiUp (hw x) = false /\ wakeExt0 (hw x) = false); [|set (y := x) in *]
    end.
    { unfold rtcHoldLevel, displaySleep.
      destruct (negb _), (displayAwake (ui d)); split; reflexivity. }
    destruct (negb (timeValid y)); [|exact E].
    split; [apply ensureTimeSync_radio_off; reflexivity|].
    pose proof (ensureTimeSync_frame P 4000 2500 true true net y) as F.
    unfold sync_frame in F. decompose [and] F. destruct E. congruence. }
  assert (R : ONE_MIN <= night_duration P (night_shutdown P net d) < 2 ^ 64).
  { pose proof (night_duration_range P (night_shutdown P net d)) as Hr.
    split; [|apply Hr]. unfold night_duration, ONE_MIN, THIRTY_MIN.
    destruct (timeValid _); [|lia].
    destruct (Z.ltb_spec (microsUntilHour P (QUIET_END_H (cfg (night_shutdown P net d)))
                            (night_shutdown P net d)) (60 * 1000000)); lia. }
  unfold d', enterDeepSleep_NightTimer. cbv zeta.
  destruct S as [Sw Se].
  destruct (timeValid (night_shutdown P net d)); cbn;
    (split; [exact Sw|]; split; [exact Se|]; split;
     [eexists; split; [reflexivity | exact R] | eexists; reflexivity]).
Qed.

Lemma day_suspend io d :
  let d' := enterDeepSleep_DayIRQ P io d in
  wifiUp (hw d') = false
  /\ (rtc_gpio_is_valid_gpio P PN532_IRQ = true -> wakeExt0 (hw d') = true)
  /\ (0 < SET_DAY_FALLBACK_MS (cfg d) ->
      wakeTimer (hw d') = Some (u64 (SET_DAY_FALLBACK_MS (cfg d) * 1000)))
  /\ (SET_DAY_FALLBACK_MS (cfg d) <= 0 -> wakeTimer (hw d') = wakeTimer (hw d))
  /\ (exists t, trace (hw d') = (t ++ [DeepSleepStart])%list).
Proof.
  unfold enterDeepSleep_DayIRQ, pn532StartAutoPoll106A, pn532SendCommandI2C, displaySleep.
  destruct (displayAwake (ui d)), io, (rtc_gpio_is_valid_gpio P PN532_IRQ);
    cbn -[Z.mul u64];
    destruct (Z.ltb_spec 0 (SET_DAY_FALLBACK_MS (cfg d)));
    cbn -[Z.mul u64];
    (split; [reflexivity|]; split; [intros E; try reflexivity; discriminate E|];
     split; [intros; try reflexivity; lia|];
     split; [intros; try reflexivity; lia|]; eexists; reflexivity).
Qed.

(** The only serial command that suspends is "sleepnow", through the
    night entry. *)
Lemma handleSerial_suspended env d d' :
  handleSerial P env d = Suspended d' ->
  d' = enterDeepSleep_NightTimer P (net env) d.
Proof.
  unfold handleSerial.
  destruct (serial_line env) as [raw|]; [|discriminate].
  cbv zeta.
  repeat match goal with
         | |- match ?e with _ => _ end = Suspended _ -> _ => destruct e
         end;
    try discriminate.
  intros E. injection E as <-. reflexivity.
Qed.

End Suspend.

(** X9.  Every way into deep sleep leaves the radio off.  The night entry
    disarms the interrupt wake and arms the timer for at least one
    minute; the daytime entry arms the interrupt wake on an RTC-capable
    IRQ pad and arms a timer only for a positive [SET_DAY_FALLBACK_MS];
    and an iteration of [loop] that suspends does so through one of the
    two, with the radio off. *)
Theorem X9_suspend_radio_and_wakes
    (P : Platform) (nt : NetEnv) (io : I2cOutcome) (env : LoopEnv) (d : Device) :
  let night := enterDeepSleep_NightTimer P nt d in
  let day := enterDeepSleep_DayIRQ P io d in
  (wifiUp (hw night) = false /\ wakeExt0 (hw night) = false
   /\ exists us, wakeTimer (hw night) = Some us /\ ONE_MIN <= us < 2 ^ 64)
  /\ (wifiUp (hw day) = false
      /\ (rtc_gpio_is_valid_gpio P PN532_IRQ = true -> wakeExt0 (hw day) = true)
      /\ (0 < SET_DAY_FALLBACK_MS (cfg d) ->
          wakeTimer (hw day) = Some (u64 (SET_DAY_FALLBACK_MS (cfg d) * 1000)))
      /\ (SET_DAY_FALLBACK_MS (cfg d) <= 0 -> wakeTimer (hw day) = wakeTimer (hw d)))
  /\ (forall d', loop P env d = Suspended d' ->
      wifiUp (hw d') = false
      /\ exists t, trace (hw d') = (t ++ [DeepSleepStart])%list).
Proof.
  intros night day.
  destruct (night_suspend P nt d) as (N1 & N2 & N3 & _).
  destruct (day_suspend P io d) as (D1 & D2 & D3 & D4 & _).
  split; [repeat split; assumption|]. split; [repeat split; assumption|].
  intros d'. unfold loop.
  destruct (handleSerial P env d) as [d1|d1] eqn:Hs.
  - destruct (quietNow P d1).
    + intros E. injection E as <-.
      destruct (night_suspend P (net env) d1) as (A & _ & _ & B). split; assumption.
    + cbv zeta. destruct (negb _ && _); [|discriminate].
      intros E. injection E as <-.
      match goal with |- context [enterDeepSleep_DayIRQ P ?i ?x] =>
        destruct (day_suspend P i x) as (A & _ & _ & _ & B) end.
      split; assumption.
  - intros E. injection E as <-.
    rewrite (handleSerial_suspended P env d d1 Hs).
    destruct (night_suspend P (net env) d) as (A & _ & _ & B). split; assumption.
Qed.

Lemma X9_suspend_radio_and_wakes_witness :
  wifiUp
    (hw (dev (loop Esp32Utc.platform (Sample.loop_env (Some "sleepnow") Sample.net_no_ntp)
                (Sample.running 5 false))))
  = false.
Proof.
  destruct (X9_suspend_radio_and_wakes Esp32Utc.platform Sample.net_down I2cAck
              (Sample.loop_env (Some "sleepnow") Sample.net_no_ntp)
              (Sample.running 5 false)) as (_ & _ & H).
  destruct (H (enterDeepSleep_NightTimer Esp32Utc.platform Sample.net_no_ntp
                 (Sample.running 5 false))) as [Hw _].
  - vm_compute. reflexivity.
  - replace (loop Esp32Utc.platform (Sample.loop_env (Some "sleepnow") Sample.net_no_ntp)
               (Sample.running 5 false))
      with (Suspended (enterDeepSleep_NightTimer Esp32Utc.platform Sample.net_no_ntp
                         (Sample.running 5 false)))
      by (vm_compute; reflexivity).
    exact Hw.
Defined.

(** ** What a time sync establishes *)

Section SyncResult.

Variable P : Platform.

Lemma ntp_wait_success polls verbose d :
  timeValid d = false ->
  timeValid (ntp_wait P polls verbose d) = true ->
  (exists tmp, localNow P (ntp_wait P polls verbose d) = Some tmp)
  /\ gLastSyncEpoch (ntp_wait P polls verbose d)
     = u32 (sysClock (hw (ntp_wait P polls verbose d))).
Proof.
  revert d. induction polls as [|p rest IH]; intros d Hd; cbn [ntp_wait].
  - congruence.
  - destruct (localNow P _) as [tmp|] eqn:E.
    + intros _. destruct p, verbose; (split; [exists tmp; exact E | reflexivity]).
    + intros H. apply IH; [destruct p; exact Hd | exact H].
Qed.

Lemma ntp_wait_envTZ polls verbose d :
  envTZ (hw (ntp_wait P polls verbose d)) = envTZ (hw d).
Proof.
  revert d. induction polls as [|p rest IH]; intros d; cbn [ntp_wait]; [reflexivity|].
  destruct (localNow P _).
  - destruct p, verbose; reflexivity.
  - rewrite IH. destruct p; reflexivity.
Qed.

Lemma ensureTimeSync_success wifiMs ntpMs force verbose net d :
  fst (ensureTimeSync P wifiMs ntpMs force verbose net d) = true ->
  let d' := snd (ensureTimeSync P wifiMs ntpMs force verbose net d) in
  timeValid d' = true
  /\ (exists tmp, localNow P d' = Some tmp)
  /\ gLastSyncEpoch d' = u32 (sysClock (hw d'))
  /\ envTZ (hw d') = SET_TZ (cfg d).
Proof.
  unfold ensureTimeSync.
  destruct (negb force && negb (QUIET_EN (cfg d))); [destruct verbose; discriminate|].
  destruct (wifi_connects net); cbn [negb]; [|destruct verbose; discriminate].
  destruct (dns_resolves net); cbn [negb]; [|destruct verbose; discriminate].
  cbv zeta. cbn [fst snd].
  match goal with |- context [ntp_wait P ?l ?v ?x] =>
    pose proof (ntp_wait_success l v x eq_refl) as W;
    pose proof (ntp_wait_envTZ l v x) as Htz;
    set (w := ntp_wait P l v x) in *
  end.
  assert (Htz' : envTZ (hw w) = SET_TZ (cfg d)).
  { rewrite Htz. destruct verbose; reflexivity. }
  intros Hr.
  assert (Hw : timeValid w = true).
  { destruct (negb (timeValid (WiFi_off (WiFi_disconnect w))) && verbose); exact Hr. }
  destruct (W Hw) as [[tmp Ht] Hl].
  destruct (negb (timeValid (WiFi_off (WiFi_disconnect w))) && verbose);
    (split; [exact Hw|]; split; [exists tmp; exact Ht|]; split; [exact Hl | exact Htz']).
Qed.

(** With a clock that already reads as a plausible local time, the first
    poll of the wait succeeds. *)
Lemma ensureTimeSync_plausible_clock wifiMs ntpMs force verbose net d tmp :
  reaches_ntp_wait force net d = true -> 0 < ntpMs -> ntp_first net = None ->
  getLocalTime P (SET_TZ (cfg d)) (sysClock (hw d)) = Some tmp ->
  fst (ensureTimeSync P wifiMs ntpMs force verbose net d) = true
  /\ sysClock (hw (snd (ensureTimeSync P wifiMs ntpMs force verbose net d)))
     = sysClock (hw d)
  /\ gLastSyncEpoch (snd (ensureTimeSync P wifiMs ntpMs force verbose net d))
     = u32 (sysClock (hw d)).
Proof.
  unfold reaches_ntp_wait. intros Hr Hms Hfirst Hnow.
  apply andb_prop in Hr. destruct Hr as [Hr Hdns].
  apply andb_prop in Hr. destruct Hr as [Hf Hwifi].
  unfold ensureTimeSync, ntp_polls.
  replace (negb force && negb (QUIET_EN (cfg d))) with (negb (force || QUIET_EN (cfg d)))
    by apply negb_orb.
  rewrite Hf, Hwifi, Hdns, Hfirst. cbn [negb].
  destruct (Z.ltb_spec 0 ntpMs); [|lia].
  cbv zeta. cbn [ntp_wait].
  match goal with |- context [localNow P ?x] =>
    assert (E : localNow P x = Some tmp) by (destruct verbose; exact Hnow) end.
  rewrite E. destruct verbose; cbn; repeat split.
Qed.

End SyncResult.

(** X10.  A time sync never writes the settings, the user-interface
    state, the planned wake epoch, the PN532 reset line, the armed wake
    sources or the settings store; unless it is skipped it ends with the
    radio off, whether it succeeds or not; and when it returns true the
    clock is valid, the local time is readable under the configured time
    zone, and [gLastSyncEpoch] is the clock reading kept to 32 bits. *)
Theorem X10_sync_postconditions
    (P : Platform) (wifiMs ntpMs : Z) (force verbose : bool) (nt : NetEnv) (d : Device) :
  let r := ensureTimeSync P wifiMs ntpMs force verbose nt d in
  sync_frame d (snd r)
  /\ (force || QUIET_EN (cfg d) = true -> wifiUp (hw (snd r)) = false)
  /\ (fst r = true ->
      timeValid (snd r) = true
      /\ (exists tmp, localNow P (snd r) = Some tmp)
      /\ gLastSyncEpoch (snd r) = u32 (sysClock (hw (snd r)))
      /\ envTZ (hw (snd r)) = SET_TZ (cfg d)).
Proof.
  intros r. split; [apply ensureTimeSync_frame|].
  split; [apply ensureTimeSync_radio_off | apply ensureTimeSync_success].
Qed.

Lemma X10_sync_postconditions_witness :
  gLastSyncEpoch
    (snd (ensureTimeSync Esp32Utc.platform 10000 10000 true true
            (Sample.net_ntp Sample.late_evening) (Sample.running 5 false)))
  = Sample.late_evening.
Proof.
  destruct (X10_sync_postconditions Esp32Utc.platform 10000 10000 true true
              (Sample.net_ntp Sample.late_evening) (Sample.running 5 false))
    as (_ & _ & H).
  destruct H as (_ & _ & H & _); [vm_compute; reflexivity|].
  rewrite H. vm_compute. reflexivity.
Defined.

(** X11.  A sync that reaches the NTP wait while the clock already reads
    as a plausible local time returns true at its first poll although no
    NTP answer has arrived: the clock is left as it was and its reading
    is recorded as the last sync epoch. *)
Theorem X11_sync_without_ntp_answer
    (P : Platform) (wifiMs ntpMs : Z) (force verbose : bool) (nt : NetEnv)
    (d : Device) (tmp : tm) :
  reaches_ntp_wait force nt d = true -> 0 < ntpMs -> ntp_first nt = None ->
  getLocalTime P (SET_TZ (cfg d)) (sysClock (hw d)) = Some tmp ->
  let r := ensureTimeSync P wifiMs ntpMs force verbose nt d in
  fst r = true
  /\ timeValid (snd r) = true
  /\ sysClock (hw (snd r)) = sysClock (hw d)
  /\ gLastSyncEpoch (snd r) = u32 (sysClock (hw d)).
Proof.
  intros Hr Hms Hf Hnow r.
  destruct (ensureTimeSync_plausible_clock P wifiMs ntpMs force verbose nt d tmp
              Hr Hms Hf Hnow) as (A & B & C).
  split; [exact A|]. split; [|split; assumption].
  apply (ensureTimeSync_success P wifiMs ntpMs force verbose nt d A).
Qed.

Lemma X11_sync_without_ntp_answer_witness :
  fst (ensureTimeSync Esp32Utc.platform 10000 10000 false true Sample.net_no_ntp
         (Sample.running Sample.late_evening false))
  = true.
Proof.
  destruct (X11_sync_without_ntp_answer Esp32Utc.platform 10000 10000 false true
              Sample.net_no_ntp (Sample.running Sample.late_evening false)
              (mk_tm 0 10 23 11 10 125 2 314 0)) as (H & _);
    [reflexivity | reflexivity | reflexivity | vm_compute; reflexivity |].
  exact H.
Defined.

(** ** The settings stay within their floors *)


Section SettingsInvariant.

Variable P : Platform.

Lemma toInt_range s : LONG_MIN <= toInt s <= LONG_MAX.
Proof.
  unfold toInt, clamp_to, LONG_MIN, LONG_MAX.
  destruct (scan_int s) as [[v k]|]; lia.
Qed.

Lemma u32_long x : 0 <= x <= LONG_MAX -> u32 x = x.
Proof.
  intros H. apply wrap_u_small. unfold LONG_MAX in H.
  change (2 ^ 32) with 4294967296. change (2 ^ 31) with 2147483648 in H. lia.
Qed.



Lemma same_store_refl d : same_store d d.
Proof. split; reflexivity. Qed.

Lemma same_store_trans a b c : same_store a b -> same_store b c -> same_store a c.
Proof. intros [A1 A2] [B1 B2]. split; congruence. Qed.





Lemma setClockFromEpoch_same_store e d : same_store d (snd (setClockFromEpoch e d)).
Proof. unfold setClockFromEpoch. destruct (e <=? 0); split; reflexivity. Qed.

Lemma setClockFromString_same_store s d : same_store d (snd (setClockFromString P s d)).
Proof.
  unfold setClockFromString.
  destruct (match sscanf6 P _ s with Some r => Some r | None => _ end)
    as [[[[[[Y M] D] h] m] sec]|]; [|apply same_store_refl].
  destruct (_ <=? 0); [split; reflexivity|].
  eapply same_store_trans; [|apply setClockFromEpoch_same_store]. split; reflexivity.
Qed.








End SettingsInvariant.

Section DeviceInvariant.

Variable P : Platform.













Lemma loop_timers_same_store env d : same_store d (loop_timers env d).
Proof.
  unfold loop_timers, displaySleep. cbv zeta.
  repeat match goal with
         | |- context [if ?c then _ else _] => destruct c; cbn [cfg hw upd_ui set_ui]
         end; split; reflexivity.
Qed.



(** *** Across a reboot *)











End DeviceInvariant.





(** ** Serial commands the help text lists without a handler *)

Section SerialUnknown.

Variable P : Platform.

(** Walks down the chain of tests of [handleSerial] on a line none of
    them accepts. *)
Ltac skip_tests :=
  repeat match goal with
         | |- (if ?c then _ else _) = _ => change c with false; cbv iota
         end.

Lemma handleSerial_sleep_ms env d raw rest :
  serial_line env = Some raw -> trim raw = "sleep_ms " ++ rest ->
  handleSerial P env d = Running (emit [Println "unknown; type 'help'"] d).
Proof.
  intros E T. unfold handleSerial. rewrite E. cbv zeta. rewrite T.
  skip_tests. reflexivity.
Qed.

Lemma handleSerial_day_fallback_ms env d raw rest :
  serial_line env = Some raw -> trim raw = "day_fallback_ms " ++ rest ->
  handleSerial P env d = Running (emit [Println "unknown; type 'help'"] d).
Proof.
  intros E T. unfold handleSerial. rewrite E. cbv zeta. rewrite T.
  skip_tests. reflexivity.
Qed.

End SerialUnknown.

(** X14.  The serial commands [sleep_ms <ms>] and [day_fallback_ms <ms>]
    appear in the help text, but no test of [handleSerial] accepts them:
    such a line is answered with the unknown-command message and changes
    nothing but the serial output.  The two settings are changed by the
    admin keys of the same names. *)
Theorem X14_serial_sleep_ms_unhandled
    (P : Platform) (env : LoopEnv) (d : Device) (raw rest : string) :
  serial_line env = Some raw ->
  trim raw = "sleep_ms " ++ rest \/ trim raw = "day_fallback_ms " ++ rest ->
  handleSerial P env d = Running (emit [Println "unknown; type 'help'"] d)
  /\ cfg (dev (handleSerial P env d)) = cfg d
  /\ String.index 0 "sleep_ms <ms> | day_fallback_ms <ms>" help_text <> None
  /\ (forall v ar,
        SET_SLEEP_MS (cfg (fst (applyKV P "sleep_ms" v d ar)))
        = Z.max 30000 (toInt (trim v)))
  /\ (forall v ar,
        SET_DAY_FALLBACK_MS (cfg (fst (applyKV P "day_fallback_ms" v d ar)))
        = Z.max 0 (toInt (trim v))).
Proof.
  intros E T.
  assert (H : handleSerial P env d = Running (emit [Println "unknown; type 'help'"] d)).
  { destruct T as [T|T];
      [apply (handleSerial_sleep_ms P env d raw rest E T)
      | apply (handleSerial_day_fallback_ms P env d raw rest E T)]. }
  split; [exact H|]. split; [rewrite H; reflexivity|].
  split; [vm_compute; discriminate|].
  pose proof toInt_range as R. unfold LONG_MIN, LONG_MAX in R.
  change (2 ^ 31) with 2147483648 in R.
  split; intros v ar; specialize (R (trim v)).
  - change (SET_SLEEP_MS (cfg (fst (applyKV P "sleep_ms" v d ar))))
      with (u32 (if toInt (trim v) <? 30000 then 30000 else toInt (trim v))).
    destruct (Z.ltb_spec (toInt (trim v)) 30000);
      (rewrite u32_long; [lia | unfold LONG_MAX; change (2 ^ 31) with 2147483648; lia]).
  - change (SET_DAY_FALLBACK_MS (cfg (fst (applyKV P "day_fallback_ms" v d ar))))
      with (u32 (if toInt (trim v) <? 0 then 0 else toInt (trim v))).
    destruct (Z.ltb_spec (toInt (trim v)) 0);
      (rewrite u32_long; [lia | unfold LONG_MAX; change (2 ^ 31) with 2147483648; lia]).
Qed.

Lemma X14_serial_sleep_ms_unhandled_witness :
  SET_SLEEP_MS
    (cfg (dev (handleSerial Esp32Utc.platform
                 (Sample.loop_env (Some "sleep_ms 60000") Sample.net_down)
                 (Sample.running 5 false))))
  = 180000.
Proof.
  destruct (X14_serial_sleep_ms_unhandled Esp32Utc.platform
              (Sample.loop_env (Some "sleep_ms 60000") Sample.net_down)
              (Sample.running 5 false) "sleep_ms 60000" "60000")
    as (_ & H & _).
  - reflexivity.
  - left. vm_compute. reflexivity.
  - rewrite H. reflexivity.
Defined.

(** ** Setting the clock by hand *)

Section ManualClock.

Variable P : Platform.

Lemma setClockFromEpoch_result e d :
  fst (setClockFromEpoch e d) = (0 <? e)
  /\ (e <= 0 -> snd (setClockFromEpoch e d) = d)
  /\ (0 < e ->
      sysClock (hw (snd (setClockFromEpoch e d))) = e
      /\ timeValid (snd (setClockFromEpoch e d)) = true
      /\ envTZ (hw (snd (setClockFromEpoch e d))) = SET_TZ (cfg d)).
Proof.
  unfold setClockFromEpoch.
  destruct (Z.leb_spec e 0) as [L|L]; destruct (Z.ltb_spec 0 e) as [L'|L'];
    try lia; cbn [fst snd].
  - split; [reflexivity|]. split; [reflexivity | lia].
  - split; [reflexivity|]. split; [lia|]. intros _. repeat split.
Qed.

Lemma setClockFromString_result s d :
  let q := setClockFromString P s d in
  (fst q = true ->
   0 < sysClock (hw (snd q)) /\ timeValid (snd q) = true
   /\ envTZ (hw (snd q)) = SET_TZ (cfg d))
  /\ (fst q = false ->
      sysClock (hw (snd q)) = sysClock (hw d) /\ timeValid (snd q) = timeValid d).
Proof.
  unfold setClockFromString.
  destruct (match sscanf6 P _ s with Some r => Some r | None => _ end)
    as [[[[[[Y M] D] h] m] sec]|]; cbv zeta.
  - match goal with |- context [mktime P ?tz ?t] => set (e := mktime P tz t) end.
    destruct (Z.leb_spec e 0) as [L|L]; cbn [fst snd].
    + split; [discriminate|]. intros _. split; reflexivity.
    + destruct (setClockFromEpoch_result e (setenv_TZ d)) as (A & _ & B).
      destruct (B L) as (B1 & B2 & B3).
      split; intros F.
      * rewrite B1. split; [exact L|]. split; [exact B2 | exact B3].
      * rewrite A in F. apply Z.ltb_ge in F. lia.
  - cbn [fst snd]. split; [discriminate|]. intros _. split; reflexivity.
Qed.

Lemma manual_clock_no_sync_record s e d :
  gLastSyncEpoch (snd (setClockFromEpoch e d)) = gLastSyncEpoch d
  /\ gLastSyncEpoch (snd (setClockFromString P s d)) = gLastSyncEpoch d
  /\ gPlannedWakeEpoch (snd (setClockFromEpoch e d)) = gPlannedWakeEpoch d
  /\ gPlannedWakeEpoch (snd (setClockFromString P s d)) = gPlannedWakeEpoch d.
Proof.
  assert (A : forall x y, gLastSyncEpoch (snd (setClockFromEpoch x y)) = gLastSyncEpoch y
                          /\ gPlannedWakeEpoch (snd (setClockFromEpoch x y))
                             = gPlannedWakeEpoch y).
  { intros x y. unfold setClockFromEpoch. destruct (x <=? 0); split; reflexivity. }
  destruct (A e d) as [A1 A2].
  split; [exact A1|]. split; [|split; [exact A2|]].
  - unfold setClockFromString.
    destruct (match sscanf6 P _ s with Some r => Some r | None => _ end)
      as [[[[[[Y M] D] h] m] sec]|]; [|reflexivity].
    cbv zeta. destruct (_ <=? 0); [reflexivity|].
    match goal with |- context [setClockFromEpoch ?x ?y] => apply (proj1 (A x y)) end.
  - unfold setClockFromString.
    destruct (match sscanf6 P _ s with Some r => Some r | None => _ end)
      as [[[[[[Y M] D] h] m] sec]|]; [|reflexivity].
    cbv zeta. destruct (_ <=? 0); [reflexivity|].
    match goal with |- context [setClockFromEpoch ?x ?y] => apply (proj2 (A x y)) end.
Qed.

End ManualClock.

(** X15.  Setting the clock by hand.  [setClockFromEpoch] succeeds
    exactly for a positive epoch; it then sets the clock to that epoch,
    marks it valid and applies the configured time zone, and otherwise
    leaves the device untouched.  [setClockFromString] that returns true
    leaves a positive, valid clock under the configured time zone; one
    that returns false leaves the clock and its validity as they were.
    Neither records the time as a sync: the last-sync and planned-wake
    epochs kept across deep sleep stay as they were. *)
Theorem X15_manual_clock (P : Platform) (s : string) (e : Z) (d : Device) :
  let r := setClockFromEpoch e d in
  let q := setClockFromString P s d in
  fst r = (0 <? e)
  /\ (e <= 0 -> snd r = d)
  /\ (0 < e ->
      sysClock (hw (snd r)) = e /\ timeValid (snd r) = true
      /\ envTZ (hw (snd r)) = SET_TZ (cfg d))
  /\ (fst q = true ->
      0 < sysClock (hw (snd q)) /\ timeValid (snd q) = true
      /\ envTZ (hw (snd q)) = SET_TZ (cfg d))
  /\ (fst q = false ->
      sysClock (hw (snd q)) = sysClock (hw d) /\ timeValid (snd q) = timeValid d)
  /\ gLastSyncEpoch (snd r) = gLastSyncEpoch d
  /\ gLastSyncEpoch (snd q) = gLastSyncEpoch d
  /\ gPlannedWakeEpoch (snd r) = gPlannedWakeEpoch d
  /\ gPlannedWakeEpoch (snd q) = gPlannedWakeEpoch d.
Proof.
  intros r q.
  destruct (setClockFromEpoch_result e d) as (A & B & C).
  destruct (setClockFromString_result P s d) as (D & E).
  destruct (manual_clock_no_sync_record P s e d) as (F & G & H & I).
  split; [exact A|]. split; [exact B|]. split; [exact C|].
  split; [exact D|]. split; [exact E|].
  split; [exact F|]. split; [exact G|]. split; [exact H | exact I].
Qed.

Lemma X15_manual_clock_witness :
  sysClock (hw (snd (setClockFromString Esp32Utc.platform "2025-11-11 23:10:00"
                       (upd_cfg (set_SET_TZ "UTC0") (Sample.running 5 false)))))
  = Sample.late_evening
  /\ 0 < sysClock (hw (snd (setClockFromString Esp32Utc.platform "2025-11-11 23:10:00"
                              (upd_cfg (set_SET_TZ "UTC0") (Sample.running 5 false))))).
Proof.
  split; [vm_compute; reflexivity|].
  destruct (X15_manual_clock Esp32Utc.platform "2025-11-11 23:10:00" 1
              (upd_cfg (set_SET_TZ "UTC0") (Sample.running 5 false))) as (_ & _ & _ & H & _).
  destruct H as (H & _); [vm_compute; reflexivity | exact H].
Defined.

(** ** The time zone in effect *)

Section TimeZone.

Variable P : Platform.

Lemma ensureTimeSync_tz wifiMs ntpMs force verbose net d :
  tz_applied d -> tz_applied (snd (ensureTimeSync P wifiMs ntpMs force verbose net d)).
Proof.
  unfold tz_applied. intros H.
  destruct (ensureTimeSync_frame P wifiMs ntpMs force verbose net d) as (C & _).
  rewrite C. unfold ensureTimeSync.
  destruct (negb force && negb (QUIET_EN (cfg d))); [destruct verbose; exact H|].
  destruct (wifi_connects net); cbn [negb]; [|destruct verbose; exact H].
  destruct (dns_resolves net); cbn [negb]; [|destruct verbose; exact H].
  cbv zeta. cbn [fst snd].
  match goal with |- context [ntp_wait P ?l ?v ?x] =>
    pose proof (ntp_wait_envTZ P l v x) as Htz;
    set (w := ntp_wait P l v x) in *
  end.
  assert (Htz' : envTZ (hw w) = SET_TZ (cfg d)).
  { rewrite Htz. destruct verbose; reflexivity. }
  destruct (negb (timeValid (WiFi_off (WiFi_disconnect w))) && verbose); exact Htz'.
Qed.

Lemma setSystemTimeFromEpoch_tz e tag d :
  tz_applied d -> tz_applied (setSystemTimeFromEpoch P e tag d).
Proof.
  intros H. unfold setSystemTimeFromEpoch. destruct (e <=? 0); [exact H|].
  cbv zeta. destruct (localNow P _); reflexivity.
Qed.

Lemma setClockFromEpoch_tz e d :
  tz_applied d -> tz_applied (snd (setClockFromEpoch e d)).
Proof.
  intros H. unfold setClockFromEpoch. destruct (e <=? 0); [exact H | reflexivity].
Qed.

Lemma setClockFromString_tz s d :
  tz_applied d -> tz_applied (snd (setClockFromString P s d)).
Proof.
  intros H. unfold setClockFromString.
  destruct (match sscanf6 P _ s with Some r => Some r | None => _ end)
    as [[[[[[Y M] D] h] m] sec]|]; [|exact H].
  cbv zeta. destruct (_ <=? 0); [reflexivity|].
  apply setClockFromEpoch_tz. reflexivity.
Qed.

Lemma night_tz net d : tz_applied d -> tz_applied (enterDeepSleep_NightTimer P net d).
Proof.
  intros H.
  assert (S : tz_applied (night_shutdown P net d)).
  { unfold night_shutdown.
    match goal with
    | |- context [negb (timeValid ?x)] =>
        assert (E : tz_applied x); [|set (y := x) in *]
    end.
    { unfold rtcHoldLevel, displaySleep.
      destruct (negb _), (displayAwake (ui d)); exact H. }
    destruct (negb (timeValid y)); [|exact E].
    apply ensureTimeSync_tz. exact E. }
  unfold enterDeepSleep_NightTimer. cbv zeta.
  set (y := night_shutdown P net d) in *.
  destruct (timeValid y); exact S.
Qed.

Lemma day_tz io d : tz_applied d -> tz_applied (enterDeepSleep_DayIRQ P io d).
Proof.
  intros H.
  unfold enterDeepSleep_DayIRQ, pn532StartAutoPoll106A, pn532SendCommandI2C, displaySleep.
  destruct (displayAwake (ui d)), io, (rtc_gpio_is_valid_gpio P PN532_IRQ);
    cbn -[Z.mul u64]; destruct (0 <? SET_DAY_FALLBACK_MS (cfg d)); exact H.
Qed.

Lemma addAllow_tz h d : tz_applied d -> tz_applied (snd (addAllow h d)).
Proof.
  intros H. unfold addAllow. destruct (_ <=? _); [exact H|].
  destruct (inAllowlist _ _); exact H.
Qed.

Lemma removeAllow_tz h d : tz_applied d -> tz_applied (snd (removeAllow h d)).
Proof. intros H. unfold removeAllow. destruct (remove_first _ _); exact H. Qed.

Lemma applyKV_tz k v d ar : tz_applied d -> tz_applied (fst (applyKV P k v d ar)).
Proof.
  intros H. unfold applyKV.
  repeat match goal with
         | |- context [if String.eqb ?a ?b then _ else _] => destruct (String.eqb a b)
         end;
    try exact H.
  - destruct (len _ =? 4); exact H.
  - pose proof (addAllow_tz (trim v) d H) as A.
    destruct (addAllow (trim v) d) as [[] d1]; exact A.
  - pose proof (removeAllow_tz (trim v) d H) as A.
    destruct (removeAllow (trim v) d) as [[] d1]; exact A.
  - destruct (_ || _); exact H.
  - pose proof (setClockFromString_tz (trim v) d H) as A.
    destruct (setClockFromString P (trim v) d) as [[] d1]; exact A.
  - pose proof (setClockFromEpoch_tz (time_t (strtoll (trim v))) d H) as A.
    destruct (setClockFromEpoch _ d) as [[] d1]; exact A.
  - destruct (2 <? len _); [reflexivity | exact H].
Qed.

Lemma run_config_tz txt st :
  tz_applied (fst st) -> tz_applied (fst (run_config P txt st)).
Proof.
  unfold run_config. generalize (config_lines txt). intros lines.
  revert st. induction lines as [|l ls IH]; intros st H; cbn [fold_left]; [exact H|].
  apply IH. destruct st as [d ar]. unfold applyConfigLine.
  destruct (len (trim l) =? 0); [exact H|].
  destruct (indexOf "=" (trim l)); [|exact H].
  apply applyKV_tz. exact H.
Qed.

Lemma applyConfigText_tz txt d :
  tz_applied d -> tz_applied (snd (applyConfigText P txt d)).
Proof.
  intros H. rewrite applyConfigText_run. cbn [snd].
  apply (run_config_tz txt (d, mkAdminResult true "saved") H).
Qed.

Lemma onTagRead_tz env uid nr d : tz_applied d -> tz_applied (onTagRead P env uid nr d).
Proof.
  intros H. destruct (is_admin nr) eqn:Hadm.
  - unfold is_admin in Hadm. unfold onTagRead. cbv zeta. rewrite Hadm.
    match goal with
    | |- context [applyConfigText P ?t ?x] =>
        assert (E : tz_applied (snd (applyConfigText P t x)));
        [apply applyConfigText_tz | destruct (applyConfigText P t x) as [ar d1]]
    end.
    + unfold displayWake. destruct (displayAwake _); exact H.
    + cbn [snd] in E. unfold showAdminFeedback, displayWake.
      destruct (displayAwake _); exact E.
  - rewrite (onTagRead_plain P env uid nr d Hadm). cbv zeta. unfold displayWake.
    destruct (displayAwake _), (4 <=? _); cbn;
      repeat match goal with |- context [if ?c then _ else _] => destruct c end;
      exact H.
Qed.

Lemma serial_quiet_tz rest d : tz_applied d -> tz_applied (serial_quiet rest d).
Proof.
  intros H. unfold serial_quiet.
  repeat match goal with
         | |- context [if ?c then _ else _] => destruct c
         | |- context [match ?x with _ => _ end] => destruct x
         end;
    exact H.
Qed.

Lemma handleSerial_tz env d : tz_applied d -> tz_applied (dev (handleSerial P env d)).
Proof.
  intros H. unfold handleSerial.
  destruct (serial_line env) as [raw|]; [|exact H].
  cbv zeta. set (line := trim raw) in *.
  repeat match goal with
         | |- tz_applied (dev (if ?c then _ else _)) => destruct c
         end;
    try exact H.
  all: try solve [cbn [dev]; apply serial_quiet_tz; exact H].
  all: try solve [cbn [dev]; apply night_tz; exact H].
  all: try solve [cbn [dev]; unfold pnInfo, pn532HardReset;
                  repeat match goal with
                         | |- context [if ?c then _ else _] => destruct c
                         | |- context [match ?x with Some _ => _ | None => _ end] =>
                             destruct x
                         end; exact H].
  all: try solve [
    match goal with
    | |- context [addAllow ?h ?d0] =>
        pose proof (addAllow_tz h d0 H) as E;
        destruct (addAllow h d0) as [[] d1]; cbn [snd dev] in *; exact E
    | |- context [removeAllow ?h ?d0] =>
        pose proof (removeAllow_tz h d0 H) as E;
        destruct (removeAllow h d0) as [[] d1]; cbn [snd dev] in *; exact E
    end].
  all: try solve [
    match goal with
    | |- context [setClockFromString P ?x ?d0] =>
        pose proof (setClockFromString_tz x d0 H) as E;
        destruct (setClockFromString P x d0) as [[] d1]
    | |- context [setClockFromEpoch ?x ?d0] =>
        pose proof (setClockFromEpoch_tz x d0 H) as E;
        destruct (setClockFromEpoch x d0) as [[] d1]
    end;
    cbn [snd dev] in *; unfold oledToast, displayWake;
    destruct (displayAwake _); exact E].
  all: try solve [
    cbn [dev]; unfold oledToast, displayWake;
    repeat match goal with
           | |- context [if ?c then _ else _] => destruct c
           | |- context [match ?x with Some _ => _ | None => _ end] => destruct x
           end; reflexivity].
  (* checknow *)
  - pose proof (ensureTimeSync_tz 10000 10000 true true (net env) d H) as S.
    destruct (ensureTimeSync P 10000 10000 true true (net env) d) as [r d1].
    cbn [dev snd] in *.
    destruct (negb r && _ && _); [|exact S].
    apply (setSystemTimeFromEpoch_tz _ _ d1 S).
  (* ntp *)
  - pose proof (ensureTimeSync_tz 10000 10000 false true (net env) d H) as S.
    destruct (ensureTimeSync P 10000 10000 false true (net env) d) as [r d1].
    cbn [dev snd] in *. exact S.
Qed.

Lemma loop_tz env d : tz_applied d -> tz_applied (dev (loop P env d)).
Proof.
  intros H. unfold loop.
  pose proof (handleSerial_tz env d H) as E.
  destruct (handleSerial P env d) as [d1|d1]; cbn [dev] in E; [|exact E].
  destruct (quietNow P d1); cbn [dev]; [apply night_tz; exact E|].
  cbv zeta.
  assert (V : tz_applied (loop_timers env (loop_poll P env d1))).
  { assert (Q : tz_applied (loop_poll P env d1)).
    { unfold loop_poll. cbv zeta.
      destruct (gNfcUp d1 && _); [|exact E].
      destruct (120 <=? _); [|exact E].
      destruct (tag env) as [[uid nr]|]; [|exact E].
      apply onTagRead_tz. exact E. }
    destruct (loop_timers_same_store env (loop_poll P env d1)) as [C _].
    unfold tz_applied. rewrite C.
    unfold loop_timers, displaySleep. cbv zeta.
    repeat match goal with
           | |- context [if ?c then _ else _] => destruct c; cbn [cfg hw upd_ui set_ui]
           end; exact Q. }
  destruct (negb _ && _); cbn [dev]; [|exact V].
  apply day_tz. exact V.
Qed.

Lemma setenv_TZ_tz d : tz_applied (setenv_TZ d).
Proof. reflexivity. Qed.

Lemma loadAll_tz d : tz_applied (loadAll d).
Proof. unfold loadAll. cbv zeta. apply setenv_TZ_tz. Qed.

Lemma setup_tz env d : tz_applied (setup P env d).
Proof.
  assert (A : tz_applied (setup_peripherals env d)).
  { unfold setup_peripherals. cbv zeta.
    match goal with
    | |- context [pn532TryInit ?fw ?x] =>
        assert (Fx : tz_applied x); [|set (y := x) in *]
    end.
    { apply loadAll_tz. }
    assert (T : forall n fw z, tz_applied z -> tz_applied (snd (pn532TryInit_from n fw z))).
    { induction n as [|n IH]; intros fw z Hz; cbn [pn532TryInit_from]; [exact Hz|].
      cbv zeta. destruct (hd 0 fw =? 0); [|exact Hz]. apply IH. exact Hz. }
    specialize (T 5%nat (fw_tryinit env) y Fx). unfold pn532TryInit.
    destruct (pn532TryInit_from 5 _ y) as [r d1]. cbn [snd] in T.
    destruct r, (fw_setup env =? 0); exact T. }
  assert (B : tz_applied (setup_time P env (setup_peripherals env d))).
  { unfold setup_time. set (d0 := setup_peripherals env d) in *.
    assert (Q : tz_applied (setup_quiet_sync P env d0)).
    { unfold setup_quiet_sync. destruct (QUIET_EN (cfg d0)); [|exact A].
      apply (ensureTimeSync_tz 6000 6000 false true (net_quiet env) d0 A). }
    set (d1 := setup_quiet_sync P env d0) in *.
    assert (F : tz_applied (setup_forced_sync P env d1)).
    { unfold setup_forced_sync.
      pose proof (ensureTimeSync_tz 10000 10000 true true (net_boot env) d1 Q) as S.
      destruct (ensureTimeSync P 10000 10000 true true (net_boot env) d1) as [r d2].
      cbn [snd] in S. destruct (negb r && _ && _); [|exact S].
      apply setSystemTimeFromEpoch_tz. exact S. }
    unfold setup_last_sync. destruct (negb _ && _); [|exact F].
    apply setSystemTimeFromEpoch_tz. exact F. }
  unfold setup. cbv zeta. unfold displayWake.
  destruct (displayAwake _); exact B.
Qed.

End TimeZone.

(** X16.  The time zone in effect is the configured one.  [setup] ends
    with the [TZ] environment variable equal to [SET_TZ], from whatever
    state it starts; a serial command, a tag read and a whole pass of
    [loop] keep it so, also when they change [SET_TZ].  Local time, and
    with it the quiet-hours test, is therefore always read in the
    configured zone. *)
Theorem X16_time_zone_applied
    (P : Platform) (boot : BootEnv) (env : LoopEnv) (uid : list Z) (nr : NdefResult)
    (d0 d : Device) :
  tz_applied (setup P boot d0)
  /\ (tz_applied d ->
      tz_applied (dev (handleSerial P env d))
      /\ tz_applied (onTagRead P env uid nr d)
      /\ tz_applied (dev (loop P env d))
      /\ localNow P d = getLocalTime P (SET_TZ (cfg d)) (sysClock (hw d))).
Proof.
  split; [apply setup_tz|]. intros H.
  split; [apply handleSerial_tz; exact H|].
  split; [apply onTagRead_tz; exact H|].
  split; [apply loop_tz; exact H|].
  unfold localNow. rewrite H. reflexivity.
Qed.

Lemma X16_time_zone_applied_witness :
  tz_applied
    (dev (handleSerial Esp32Utc.platform
            (Sample.loop_env (Some "settz CET-1CEST") Sample.net_down)
            (setenv_TZ (Sample.running_quiet_off Sample.late_evening true))))
  /\ SET_TZ (cfg (dev (handleSerial Esp32Utc.platform
                         (Sample.loop_env (Some "settz CET-1CEST") Sample.net_down)
                         (setenv_TZ (Sample.running_quiet_off Sample.late_evening true)))))
     = "CET-1CEST".
Proof.
  split; [|vm_compute; reflexivity].
  destruct (X16_time_zone_applied Esp32Utc.platform
              (Sample.boot_env WAKEUP_UNDEFINED Sample.net_down)
              (Sample.loop_env (Some "settz CET-1CEST") Sample.net_down) []
              (mkNdefResult false false false "")
              (Sample.running_quiet_off Sample.late_evening true)
              (setenv_TZ (Sample.running_quiet_off Sample.late_evening true))) as (_ & H).
  destruct H as (H & _); [reflexivity | exact H].
Defined.

(** ** The NDEF scan *)

Section NdefScan.

Lemma read_pages_extends n p read buf out :
  read_pages n p read buf = Some out -> exists more, out = (buf ++ more)%list.
Proof.
  revert p buf. induction n as [|n IH]; intros p buf; cbn [read_pages].
  - intros E. injection E as <-. exists []. rewrite app_nil_r. reflexivity.
  - destruct (read p) as [pg|]; [|discriminate].
    destruct (_ <=? 64); intros E; destruct (IH _ _ E) as [more ->].
    + exists (page_bytes pg ++ more)%list. rewrite app_assoc. reflexivity.
    + exists more. reflexivity.
Qed.

Lemma read_pages_all n p read buf :
  (forall q, p <= q < p + Z.of_nat n -> read q <> None) ->
  exists out, read_pages n p read buf = Some out.
Proof.
  revert p buf. induction n as [|n IH]; intros p buf H; cbn [read_pages].
  - exists buf. reflexivity.
  - destruct (read p) as [pg|] eqn:E; [|exfalso; apply (H p); [lia | exact E]].
    apply IH. intros q Hq. apply H. lia.
Qed.

Lemma read_pages_first n read pg :
  read 4 = Some pg ->
  read_pages (S n) 4 read [] = read_pages n 5 read (page_bytes pg).
Proof. intros E. cbn [read_pages]. rewrite E. reflexivity. Qed.

(** The scan of a buffer that starts with a TLV of extended length
    [0xFFFC] comes back to index 0. *)
Lemma tlv_step_wraps pad t rest idx :
  4 <= idx -> t <> 0 -> t <> 3 -> t <> 254 ->
  tlv_step pad (t :: 255 :: 255 :: 252 :: rest) idx 0 = Again 0.
Proof.
  intros Hi H0 H3 Hfe. unfold tlv_step, tlv_length. cbv zeta.
  change (buf_at pad (t :: 255 :: 255 :: 252 :: rest) 0) with t.
  destruct (Z.eqb_spec t 0); [contradiction|].
  destruct (Z.eqb_spec t 254); [contradiction|].
  destruct (Z.eqb_spec t 3); [contradiction|]. cbn [negb].
  destruct (Z.leb_spec idx (0 + 1)); [lia|].
  change (buf_at pad (t :: 255 :: 255 :: 252 :: rest) (0 + 1)) with 255.
  cbn [Z.eqb Pos.eqb].
  destruct (Z.ltb_spec idx (0 + 1 + 1 + 2)); [lia|].
  reflexivity.
Qed.

Lemma tlv_scan_wraps fuel pad t rest idx :
  4 <= idx -> t <> 0 -> t <> 3 -> t <> 254 ->
  tlv_scan fuel pad (t :: 255 :: 255 :: 252 :: rest) idx 0 = None.
Proof.
  intros Hi H0 H3 Hfe. induction fuel as [|fuel IH]; [reflexivity|].
  cbn [tlv_scan]. destruct (Z.ltb_spec (0 + 1) idx); [|lia].
  rewrite (tlv_step_wraps pad t rest idx Hi H0 H3 Hfe). exact IH.
Qed.

End NdefScan.

(** X17.  A tag whose page 4 holds a TLV other than NULL, NDEF and
    terminator with the extended length [FF FF FC] keeps
    [readNdefUltralight] in its scan for ever: the 16-bit index wraps
    around to 0 and the same TLV is met again, so no number of passes of
    the loop ends the scan. *)
Theorem X17_ndef_scan_wraps
    (fuel : nat) (pad t : Z) (read : Z -> option Page) :
  (forall p, 4 <= p < 20 -> read p <> None) ->
  read 4 = Some (t, 255, 255, 252) ->
  t <> 0 -> t <> 3 -> t <> 254 ->
  readNdefUltralight fuel pad read = None.
Proof.
  intros Hall H4 H0 H3 Hfe. unfold readNdefUltralight.
  rewrite (read_pages_first 15 read _ H4).
  destruct (read_pages_all 15 5 read (page_bytes (t, 255, 255, 252))) as [out E].
  { intros q Hq. apply Hall. lia. }
  rewrite E. destruct (read_pages_extends _ _ _ _ _ E) as [more ->].
  apply tlv_scan_wraps; try assumption.
  rewrite length_app. cbn [page_bytes List.length]. lia.
Qed.

Lemma X17_ndef_scan_wraps_witness :
  readNdefUltralight 1000 0 (tag_pages [1; 255; 255; 252]) = None.
Proof.
  apply (X17_ndef_scan_wraps 1000 0 1 (tag_pages [1; 255; 255; 252])).
  - intros p _. discriminate.
  - reflexivity.
  - discriminate.
  - discriminate.
  - discriminate.
Defined.

Section NdefDecode.

Lemma buf_at_skipn pad buf i k :
  0 <= i -> 0 <= k ->
  buf_at pad buf (i + k) = nth (Z.to_nat k) (List.skipn (Z.to_nat i) buf) pad.
Proof.
  intros Hi Hk. unfold buf_at. rewrite nth_skipn, Z2Nat.inj_add by lia. reflexivity.
Qed.

(** A NULL TLV is stepped over. *)
Lemma tlv_scan_null fuel pad buf idx i :
  i + 1 < idx -> buf_at pad buf i = 0 ->
  tlv_scan (S fuel) pad buf idx i = tlv_scan fuel pad buf idx (i + 1).
Proof.
  intros Hi H0. cbn [tlv_scan]. destruct (Z.ltb_spec (i + 1) idx); [|lia].
  unfold tlv_step. cbv zeta. rewrite H0. reflexivity.
Qed.

(** A TLV that is not an NDEF TLV and has a one-byte length is stepped
    over with its value. *)
Lemma tlv_scan_other fuel pad buf idx i t l :
  0 <= i -> i + 1 < idx -> idx < 256 ->
  buf_at pad buf i = t -> t <> 0 -> t <> 3 -> t <> 254 ->
  buf_at pad buf (i + 1) = l -> 0 <= l < 255 ->
  tlv_scan (S fuel) pad buf idx i = tlv_scan fuel pad buf idx (i + 2 + l).
Proof.
  intros Hi Hidx H8 Ht H0 H3 Hfe Hl Hl'. cbn [tlv_scan].
  destruct (Z.ltb_spec (i + 1) idx); [|lia].
  unfold tlv_step, tlv_length. cbv zeta. rewrite Ht.
  destruct (Z.eqb_spec t 0); [contradiction|].
  destruct (Z.eqb_spec t 254); [contradiction|].
  destruct (Z.eqb_spec t 3); [contradiction|]. cbn [negb].
  destruct (Z.leb_spec idx (i + 1)); [lia|]. rewrite Hl.
  destruct (Z.eqb_spec l 255); [lia|].
  replace (i + 1 + 1 + l) with (i + 2 + l) by lia.
  unfold u16. rewrite wrap_u_small; [reflexivity|]. change (2 ^ 16) with 65536. lia.
Qed.

Lemma tlv_length_short pad buf idx i l :
  i < idx -> buf_at pad buf i = l -> l <> 255 ->
  tlv_length pad buf idx i = Some (l, i + 1).
Proof.
  intros Hi Hl Hn. unfold tlv_length. cbv zeta.
  destruct (Z.leb_spec idx i); [lia|]. rewrite Hl.
  destruct (Z.eqb_spec l 255); [contradiction | reflexivity].
Qed.

(** The record of a text: type length 1, type [T], the status byte and
    the language code, then the text. *)
Lemma ndef_record_text pad buf idx j nlen plen status langlen :
  j + 2 <= idx ->
  buf_at pad buf (j + 1) = 1 -> buf_at pad buf (j + 2) = plen ->
  buf_at pad buf (j + 3) = 84 -> buf_at pad buf (j + 3 + 1) = status ->
  Z.land status 63 = langlen -> 0 <= langlen -> 1 + langlen <= plen < 256 ->
  plen + 4 <= nlen ->
  ndef_record pad buf idx j nlen
  = mkNdefResult true true false (chars_of buf (j + 3 + 1 + 1 + langlen) (plen - 1 - langlen)).
Proof.
  intros Hj B1 B2 B3 B4 Hlang Hl0 Hp Hn. unfold ndef_record. cbv zeta.
  destruct (Z.ltb_spec idx (j + 2)); [lia|].
  rewrite B1, B2, B3, B4.
  destruct (Z.ltb_spec (j + nlen) (j + 3 + 1 + plen)); [lia|].
  cbn [Z.eqb Pos.eqb andb].
  destruct (Z.leb_spec 1 plen); [|lia].
  change 0x3F with 63. rewrite Hlang.
  destruct (Z.leb_spec (1 + langlen) plen); [|lia].
  unfold u8. rewrite wrap_u_small; [reflexivity|]. change (2 ^ 8) with 256. lia.
Qed.

(** A text record in an NDEF TLV at index [i]. *)
Lemma tlv_scan_text fuel pad buf i nlen hdr plen status lang txt rest :
  0 <= i ->
  List.skipn (Z.to_nat i) buf
  = (3 :: nlen :: hdr :: 1 :: plen :: 84 :: status :: lang ++ txt ++ rest)%list ->
  0 <= nlen < 255 ->
  Z.land status 63 = Z.of_nat (List.length lang) ->
  plen = 1 + Z.of_nat (List.length lang) + Z.of_nat (List.length txt) ->
  plen + 4 <= nlen ->
  i + 2 + nlen <= Z.of_nat (List.length buf) ->
  tlv_scan (S fuel) pad buf (Z.of_nat (List.length buf)) i
  = Some (mkNdefResult true true false (as_chars txt)).
Proof.
  intros Hi Hs Hn Hlang Hp Hpn Hfit.
  set (idx := Z.of_nat (List.length buf)) in *.
  assert (B : forall k j, 0 <= k -> j = i + k ->
                buf_at pad buf j
                = nth (Z.to_nat k)
                    (3 :: nlen :: hdr :: 1 :: plen :: 84 :: status :: lang ++ txt ++ rest)%list
                    pad).
  { intros k j Hk ->. rewrite buf_at_skipn, Hs by lia. reflexivity. }
  cbn [tlv_scan]. destruct (Z.ltb_spec (i + 1) idx); [|lia].
  unfold tlv_step. cbv zeta.
  rewrite (B 0 i) by lia. change (nth (Z.to_nat 0) _ pad) with 3.
  cbn [Z.eqb Pos.eqb negb].
  rewrite (tlv_length_short pad buf idx (i + 1) nlen); [|lia|apply (B 1); lia|lia].
  destruct (Z.ltb_spec idx (i + 1 + 1 + nlen)); [lia|].
  rewrite (ndef_record_text pad buf idx (i + 1 + 1) nlen plen status
             (Z.of_nat (List.length lang)));
    [|lia|apply (B 3); lia|apply (B 4); lia|apply (B 5); lia|apply (B 6); lia
     |exact Hlang|lia|lia|lia].
  f_equal. f_equal. unfold chars_of. f_equal.
  replace (Z.to_nat (plen - 1 - Z.of_nat (List.length lang))) with (List.length txt) by lia.
  replace (Z.to_nat (i + 1 + 1 + 3 + 1 + 1 + Z.of_nat (List.length lang)))
    with ((List.length lang + 7) + Z.to_nat i)%nat by lia.
  rewrite <- skipn_skipn, Hs.
  rewrite <- skipn_skipn. cbn [List.skipn].
  rewrite skipn_app, skipn_all, Nat.sub_diag. cbn [List.skipn app].
  rewrite firstn_app, firstn_all, Nat.sub_diag, firstn_0, app_nil_r. reflexivity.
Qed.

End NdefDecode.

(** X18.  What the scan reads.  A NULL TLV is stepped over; a TLV that is
    neither NDEF nor terminator and has a one-byte length is stepped over
    with its value; and a short text record inside an NDEF TLV (type
    length 1, type [T], a language code as long as the status byte says)
    gives its text, whatever the record header byte is and whatever
    follows the record. *)
Theorem X18_ndef_text_decoded
    (fuel : nat) (pad : Z) (buf : list Z) (i : Z) :
  0 <= i -> i + 1 < Z.of_nat (List.length buf) -> Z.of_nat (List.length buf) < 256 ->
  let idx := Z.of_nat (List.length buf) in
  (buf_at pad buf i = 0 ->
   tlv_scan (S fuel) pad buf idx i = tlv_scan fuel pad buf idx (i + 1))
  /\ (forall t l,
        buf_at pad buf i = t -> t <> 0 -> t <> 3 -> t <> 254 ->
        buf_at pad buf (i + 1) = l -> 0 <= l < 255 ->
        tlv_scan (S fuel) pad buf idx i = tlv_scan fuel pad buf idx (i + 2 + l))
  /\ (forall nlen hdr plen status lang txt rest,
        List.skipn (Z.to_nat i) buf
        = (3 :: nlen :: hdr :: 1 :: plen :: 84 :: status :: lang ++ txt ++ rest)%list ->
        0 <= nlen < 255 ->
        Z.land status 63 = Z.of_nat (List.length lang) ->
        plen = 1 + Z.of_nat (List.length lang) + Z.of_nat (List.length txt) ->
        plen + 4 <= nlen ->
        i + 2 + nlen <= idx ->
        tlv_scan (S fuel) pad buf idx i
        = Some (mkNdefResult true true false (as_chars txt))).
Proof.
  intros Hi Hidx H8 idx.
  split; [intros H0; apply tlv_scan_null; assumption|].
  split.
  - intros t l Ht H0 H3 Hfe Hl Hl'.
    apply (tlv_scan_other fuel pad buf idx i t l); assumption.
  - intros nlen hdr plen status lang txt rest Hs Hn Hlang Hp Hpn Hfit.
    apply (tlv_scan_text fuel pad buf i nlen hdr plen status lang txt rest); assumption.
Qed.

Lemma X18_ndef_text_decoded_witness :
  tlv_scan 1 0
    [1; 3; 160; 12; 52; 3; 16; 209; 1; 12; 84; 2; 101; 110;
     113; 117; 105; 101; 116; 61; 111; 102; 102; 254] 24 5
  = Some (mkNdefResult true true false "quiet=off").
Proof.
  destruct (X18_ndef_text_decoded 0 0
              [1; 3; 160; 12; 52; 3; 16; 209; 1; 12; 84; 2; 101; 110;
               113; 117; 105; 101; 116; 61; 111; 102; 102; 254] 5)
    as (_ & _ & H); [lia | cbn; lia | cbn; lia |].
  apply (H 16 209 12 2 [101; 110] [113; 117; 105; 101; 116; 61; 111; 102; 102] [254]).
  - reflexivity.
  - lia.
  - reflexivity.
  - reflexivity.
  - lia.
  - cbn. lia.
Defined.

Section NdefBounds.

Variables (pad pad' : Z) (buf : list Z).

Hypothesis pad_byte : 0 <= pad.
Hypothesis pad'_byte : 0 <= pad'.
Hypothesis buf_bytes : Forall (fun b => 0 <= b) buf.

Local Abbreviation idx := (Z.of_nat (List.length buf)).

Lemma buf_at_inside i : 0 <= i < idx -> buf_at pad buf i = buf_at pad' buf i.
Proof. intros H. unfold buf_at. apply nth_indep. lia. Qed.

Lemma buf_at_nonneg i : 0 <= buf_at pad buf i.
Proof.
  unfold buf_at. destruct (nth_in_or_default (Z.to_nat i) buf pad) as [H|H].
  - rewrite Forall_forall in buf_bytes. apply buf_bytes. exact H.
  - rewrite H. exact pad_byte.
Qed.

Lemma tlv_length_pad i :
  0 <= i -> tlv_length pad buf idx i = tlv_length pad' buf idx i.
Proof.
  intros Hi. unfold tlv_length. cbv zeta.
  destruct (Z.leb_spec idx i); [reflexivity|].
  rewrite (buf_at_inside i) by lia.
  destruct (buf_at pad' buf i =? 255); [|reflexivity].
  destruct (Z.ltb_spec idx (i + 1 + 2)); [reflexivity|].
  rewrite (buf_at_inside (i + 1)), (buf_at_inside (i + 1 + 1)) by lia. reflexivity.
Qed.

Lemma tlv_length_bounds i len i' :
  0 <= i -> tlv_length pad buf idx i = Some (len, i') -> 0 <= len /\ i < i' <= idx.
Proof.
  intros Hi. unfold tlv_length. cbv zeta.
  assert (V : 0 <= Z.lor (Z.shiftl (buf_at pad buf (i + 1)) 8) (buf_at pad buf (i + 1 + 1))).
  { apply (proj2 (Z.lor_nonneg _ _)). split; [|apply buf_at_nonneg].
    apply (proj2 (Z.shiftl_nonneg _ _)). apply buf_at_nonneg. }
  revert V. generalize (Z.lor (Z.shiftl (buf_at pad buf (i + 1)) 8) (buf_at pad buf (i + 1 + 1))).
  intros v V.
  destruct (Z.leb_spec idx i); [discriminate|].
  destruct (buf_at pad buf i =? 255).
  - destruct (Z.ltb_spec idx (i + 1 + 2)); [discriminate|].
    intros E. injection E as <- <-. split; [exact V | lia].
  - intros E. injection E as <- <-. split; [apply buf_at_nonneg | lia].
Qed.

End NdefBounds.

Section NdefPad.

Variables (pad pad' : Z) (buf : list Z).

Hypothesis pad_byte : 0 <= pad.
Hypothesis pad'_byte : 0 <= pad'.
Hypothesis buf_bytes : Forall (fun b => 0 <= b) buf.

Local Abbreviation idx := (Z.of_nat (List.length buf)).

Lemma ndef_record_pad i nlen :
  0 <= i -> i + nlen <= idx ->
  ndef_record pad buf idx i nlen = ndef_record pad' buf idx i nlen.
Proof.
  intros Hi Hfit. unfold ndef_record. cbv zeta.
  destruct (Z.ltb_spec idx (i + 2)); [reflexivity|].
  rewrite (buf_at_inside pad pad' buf (i + 1)) by lia.
  pose proof (buf_at_nonneg pad' buf pad'_byte buf_bytes (i + 1)) as T.
  pose proof (buf_at_nonneg pad buf pad_byte buf_bytes (i + 2)) as Q.
  pose proof (buf_at_nonneg pad' buf pad'_byte buf_bytes (i + 2)) as Q'.
  destruct (Z.eq_dec (i + 2) idx) as [E|E].
  - destruct (Z.ltb_spec (i + nlen) (i + 3 + buf_at pad' buf (i + 1) + buf_at pad buf (i + 2)));
      [|lia].
    destruct (Z.ltb_spec (i + nlen) (i + 3 + buf_at pad' buf (i + 1) + buf_at pad' buf (i + 2)));
      [reflexivity | lia].
  - rewrite (buf_at_inside pad pad' buf (i + 2)) by lia.
    destruct (Z.ltb_spec (i + nlen) (i + 3 + buf_at pad' buf (i + 1) + buf_at pad' buf (i + 2)));
      [reflexivity|].
    destruct (Z.eqb_spec (buf_at pad' buf (i + 1)) 1) as [T1|T1]; cbn [andb]; [|reflexivity].
    rewrite T1 in *.
    rewrite (buf_at_inside pad pad' buf (i + 3)) by lia.
    destruct (Z.leb_spec 1 (buf_at pad' buf (i + 2))) as [P1|P1];
      [|rewrite !andb_false_r; reflexivity].
    rewrite (buf_at_inside pad pad' buf (i + 3 + 1)) by lia.
    reflexivity.
Qed.

Lemma tlv_step_pad i :
  0 <= i -> i + 1 < idx -> tlv_step pad buf idx i = tlv_step pad' buf idx i.
Proof.
  intros Hi Hidx. unfold tlv_step. cbv zeta.
  rewrite (buf_at_inside pad pad' buf i) by lia.
  rewrite (tlv_length_pad pad pad' buf (i + 1)) by lia.
  destruct (buf_at pad' buf i =? 0); [reflexivity|].
  destruct (buf_at pad' buf i =? 254); [reflexivity|].
  destruct (negb (buf_at pad' buf i =? 3)); [reflexivity|].
  destruct (tlv_length pad' buf idx (i + 1)) as [[nlen i']|] eqn:E; [|reflexivity].
  destruct (Z.ltb_spec idx (i' + nlen)); [reflexivity|].
  destruct (tlv_length_bounds pad' buf pad'_byte buf_bytes (i + 1) nlen i') as [_ B];
    [lia | exact E |].
  rewrite ndef_record_pad by lia. reflexivity.
Qed.

Lemma tlv_step_again p i i' :
  0 <= i -> tlv_step p buf idx i = Again i' -> 0 <= i'.
Proof.
  intros Hi. unfold tlv_step. cbv zeta.
  destruct (buf_at p buf i =? 0); [intros E; injection E as <-; lia|].
  destruct (buf_at p buf i =? 254); [discriminate|].
  destruct (negb (buf_at p buf i =? 3)).
  - destruct (tlv_length p buf idx (i + 1)) as [[len j]|]; [|discriminate].
    intros E. injection E as <-. apply wrap_u_range. lia.
  - destruct (tlv_length p buf idx (i + 1)) as [[len j]|]; [|discriminate].
    destruct (idx <? j + len); discriminate.
Qed.

Lemma tlv_scan_pad fuel i :
  0 <= i -> tlv_scan fuel pad buf idx i = tlv_scan fuel pad' buf idx i.
Proof.
  revert i. induction fuel as [|fuel IH]; intros i Hi; [reflexivity|].
  cbn [tlv_scan]. destruct (Z.ltb_spec (i + 1) idx); [|reflexivity].
  rewrite tlv_step_pad by lia.
  destruct (tlv_step pad' buf idx i) as [i'|r] eqn:E; [|reflexivity].
  apply IH. apply (tlv_step_again pad' i i' Hi E).
Qed.

End NdefPad.

Section NdefEnds.

Variables (pad : Z) (buf : list Z).

Hypothesis buf_bytes : Forall (fun b => 0 <= b < 255) buf.

Local Abbreviation idx := (Z.of_nat (List.length buf)).

Hypothesis idx_byte : idx < 256.

Lemma buf_at_small i : 0 <= i < idx -> 0 <= buf_at pad buf i < 255.
Proof.
  intros H. unfold buf_at. rewrite Forall_forall in buf_bytes.
  apply buf_bytes. apply nth_In. lia.
Qed.

Lemma tlv_step_forward i i' :
  0 <= i -> i + 1 < idx -> tlv_step pad buf idx i = Again i' -> i < i'.
Proof.
  intros Hi Hidx. unfold tlv_step. cbv zeta.
  destruct (buf_at pad buf i =? 0); [intros E; injection E as <-; lia|].
  destruct (buf_at pad buf i =? 254); [discriminate|].
  pose proof (buf_at_small (i + 1)) as L.
  rewrite (tlv_length_short pad buf idx (i + 1) (buf_at pad buf (i + 1))) by lia.
  destruct (negb (buf_at pad buf i =? 3)).
  - intros E. injection E as <-. unfold u16. rewrite wrap_u_small; [lia|].
    change (2 ^ 16) with 65536. lia.
  - destruct (idx <? _); discriminate.
Qed.

Lemma tlv_scan_ends fuel i :
  0 <= i -> (Z.to_nat (idx - i) < fuel)%nat ->
  exists r, tlv_scan fuel pad buf idx i = Some r.
Proof.
  revert i. induction fuel as [|fuel IH]; intros i Hi Hf; [lia|].
  cbn [tlv_scan]. destruct (Z.ltb_spec (i + 1) idx); [|exists no_ndef; reflexivity].
  destruct (tlv_step pad buf idx i) as [i'|r] eqn:E; [|exists r; reflexivity].
  pose proof (tlv_step_forward i i' Hi ltac:(lia) E).
  apply IH; lia.
Qed.

End NdefEnds.

(** X19.  Two bounds on the scan.  The one byte it reads behind the
    buffer (the payload length of a record whose TLV value starts two
    bytes before the end) never changes the result.  And on a buffer
    without a byte [0xFF], so without an extended length, every pass moves
    the index forward and the scan ends within as many passes as the
    buffer has bytes. *)
Theorem X19_ndef_scan_bounds (fuel : nat) (pad pad' : Z) (buf : list Z) :
  Forall (fun b => 0 <= b) buf -> 0 <= pad -> 0 <= pad' ->
  let idx := Z.of_nat (List.length buf) in
  tlv_scan fuel pad buf idx 0 = tlv_scan fuel pad' buf idx 0
  /\ (Forall (fun b => 0 <= b < 255) buf -> idx < 256 ->
      exists r, tlv_scan (S (List.length buf)) pad buf idx 0 = Some r).
Proof.
  intros Hb Hp Hp' idx. split.
  - apply tlv_scan_pad; [exact Hp | exact Hp' | exact Hb | lia].
  - intros Hs H8. apply tlv_scan_ends; [exact Hs | exact H8 | lia |].
    lia.
Qed.

Lemma X19_ndef_scan_bounds_witness :
  tlv_scan 3 0 [1; 3; 160; 12; 52; 3; 0; 254] 8 0
  = tlv_scan 3 77 [1; 3; 160; 12; 52; 3; 0; 254] 8 0.
Proof.
  destruct (X19_ndef_scan_bounds 3 0 77 [1; 3; 160; 12; 52; 3; 0; 254]) as (H & _).
  - repeat constructor; discriminate.
  - lia.
  - lia.
  - exact H.
Defined.

(** ** The device [setup] hands to [loop] *)

Section SetupReady.

Variable P : Platform.

Lemma pn532TryInit_from_ready n fw d :
  wifiUp (hw (snd (pn532TryInit_from n fw d))) = wifiUp (hw d)
  /\ (pinRSTPDN (hw d) = HIGH -> pinRSTPDN (hw (snd (pn532TryInit_from n fw d))) = HIGH)
  /\ fst (pn532TryInit_from n fw d) = existsb (fun v => negb (v =? 0)) (List.firstn n fw).
Proof.
  revert fw d. induction n as [|n IH]; intros fw d; cbn [pn532TryInit_from].
  - repeat split. intros H. exact H.
  - cbv zeta. destruct fw as [|v fw']; cbn [hd tl List.firstn existsb].
    + cbn [Z.eqb]. destruct (IH [] (emit [NfcBegin] (pn532HardReset d))) as (A & B & C).
      split; [exact A|]. split; [intros _; apply B; reflexivity|].
      rewrite C. destruct n; reflexivity.
    + destruct (v =? 0); cbn [negb orb].
      * destruct (IH fw' (emit [NfcBegin] (pn532HardReset d))) as (A & B & C).
        split; [exact A|]. split; [intros _; apply B; reflexivity | exact C].
      * repeat split.
Qed.

Lemma setup_peripherals_ready env d :
  gNfcUp (setup_peripherals env d) = negb (fw_setup env =? 0)
  /\ pinRSTPDN (hw (setup_peripherals env d)) = HIGH
  /\ wifiUp (hw (setup_peripherals env d)) = false.
Proof.
  unfold setup_peripherals. cbv zeta.
  match goal with
  | |- context [pn532TryInit ?fw ?x] =>
      pose proof (pn532TryInit_from_ready 5 fw x) as (A & B & _);
      assert (Fx : pinRSTPDN (hw x) = HIGH /\ wifiUp (hw x) = false)
  end.
  { unfold loadAll. destruct (negb (oled_ok env)); split; reflexivity. }
  destruct Fx as [F1 F2]. specialize (B F1). rewrite F2 in A.
  unfold pn532TryInit.
  destruct (pn532TryInit_from 5 _ _) as [r d1]. cbn [snd] in A, B.
  destruct r, (fw_setup env =? 0);
    (split; [reflexivity|]; split;
     [change (pinRSTPDN (hw d1) = HIGH); exact B
     | change (wifiUp (hw d1) = false); exact A]).
Qed.

Lemma setSystemTimeFromEpoch_ready e tag d :
  gNfcUp (setSystemTimeFromEpoch P e tag d) = gNfcUp d
  /\ pinRSTPDN (hw (setSystemTimeFromEpoch P e tag d)) = pinRSTPDN (hw d)
  /\ wifiUp (hw (setSystemTimeFromEpoch P e tag d)) = wifiUp (hw d).
Proof.
  unfold setSystemTimeFromEpoch. destruct (e <=? 0); [repeat split|].
  cbv zeta. destruct (localNow P _); repeat split.
Qed.

Lemma setup_time_ready env d :
  gNfcUp (setup_time P env d) = gNfcUp d
  /\ pinRSTPDN (hw (setup_time P env d)) = pinRSTPDN (hw d)
  /\ wifiUp (hw (setup_time P env d)) = false.
Proof.
  unfold setup_time.
  assert (Q : gNfcUp (setup_quiet_sync P env d) = gNfcUp d
              /\ pinRSTPDN (hw (setup_quiet_sync P env d)) = pinRSTPDN (hw d)).
  { unfold setup_quiet_sync. destruct (QUIET_EN (cfg d)); [|split; reflexivity].
    destruct (ensureTimeSync_frame P 6000 6000 false true (net_quiet env) d)
      as (_ & _ & A & _ & B & _).
    split; [exact A | exact B]. }
  set (d1 := setup_quiet_sync P env d) in *.
  assert (F : gNfcUp (setup_forced_sync P env d1) = gNfcUp d1
              /\ pinRSTPDN (hw (setup_forced_sync P env d1)) = pinRSTPDN (hw d1)
              /\ wifiUp (hw (setup_forced_sync P env d1)) = false).
  { unfold setup_forced_sync.
    destruct (ensureTimeSync_frame P 10000 10000 true true (net_boot env) d1)
      as (_ & _ & A & _ & B & _).
    pose proof (ensureTimeSync_radio_off P 10000 10000 true true (net_boot env) d1 eq_refl)
      as W.
    destruct (ensureTimeSync P 10000 10000 true true (net_boot env) d1) as [r d2].
    cbn [snd] in *. destruct (negb r && _ && _); [|split; [exact A | split; [exact B | exact W]]].
    destruct (setSystemTimeFromEpoch_ready (gPlannedWakeEpoch d2) "planned-wake" d2)
      as (X & Y & Z).
    split; [congruence|]. split; congruence. }
  set (d2 := setup_forced_sync P env d1) in *.
  destruct Q as (Q1 & Q2), F as (F1 & F2 & F3).
  unfold setup_last_sync. destruct (negb _ && _).
  - destruct (setSystemTimeFromEpoch_ready (gLastSyncEpoch d2) "last-sync-epoch" d2)
      as (X & Y & Z).
    split; [congruence|]. split; congruence.
  - split; [congruence|]. split; congruence.
Qed.

End SetupReady.

(** X20.  What [setup] hands to [loop], whatever it started from and
    whatever the network did: the sign is on an awake display, the idle
    timers start at the instant [setup] ends, the PN532 reset line is
    high, the radio is off, and [gNfcUp] says whether the firmware word
    read after the retries was non-zero; the outcome of the retries
    themselves, true exactly when one of the five reads was non-zero, is
    overwritten. *)
Theorem X20_setup_ready (P : Platform) (env : BootEnv) (d0 : Device) :
  let d := setup P env d0 in
  mode (ui d) = MODE_SIGN
  /\ displayAwake (ui d) = true
  /\ lastScanMs (ui d) = boot_ms env
  /\ pinRSTPDN (hw d) = HIGH
  /\ wifiUp (hw d) = false
  /\ gNfcUp d = negb (fw_setup env =? 0)
  /\ (forall fw x,
        fst (pn532TryInit fw x) = existsb (fun v => negb (v =? 0)) (List.firstn 5 fw)).
Proof.
  intros d.
  destruct (setup_peripherals_ready env d0) as (A & B & _).
  destruct (setup_time_ready P env (setup_peripherals env d0)) as (C & D & E).
  assert (S : mode (ui d) = MODE_SIGN /\ displayAwake (ui d) = true
              /\ lastScanMs (ui d) = boot_ms env
              /\ pinRSTPDN (hw d) = pinRSTPDN (hw (setup_time P env (setup_peripherals env d0)))
              /\ wifiUp (hw d) = wifiUp (hw (setup_time P env (setup_peripherals env d0)))
              /\ gNfcUp d = gNfcUp (setup_time P env (setup_peripherals env d0))).
  { unfold d, setup. cbv zeta. unfold displayWake.
    destruct (displayAwake _) eqn:W; repeat split. exact W. }
  destruct S as (S1 & S2 & S3 & S4 & S5 & S6).
  split; [exact S1|]. split; [exact S2|]. split; [exact S3|].
  split; [congruence|]. split; [congruence|]. split; [congruence|].
  intros fw x. apply (pn532TryInit_from_ready 5 fw x).
Qed.

Lemma X20_setup_ready_witness :
  gNfcUp (setup Esp32Utc.platform
            (mkBootEnv WAKEUP_UNDEFINED true [0x32010607] 0 Sample.net_down
               Sample.net_down 250)
            (power_on 0 0 0 None))
  = false
  /\ fst (pn532TryInit [0x32010607] (power_on 0 0 0 None)) = true.
Proof.
  destruct (X20_setup_ready Esp32Utc.platform
              (mkBootEnv WAKEUP_UNDEFINED true [0x32010607] 0 Sample.net_down
                 Sample.net_down 250)
              (power_on 0 0 0 None)) as (_ & _ & _ & _ & _ & H & K).
  split; [exact H|]. rewrite K. reflexivity.
Defined.

(** ** PN532 frames *)

Section Frames.

Lemma u8_idem_l a b : u8 (u8 a + b) = u8 (a + b).
Proof. unfold u8, wrap_u. apply Z.add_mod_idemp_l. discriminate. Qed.

Lemma csum8_neg x : csum8 x = u8 (- x).
Proof. unfold csum8. f_equal. unfold Z.lnot. lia. Qed.

(** A byte and its checksum add up to 0 in 8 bits. *)
Lemma csum8_cancels x : u8 (x + csum8 x) = 0.
Proof.
  rewrite csum8_neg. unfold u8, wrap_u.
  rewrite Z.add_mod_idemp_r by discriminate.
  replace (x + - x) with 0 by lia. reflexivity.
Qed.

Lemma frame_sum_total tfi data :
  frame_sum tfi data = u8 (tfi + fold_right Z.add 0 data) \/ data = [].
Proof.
  destruct data as [|b r]; [right; reflexivity|left].
  unfold frame_sum. revert tfi b. induction r as [|c r IH]; intros tfi b.
  - cbn. f_equal. lia.
  - cbn [fold_left fold_right] in *. rewrite IH. rewrite u8_idem_l. f_equal. lia.
Qed.

Lemma nth_after (data : list Z) x y : nth (List.length data) (data ++ [x; y]) 0 = x.
Proof. induction data as [|b r IH]; [reflexivity | exact IH]. Qed.

Lemma readHeader7_long a b c d e f g rest :
  readHeader7 (a :: b :: c :: d :: e :: f :: g :: rest)
  = Some (if a =? 1 then [b; c; d; e; f; g] else [a; b; c; d; e; f], a).
Proof. unfold readHeader7. cbn. destruct (a =? 1); reflexivity. Qed.

End Frames.

(** X21.  The frame [pn532SendCommandI2C] writes for a command of up to
    254 bytes has the preamble [00 00 FF], a length byte one above the
    command's length, and checksums that cancel in 8 bits: length plus
    length checksum, and [D4] plus the command bytes plus data checksum.
    Read back through [readHeader7], with or without the leading ready
    byte, [pn532DrainOneFrame] takes it for a frame with a good length
    checksum and never for an ACK, and it takes the ACK header for an
    ACK. *)
Theorem X21_pn532_frame (data : list Z) :
  (List.length data < 255)%nat ->
  let frame := pn532_frame data in
  let LEN := nth 3 frame 0 in
  let LCS := nth 4 frame 0 in
  let DCS := nth (6 + List.length data) frame 0 in
  List.firstn 3 frame = [0; 0; 255]
  /\ LEN = Z.of_nat (List.length data) + 1
  /\ u8 (LEN + LCS) = 0
  /\ u8 (0xD4 + fold_right Z.add 0 data + DCS) = 0
  /\ pn532DrainOneFrame true frame = 2
  /\ pn532DrainOneFrame true (1 :: frame) = 2
  /\ pn532DrainOneFrame true [0; 0; 255; 0; 255; 0] = 1
  /\ pn532DrainOneFrame true [1; 0; 0; 255; 0; 255; 0] = 1
  /\ pn532DrainOneFrame false frame = 0.
Proof.
  intros Hlen frame LEN LCS DCS.
  assert (EL : LEN = Z.of_nat (List.length data) + 1).
  { unfold LEN, frame, pn532_frame. cbn [nth app]. unfold u8.
    rewrite !wrap_u_small; change (2 ^ 8) with 256; try lia.
    rewrite wrap_u_small; change (2 ^ 8) with 256; lia. }
  assert (EC : u8 (LEN + LCS) = 0).
  { unfold LEN, LCS, frame, pn532_frame. cbn [nth app]. apply csum8_cancels. }
  assert (ED : u8 (0xD4 + fold_right Z.add 0 data + DCS) = 0).
  { unfold DCS, frame, pn532_frame. cbv zeta. cbn [app nth Nat.add].
    rewrite nth_after.
    destruct (frame_sum_total 212 data) as [E | ->].
    - rewrite E, <- u8_idem_l. apply csum8_cancels.
    - vm_compute. reflexivity. }
  assert (D : forall x y,
              pn532DrainOneFrame true ([0; 0; 255; LEN; LCS; 212] ++ data ++ [x; y])%list = 2
              /\ pn532DrainOneFrame true
                   (1 :: [0; 0; 255; LEN; LCS; 212] ++ data ++ [x; y])%list = 2).
  { intros x y. unfold pn532DrainOneFrame. cbn [negb].
    assert (N : is_ack [0; 0; 255; LEN; LCS; 212] = false).
    { unfold is_ack. cbn [nth]. rewrite !andb_false_r. reflexivity. }
    split.
    - destruct data as [|z r]; cbn [app]; rewrite readHeader7_long; cbn [Z.eqb];
        rewrite N; cbn [nth Z.eqb Pos.eqb andb negb]; rewrite EC; reflexivity.
    - cbn [app]. rewrite readHeader7_long. cbn [Z.eqb Pos.eqb].
      rewrite N. cbn [nth Z.eqb Pos.eqb andb negb]. rewrite EC. reflexivity. }
  split; [reflexivity|]. split; [exact EL|]. split; [exact EC|]. split; [exact ED|].
  destruct (D (csum8 (frame_sum 212 data)) 0) as [D1 D2].
  split; [exact D1|]. split; [exact D2|].
  split; [reflexivity|]. split; reflexivity.
Qed.

Lemma X21_pn532_frame_witness :
  pn532_frame [0x60; 0xFF; 0x01; 0x00]
  = [0x00; 0x00; 0xFF; 0x05; 0xFB; 0xD4; 0x60; 0xFF; 0x01; 0x00; 0xCC; 0x00]
  /\ pn532DrainOneFrame true (pn532_frame [0x60; 0xFF; 0x01; 0x00]) = 2.
Proof.
  split; [vm_compute; reflexivity|].
  destruct (X21_pn532_frame [0x60; 0xFF; 0x01; 0x00]) as (_ & _ & _ & _ & H & _).
  - cbn. lia.
  - exact H.
Defined.

(** ** Serial commands and the screen *)

Section SerialScreen.

Variable P : Platform.

Lemma same_screen_refl d : same_screen d d.
Proof. repeat split. Qed.

Lemma same_screen_trans a b c : same_screen a b -> same_screen b c -> same_screen a c.
Proof.
  unfold same_screen. intros H K. decompose [and] H. decompose [and] K.
  repeat split; congruence.
Qed.

Lemma same_screen_ui d d' : ui d' = ui d -> same_screen d d'.
Proof. intros E. unfold same_screen. rewrite E. repeat split. Qed.

Lemma sync_same_screen wifiMs ntpMs force verbose net d :
  same_screen d (snd (ensureTimeSync P wifiMs ntpMs force verbose net d)).
Proof.
  apply same_screen_ui.
  apply (ensureTimeSync_frame P wifiMs ntpMs force verbose net d).
Qed.

Lemma setSystemTimeFromEpoch_same_screen e tag d :
  same_screen d (setSystemTimeFromEpoch P e tag d).
Proof.
  unfold setSystemTimeFromEpoch. destruct (e <=? 0); [apply same_screen_refl|].
  cbv zeta. destruct (localNow P _); repeat split.
Qed.

Lemma setClockFromEpoch_same_screen e d : same_screen d (snd (setClockFromEpoch e d)).
Proof. unfold setClockFromEpoch. destruct (e <=? 0); repeat split. Qed.

Lemma setClockFromString_same_screen s d :
  same_screen d (snd (setClockFromString P s d)).
Proof.
  unfold setClockFromString.
  destruct (match sscanf6 P _ s with Some r => Some r | None => _ end)
    as [[[[[[Y M] D] h] m] sec]|]; [|apply same_screen_refl].
  cbv zeta. destruct (_ <=? 0); [repeat split|].
  eapply same_screen_trans; [|apply setClockFromEpoch_same_screen]. repeat split.
Qed.

Lemma night_same_screen net d : same_screen d (enterDeepSleep_NightTimer P net d).
Proof.
  assert (S : same_screen d (night_shutdown P net d)).
  { unfold night_shutdown.
    match goal with
    | |- context [negb (timeValid ?x)] =>
        assert (E : same_screen d x); [|set (y := x) in *]
    end.
    { unfold rtcHoldLevel, displaySleep.
      destruct (negb _), (displayAwake (ui d)); repeat split. }
    destruct (negb (timeValid y)); [|exact E].
    eapply same_screen_trans; [exact E | apply sync_same_screen]. }
  eapply same_screen_trans; [exact S|].
  unfold enterDeepSleep_NightTimer. cbv zeta.
  set (y := night_shutdown P net d).
  destruct (timeValid y); repeat split.
Qed.

Lemma addAllow_same_screen h d : same_screen d (snd (addAllow h d)).
Proof.
  unfold addAllow. destruct (_ <=? _); [repeat split|].
  destruct (inAllowlist _ _); repeat split.
Qed.

Lemma removeAllow_same_screen h d : same_screen d (snd (removeAllow h d)).
Proof. unfold removeAllow. destruct (remove_first _ _); repeat split. Qed.

Lemma serial_quiet_same_screen rest d : same_screen d (serial_quiet rest d).
Proof.
  unfold serial_quiet.
  repeat match goal with
         | |- context [if ?c then _ else _] => destruct c
         | |- context [match ?x with _ => _ end] => destruct x
         end;
    repeat split.
Qed.

(** Proves [same_screen d x] for an [x] made from [d] by printing,
    storing and display steps. *)
Ltac screen_eq :=
  unfold printShow, pnInfo, oledToast, displayWake, displaySleep, pn532HardReset,
    setenv_TZ;
  repeat match goal with
         | |- context [if ?c then _ else _] => destruct c
         | |- context [match ?x with Some _ => _ | None => _ end] => destruct x
         end;
  repeat split.

Lemma oledToast_awake l1 l2 d : displayAwake (ui (oledToast l1 l2 d)) = true.
Proof.
  unfold oledToast, displayWake. destruct (displayAwake (ui d)) eqn:W; [exact W | reflexivity].
Qed.

Lemma handleSerial_same_screen env d : same_screen d (dev (handleSerial P env d)).
Proof.
  unfold handleSerial.
  destruct (serial_line env) as [raw|]; [|apply same_screen_refl].
  cbv zeta. set (line := trim raw) in *.
  repeat match goal with
         | |- same_screen d (dev (if ?c then _ else _)) => destruct c
         end;
    try apply same_screen_refl.
  all: try solve [cbn [dev]; apply serial_quiet_same_screen].
  all: try solve [cbn [dev]; apply night_same_screen].
  all: try solve [
    match goal with
    | |- context [addAllow ?h ?d0] =>
        pose proof (addAllow_same_screen h d0) as E;
        destruct (addAllow h d0) as [[] d1]
    | |- context [removeAllow ?h ?d0] =>
        pose proof (removeAllow_same_screen h d0) as E;
        destruct (removeAllow h d0) as [[] d1]
    | |- context [setClockFromString P ?x ?d0] =>
        pose proof (setClockFromString_same_screen x d0) as E;
        destruct (setClockFromString P x d0) as [[] d1]
    | |- context [setClockFromEpoch ?x ?d0] =>
        pose proof (setClockFromEpoch_same_screen x d0) as E;
        destruct (setClockFromEpoch x d0) as [[] d1]
    end;
    cbn [snd dev] in *; (eapply same_screen_trans; [exact E|]); screen_eq].
  all: try solve [cbn [dev]; screen_eq].
  (* checknow *)
  - pose proof (sync_same_screen 10000 10000 true true (net env) d) as S.
    destruct (ensureTimeSync P 10000 10000 true true (net env) d) as [r d1].
    cbn [dev snd] in *. eapply same_screen_trans; [exact S|].
    destruct (negb r && _ && _); [|repeat split].
    eapply same_screen_trans; [apply setSystemTimeFromEpoch_same_screen|].
    repeat split.
  (* ntp *)
  - pose proof (sync_same_screen 10000 10000 false true (net env) d) as S.
    destruct (ensureTimeSync P 10000 10000 false true (net env) d) as [r d1].
    cbn [dev snd] in *. eapply same_screen_trans; [exact S|]. repeat split.
Qed.

End SerialScreen.

(** X22.  Serial commands leave the screen state machine alone: no
    command changes the mode, the expiry and code-reveal instants, the
    instant of the last scan, or what is remembered of the last tag.
    Typing commands therefore never postpones idle blanking or the
    daytime sleep; and a command that shows a toast on a blanked device
    wakes the display without leaving [MODE_SLEEP]. *)
Theorem X22_serial_keeps_screen (P : Platform) (env : LoopEnv) (d : Device) :
  same_screen d (dev (handleSerial P env d))
  /\ (forall raw arg,
        serial_line env = Some raw -> trim raw = "settz " ++ arg -> 0 < len (trim arg) ->
        mode (ui d) = MODE_SLEEP ->
        mode (ui (dev (handleSerial P env d))) = MODE_SLEEP
        /\ displayAwake (ui (dev (handleSerial P env d))) = true).
Proof.
  split; [apply handleSerial_same_screen|].
  intros raw arg E T L M.
  destruct (handleSerial_same_screen P env d) as (S & _).
  split; [rewrite S; exact M|].
  unfold handleSerial. rewrite E. cbv zeta. rewrite T.
  repeat match goal with
         | |- displayAwake (ui (dev (if ?c then _ else _))) = _ =>
             first [change c with false; cbv iota | change c with true; cbv iota]
         end.
  change (substring_from 6 ("settz " ++ arg)) with arg.
  destruct (Z.eqb_spec (len (trim arg)) 0); [lia|].
  destruct (nowString P _);
    match goal with |- context [oledToast ?a ?b ?x] => exact (oledToast_awake a b x) end.
Qed.

Lemma X22_serial_keeps_screen_witness :
  lastScanMs
    (ui (dev (handleSerial Esp32Utc.platform
                (Sample.loop_env (Some "clear") Sample.net_down)
                (Sample.running 5 false))))
  = lastScanMs (ui (Sample.running 5 false)).
Proof.
  destruct (X22_serial_keeps_screen Esp32Utc.platform
              (Sample.loop_env (Some "clear") Sample.net_down)
              (Sample.running 5 false)) as ((_ & _ & _ & H & _) & _).
  exact H.
Defined.

(** ** The time zone an admin tag can set *)

Section AdminTz.

Variable P : Platform.

Variable c : ascii.

Lemma indexOf_none_cons a s :
  indexOf c (String a s) = None <-> Ascii.eqb a c = false /\ indexOf c s = None.
Proof.
  cbn [indexOf]. destruct (Ascii.eqb a c); [split; [discriminate | intros [X _]; discriminate]|].
  destruct (indexOf c s); split; try discriminate; try tauto.
  intros [_ X]. discriminate.
Qed.

Lemma indexOf_none_app a b :
  indexOf c a = None -> indexOf c b = None -> indexOf c (a ++ b) = None.
Proof.
  intros Ha Hb. induction a as [|x r IH]; [exact Hb|].
  cbn [append]. apply indexOf_none_cons in Ha. destruct Ha as [X Y].
  apply indexOf_none_cons. split; [exact X | apply IH; exact Y].
Qed.

Lemma ltrim_free s : indexOf c s = None -> indexOf c (ltrim s) = None.
Proof.
  induction s as [|a r IH]; [intros H; exact H|].
  intros H. cbn [ltrim]. destruct (isspace a); [|exact H].
  apply IH. apply indexOf_none_cons in H. tauto.
Qed.

Lemma rtrim_free s : indexOf c s = None -> indexOf c (rtrim s) = None.
Proof.
  induction s as [|a r IH]; [intros H; exact H|].
  intros H. apply indexOf_none_cons in H. destruct H as [X Y].
  cbn [rtrim]. specialize (IH Y). destruct (rtrim r) as [|b r'].
  - destruct (isspace a); [reflexivity|]. apply indexOf_none_cons. split; [exact X | reflexivity].
  - apply indexOf_none_cons. split; [exact X | exact IH].
Qed.

Lemma trim_free s : indexOf c s = None -> indexOf c (trim s) = None.
Proof. intros H. unfold trim. apply rtrim_free, ltrim_free, H. Qed.

Lemma drop_free n s : indexOf c s = None -> indexOf c (drop n s) = None.
Proof.
  revert s. induction n as [|n IH]; intros s H; [exact H|].
  destruct s as [|a r]; [exact H|]. cbn [drop]. apply IH.
  apply indexOf_none_cons in H. tauto.
Qed.

Lemma take_free n s : indexOf c s = None -> indexOf c (take n s) = None.
Proof.
  revert s. induction n as [|n IH]; intros s H; [reflexivity|].
  destruct s as [|a r]; [reflexivity|]. cbn [take].
  apply indexOf_none_cons in H. destruct H as [X Y].
  apply indexOf_none_cons. split; [exact X | apply IH; exact Y].
Qed.

Lemma replace_free find repl s :
  indexOf c repl = None -> find = c \/ indexOf c s = None ->
  indexOf c (replace find repl s) = None.
Proof.
  intros Hr. induction s as [|a r IH]; intros H; [reflexivity|].
  cbn [replace]. destruct (Ascii.eqb a find) eqn:E.
  - apply indexOf_none_app; [exact Hr|]. apply IH.
    destruct H as [H|H]; [left; exact H|right].
    apply indexOf_none_cons in H. tauto.
  - apply indexOf_none_cons. split.
    + destruct H as [<-|H]; [exact E|]. apply indexOf_none_cons in H. tauto.
    + apply IH. destruct H as [H|H]; [left; exact H|right].
      apply indexOf_none_cons in H. tauto.
Qed.

Lemma segments_free s :
  indexOf c s = None -> Forall (fun l => indexOf c l = None) (segments s).
Proof.
  induction s as [|a r IH]; [constructor|].
  intros H. apply indexOf_none_cons in H. destruct H as [X Y]. specialize (IH Y).
  cbn [segments]. destruct (Ascii.eqb a "010").
  - constructor; [reflexivity | exact IH].
  - destruct (segments r) as [|l ls].
    + constructor; [|constructor]. apply indexOf_none_cons. split; [exact X | reflexivity].
    + inversion IH as [|? ? H1 H2]; subst. constructor; [|exact H2].
      apply indexOf_none_cons. split; [exact X | exact H1].
Qed.

(** The time zone after one key: the one before, or the value given. *)
Lemma applyKV_tz_value k v d ar :
  SET_TZ (cfg (fst (applyKV P k v d ar))) = SET_TZ (cfg d)
  \/ SET_TZ (cfg (fst (applyKV P k v d ar))) = trim v.
Proof.
  unfold applyKV.
  repeat match goal with
         | |- context [if String.eqb ?a ?b then _ else _] => destruct (String.eqb a b)
         end;
    try (left; reflexivity).
  - destruct (len _ =? 4); left; reflexivity.
  - unfold addAllow. destruct (_ <=? _); [left; reflexivity|].
    destruct (inAllowlist _ _); left; reflexivity.
  - unfold removeAllow. destruct (remove_first _ _); left; reflexivity.
  - destruct (_ || _); left; reflexivity.
  - destruct (setClockFromString_same_store P (trim v) d) as [E _].
    destruct (setClockFromString P (trim v) d) as [[] d1]; cbn [fst snd] in *;
      rewrite E; left; reflexivity.
  - destruct (setClockFromEpoch_same_store (time_t (strtoll (trim v))) d) as [E _].
    destruct (setClockFromEpoch _ d) as [[] d1]; cbn [fst snd] in *;
      rewrite E; left; reflexivity.
  - destruct (2 <? len _); [right | left]; reflexivity.
Qed.

Lemma run_lines_tz_free lines st tz0 :
  Forall (fun l => indexOf c l = None) lines ->
  SET_TZ (cfg (fst st)) = tz0 \/ indexOf c (SET_TZ (cfg (fst st))) = None ->
  SET_TZ (cfg (fst (fold_left (applyConfigLine P) lines st))) = tz0
  \/ indexOf c (SET_TZ (cfg (fst (fold_left (applyConfigLine P) lines st)))) = None.
Proof.
  intros F. revert st. induction F as [|l ls Hl F IH]; intros st H; [exact H|].
  cbn [fold_left]. apply IH. destruct st as [d ar]. unfold applyConfigLine.
  destruct (len (trim l) =? 0); [exact H|].
  destruct (indexOf "=" (trim l)) as [eq|]; [|exact H].
  destruct (applyKV_tz_value (trim (substring 0 eq (trim l)))
              (trim (substring_from (S eq) (trim l))) d ar) as [E|E]; rewrite E.
  - exact H.
  - right. apply trim_free, trim_free. unfold substring_from.
    apply drop_free, trim_free, Hl.
Qed.

End AdminTz.

(** X23.  An admin payload cannot set a time zone that holds a comma or
    a semicolon: both are item separators, so after [applyConfigText] the
    configured zone is the one before or a text without either.  A POSIX
    zone with daylight-saving rules, the compiled-in default among them,
    is cut at its first comma; the serial command [settz] takes it
    whole. *)
Theorem X23_admin_tz_no_separator (P : Platform) (txt : string) (d : Device) :
  let d' := snd (applyConfigText P txt d) in
  SET_TZ (cfg d') = SET_TZ (cfg d)
  \/ (indexOf "," (SET_TZ (cfg d')) = None /\ indexOf ";" (SET_TZ (cfg d')) = None).
Proof.
  intros d'. unfold d'. rewrite applyConfigText_run. cbn [snd].
  change (cfg (saveAll (fst (run_config P txt (d, mkAdminResult true "saved")))))
    with (cfg (fst (run_config P txt (d, mkAdminResult true "saved")))).
  unfold run_config, config_lines, split_separators.
  set (nl := String "010" EmptyString).
  set (s := replace "," nl (replace ";" nl (replace "013" EmptyString txt))).
  assert (Hc : indexOf "," s = None).
  { apply replace_free; [reflexivity | left; reflexivity]. }
  assert (Hs : indexOf ";" s = None).
  { apply replace_free; [reflexivity | right].
    apply replace_free; [reflexivity | left; reflexivity]. }
  destruct (run_lines_tz_free P "," (segments s) (d, mkAdminResult true "saved")
              (SET_TZ (cfg d)) (segments_free "," s Hc) (or_introl eq_refl)) as [A|A];
    [left; exact A|].
  destruct (run_lines_tz_free P ";" (segments s) (d, mkAdminResult true "saved")
              (SET_TZ (cfg d)) (segments_free ";" s Hs) (or_introl eq_refl)) as [B|B];
    [left; exact B|].
  right. split; [exact A | exact B].
Qed.

Lemma X23_admin_tz_no_separator_witness :
  SET_TZ (cfg (snd (applyConfigText Esp32Utc.platform "tz=EST5EDT,M3.2.0/2,M11.1.0/2"
                      (Sample.running 5 false))))
  = "EST5EDT"
  /\ SET_TZ (cfg (dev (handleSerial Esp32Utc.platform
                         (Sample.loop_env (Some "settz EST5EDT,M3.2.0/2,M11.1.0/2")
                            Sample.net_down)
                         (Sample.running 5 false))))
     = "EST5EDT,M3.2.0/2,M11.1.0/2"
  /\ (SET_TZ (cfg (snd (applyConfigText Esp32Utc.platform "tz=CET-1CEST,M3.5.0"
                          (Sample.running 5 false))))
      = SET_TZ (cfg (Sample.running 5 false))
      \/ (indexOf "," (SET_TZ (cfg (snd (applyConfigText Esp32Utc.platform
                                           "tz=CET-1CEST,M3.5.0"
                                           (Sample.running 5 false)))))
          = None
          /\ indexOf ";" (SET_TZ (cfg (snd (applyConfigText Esp32Utc.platform
                                              "tz=CET-1CEST,M3.5.0"
                                              (Sample.running 5 false)))))
             = None)).
Proof.
  split; [vm_compute; reflexivity|]. split; [vm_compute; reflexivity|].
  exact (X23_admin_tz_no_separator Esp32Utc.platform "tz=CET-1CEST,M3.5.0"
           (Sample.running 5 false)).
Defined.

(** ** A pass of [loop] without a serial line and without a tag *)

Section IdlePass.

Variable P : Platform.

Lemma quietNow_same d d' :
  cfg d' = cfg d -> timeValid d' = timeValid d ->
  sysClock (hw d') = sysClock (hw d) -> envTZ (hw d') = envTZ (hw d) ->
  quietNow P d' = quietNow P d.
Proof.
  intros A B C D. unfold quietNow, inQuietHours, localNow. rewrite A, B, C, D. reflexivity.
Qed.

Lemma loop_timers_keeps env d :
  cfg (loop_timers env d) = cfg d
  /\ timeValid (loop_timers env d) = timeValid d
  /\ sysClock (hw (loop_timers env d)) = sysClock (hw d)
  /\ envTZ (hw (loop_timers env d)) = envTZ (hw d)
  /\ lastScanMs (ui (loop_timers env d)) = lastScanMs (ui d).
Proof.
  unfold loop_timers, displaySleep. cbv zeta.
  repeat match goal with
         | |- context [if ?c then _ else _] => destruct c; cbn [cfg hw ui upd_ui set_ui]
         end; repeat split.
Qed.

Lemma loop_poll_no_tag env d :
  tag env = None ->
  cfg (loop_poll P env d) = cfg d
  /\ hw (loop_poll P env d) = hw d
  /\ timeValid (loop_poll P env d) = timeValid d
  /\ lastScanMs (ui (loop_poll P env d)) = lastScanMs (ui d).
Proof.
  intros T. unfold loop_poll. cbv zeta. rewrite T.
  destruct (gNfcUp d && _); [|repeat split].
  destruct (120 <=? _); repeat split.
Qed.

Lemma loop_idle_pass env d :
  serial_line env = None -> tag env = None -> quietNow P d = false ->
  loop P env d
  = if SET_SLEEP_MS (cfg d) <? u32 (millis env AtIdle - lastScanMs (ui d))
    then Suspended (enterDeepSleep_DayIRQ P (autopoll_io env)
                      (loop_timers env (loop_poll P env d)))
    else Running (loop_timers env (loop_poll P env d)).
Proof.
  intros S T Q. unfold loop, handleSerial. rewrite S, Q. cbv zeta.
  destruct (loop_poll_no_tag env d T) as (A & B & C & D).
  destruct (loop_timers_keeps env (loop_poll P env d)) as (A' & B' & C' & D' & E').
  rewrite (quietNow_same d (loop_timers env (loop_poll P env d))), Q;
    [|congruence|congruence|rewrite C', B; reflexivity|rewrite D', B; reflexivity].
  cbn [negb andb]. rewrite A', A, E', D. reflexivity.
Qed.

End IdlePass.

(** X24.  A pass of [loop] with no serial line and no tag, outside quiet
    hours, ends in the daytime deep sleep exactly when the last scan is
    more than [SET_SLEEP_MS] old.  With settings as the setters leave
    them that is never within 30 seconds of a scan, whatever was
    configured; a pass that does not suspend leaves the settings and the
    store as they were. *)
Theorem X24_day_sleep_after_idle (P : Platform) (env : LoopEnv) (d : Device) :
  serial_line env = None -> tag env = None -> quietNow P d = false ->
  let idle := u32 (millis env AtIdle - lastScanMs (ui d)) in
  (SET_SLEEP_MS (cfg d) < idle <->
   loop P env d
   = Suspended (enterDeepSleep_DayIRQ P (autopoll_io env)
                  (loop_timers env (loop_poll P env d))))
  /\ (idle <= SET_SLEEP_MS (cfg d) <->
      loop P env d = Running (loop_timers env (loop_poll P env d)))
  /\ same_store d (loop_timers env (loop_poll P env d))
  /\ (device_ok d -> idle <= 30000 -> exists d', loop P env d = Running d').
Proof.
  intros S T Q idle. rewrite (loop_idle_pass P env d S T Q). fold idle.
  assert (St : same_store d (loop_timers env (loop_poll P env d))).
  { destruct (loop_poll_no_tag P env d T) as (A & B & _).
    destruct (loop_timers_same_store env (loop_poll P env d)) as (A' & B').
    split; [congruence | rewrite B', B; reflexivity]. }
  destruct (Z.ltb_spec (SET_SLEEP_MS (cfg d)) idle) as [L|L].
  - split; [split; [reflexivity | intros _; exact L]|].
    split; [split; [lia | discriminate]|].
    split; [exact St|].
    intros (H & _) I. unfold settings_ok in H. decompose [and] H. lia.
  - split; [split; [lia | discriminate]|].
    split; [split; [reflexivity | intros _; exact L]|].
    split; [exact St|].
    intros _ _. eexists. reflexivity.
Qed.

Lemma X24_day_sleep_after_idle_witness :
  loop Esp32Utc.platform (Sample.loop_env None Sample.net_down)
    (Sample.running_quiet_off Sample.late_evening true)
  = Running (loop_timers (Sample.loop_env None Sample.net_down)
               (loop_poll Esp32Utc.platform (Sample.loop_env None Sample.net_down)
                  (Sample.running_quiet_off Sample.late_evening true))).
Proof.
  destruct (X24_day_sleep_after_idle Esp32Utc.platform
              (Sample.loop_env None Sample.net_down)
              (Sample.running_quiet_off Sample.late_evening true))
    as (_ & (H & _) & _).
  - reflexivity.
  - reflexivity.
  - vm_compute. reflexivity.
  - apply H. vm_compute. discriminate.
Defined.

(** ** Two serial commands in full *)

Section SerialCommands.

Variable P : Platform.

Ltac skip_tests :=
  repeat match goal with
         | |- (if ?c then _ else _) = _ => change c with false; cbv iota
         end.

Lemma handleSerial_checknow env d raw :
  serial_line env = Some raw -> trim raw = "checknow" ->
  handleSerial P env d
  = let (synced, d1) := ensureTimeSync P 10000 10000 true true (net env) d in
    let d2 :=
      if negb synced && is_timer (wakeup_cause env) && (0 <? gPlannedWakeEpoch d1)
      then setSystemTimeFromEpoch P (gPlannedWakeEpoch d1) "planned-wake(manual)" d1
      else d1 in
    Running (emit [Println (if timeValid d2 then "time:ok" else "time:unknown")] d2).
Proof.
  intros E T. unfold handleSerial. rewrite E. cbv zeta. rewrite T.
  skip_tests. reflexivity.
Qed.


End SerialCommands.

(** X25.  The serial command [checknow] after a timer wake.  When its
    forced sync fails and a planned wake epoch is on record, the clock is
    set to that epoch and marked valid, whatever it read before and
    however long ago the wake was; after any other wake, or with no
    planned epoch, a failed sync is all that happens. *)
Theorem X25_checknow_planned_wake
    (P : Platform) (env : LoopEnv) (d : Device) (raw : string) :
  serial_line env = Some raw -> trim raw = "checknow" ->
  fst (ensureTimeSync P 10000 10000 true true (net env) d) = false ->
  let d' := dev (handleSerial P env d) in
  let synced := snd (ensureTimeSync P 10000 10000 true true (net env) d) in
  (wakeup_cause env = WAKEUP_TIMER -> 0 < gPlannedWakeEpoch d ->
   sysClock (hw d') = gPlannedWakeEpoch d /\ timeValid d' = true)
  /\ (wakeup_cause env <> WAKEUP_TIMER \/ gPlannedWakeEpoch d <= 0 ->
      sysClock (hw d') = sysClock (hw synced) /\ timeValid d' = timeValid synced).
Proof.
  intros E T F d' synced. unfold d', synced.
  rewrite (handleSerial_checknow P env d raw E T).
  destruct (ensureTimeSync_frame P 10000 10000 true true (net env) d)
    as (_ & _ & _ & Pl & _).
  destruct (ensureTimeSync P 10000 10000 true true (net env) d) as [r d1].
  cbn [fst snd] in *. subst r. cbn [negb andb]. rewrite Pl.
  split.
  - intros C Hp. rewrite C. cbn [is_timer].
    destruct (Z.ltb_spec 0 (gPlannedWakeEpoch d)); [|lia].
    destruct (setSystemTimeFromEpoch_sets P (gPlannedWakeEpoch d) "planned-wake(manual)"
                d1 Hp) as [V S].
    split; [exact S | exact V].
  - intros [C|Hp].
    + destruct (wakeup_cause env); try (split; reflexivity). contradiction C; reflexivity.
    + destruct (Z.ltb_spec 0 (gPlannedWakeEpoch d)); [lia|].
      rewrite andb_false_r. split; reflexivity.
Qed.

Lemma X25_checknow_planned_wake_witness :
  sysClock
    (hw (dev (handleSerial Esp32Utc.platform
                (mkLoopEnv (Some "checknow") WAKEUP_TIMER Sample.net_down 0x32010607
                   (fun _ => 1000) None I2cAck)
                (set_gPlannedWakeEpoch Sample.seven_sharp
                   (Sample.running Sample.late_evening true)))))
  = Sample.seven_sharp.
Proof.
  destruct (X25_checknow_planned_wake Esp32Utc.platform
              (mkLoopEnv (Some "checknow") WAKEUP_TIMER Sample.net_down 0x32010607
                 (fun _ => 1000) None I2cAck)
              (set_gPlannedWakeEpoch Sample.seven_sharp
                 (Sample.running Sample.late_evening true))
              "checknow") as (H & _).
  - reflexivity.
  - vm_compute. reflexivity.
  - vm_compute. reflexivity.
  - destruct H as (H & _); [reflexivity | vm_compute; reflexivity | exact H].
Defined.



(** X27.  A negative duration.  The serial command [active_ms] reads its
    number into an [unsigned long], so a negative one becomes a duration
    of more than 2^31 ms before the floor is applied, and idle blanking
    is as good as switched off; the admin key [active_ms] compares as a
    [long] and stores the floor.  On a number that is not negative the
    two agree. *)
Theorem X27_serial_negative_duration
    (P : Platform) (env : LoopEnv) (d : Device) (raw arg : string) (ar : AdminResult) :
  serial_line env = Some raw -> trim raw = "active_ms " ++ arg ->
  let serial := SET_ACTIVE_MS (cfg (dev (handleSerial P env d))) in
  let admin := SET_ACTIVE_MS (cfg (fst (applyKV P "active_ms" arg d ar))) in
  (toInt arg < 0 -> serial = 2 ^ 32 + toInt arg /\ 2 ^ 31 <= serial)
  /\ (0 <= toInt arg -> serial = Z.max 10000 (toInt arg))
  /\ admin = Z.max 10000 (toInt (trim arg)).
Proof.
  intros E T serial admin.
  assert (S : serial = floor_ul 10000 arg).
  { unfold serial, handleSerial. rewrite E. cbv zeta. rewrite T.
    repeat match goal with
           | |- SET_ACTIVE_MS (cfg (dev (if ?c then _ else _))) = _ =>
               change c with false; cbv iota
           end.
    reflexivity. }
  pose proof (toInt_range arg) as R. unfold LONG_MIN, LONG_MAX in R.
  change (2 ^ 31) with 2147483648 in *. change (2 ^ 32) with 4294967296 in *.
  split; [|split].
  - intros N. rewrite S. unfold floor_ul. cbv zeta.
    assert (U : u32 (toInt arg) = 4294967296 + toInt arg).
    { unfold u32, wrap_u. change (2 ^ 32) with 4294967296.
      symmetry. apply (Z.mod_unique _ _ (-1)); lia. }
    rewrite U. destruct (Z.ltb_spec (4294967296 + toInt arg) 10000); lia.
  - intros N. rewrite S. unfold floor_ul. cbv zeta.
    rewrite u32_long by (unfold LONG_MAX; change (2 ^ 31) with 2147483648; lia).
    destruct (Z.ltb_spec (toInt arg) 10000); lia.
  - pose proof (toInt_range (trim arg)) as R'. unfold LONG_MIN, LONG_MAX in R'.
    change (2 ^ 31) with 2147483648 in R'.
    change admin with (u32 (Z.max 10000 (toInt (trim arg)))).
    apply u32_long. unfold LONG_MAX. change (2 ^ 31) with 2147483648. lia.
Qed.

Lemma X27_serial_negative_duration_witness :
  SET_ACTIVE_MS
    (cfg (dev (handleSerial Esp32Utc.platform
                 (Sample.loop_env (Some "active_ms -1") Sample.net_down)
                 (Sample.running 5 false))))
  = 4294967295.
Proof.
  destruct (X27_serial_negative_duration Esp32Utc.platform
              (Sample.loop_env (Some "active_ms -1") Sample.net_down)
              (Sample.running 5 false) "active_ms -1" "-1" (mkAdminResult true ""))
    as (H & _).
  - reflexivity.
  - vm_compute. reflexivity.
  - destruct H as (H & _); [vm_compute; reflexivity|].
    rewrite H. vm_compute. reflexivity.
Defined.
